(** * Workers Builds notifications: a shallow embedding

    The development follows the TypeScript sources of the worker:

    - [src/index.ts]: the queue handler ([queue]);
    - [src/notificationManager.ts]: the notifier registry and
      [sendNotifications];
    - [src/notifiers/base.ts]: [NotificationData] and the [Notifier]
      interface;
    - [src/notifiers/slack.ts], [src/notifiers/discord.ts]: the Block Kit
      and embed payload builders;
    - [src/helpers.ts], [src/api.ts], [src/types.ts] and
      [src/notifiers/lark.ts] are not part of the sources at hand.  What the
      present code imports from them is gathered in interfaces ([Helpers],
      the Lark notifier and the fetchers are parameters), and the helpers are
      also given a model written after the specification ([Module Spec]).

    JavaScript values are modelled as the code uses them: a value of type
    [string | null | undefined] is an [option string], truthiness is
    [truthy], [a || b] is [js_or], a property read on [null]/[undefined]
    raises a [TypeError], and [async] code is a state-and-exception monad
    over a log of observable effects.  A string is modelled by its bytes in
    UTF-8: concatenation, [includes], [startsWith] and the comparison with a
    literal are the same on the bytes.  Lengths and cut positions are not,
    JavaScript counts UTF-16 code units: [jsLength] and [substringUnits]
    count them on the bytes, and [substring0], which counts bytes, is used
    for the hexadecimal text of commit hashes only, where the two counts are
    the same. *)

From Stdlib Require Import String Ascii List Bool Arith NArith Lia DecimalString.
Import ListNotations.
Open Scope string_scope.

(* ================================================================== *)
(** * JavaScript primitives *)
(* ================================================================== *)

Module Js.

(** Line feed, the [\n] of the template literals. *)
Definition nl : string := String (ascii_of_nat 10) EmptyString.

(** The double quote character (it occurs in log lines). *)
Definition dq : string := String (ascii_of_nat 34) EmptyString.

(** Truthiness of a [string | null | undefined]: only a non-empty string is
    truthy. *)
Definition truthy (o : option string) : bool :=
  match o with
  | Some s => negb (s =? "")
  | None => false
  end.

(** [a || b] on [string | null | undefined]. *)
Definition js_or (a b : option string) : option string :=
  if truthy a then a else b.

(** [a || "literal"]: the right operand is a string. *)
Definition or_default (a : option string) (d : string) : string :=
  match a with
  | Some s => if s =? "" then d else s
  | None => d
  end.

(** [s.substring(0, n)] on ASCII text, where a byte is a code unit: the
    first [n] bytes.  It is the cut of the commit hash. *)
Definition substring0 (n : nat) (s : string) : string :=
  String.substring 0 n s.

(** The number of UTF-16 code units of the character that the byte [c]
    starts: one for an ASCII byte and for the lead of a sequence of two or
    three bytes, two (a surrogate pair) for the lead of a sequence of four
    bytes, none for a continuation byte. *)
Definition codeUnits (c : ascii) : nat :=
  let n := nat_of_ascii c in
  if (n <? 128)%nat then 1
  else if (n <? 192)%nat then 0
  else if (n <? 240)%nat then 1
  else 2.

(** [s.length]: the number of code units. *)
Fixpoint jsLength (s : string) : nat :=
  match s with
  | EmptyString => 0
  | String c s' => codeUnits c + jsLength s'
  end.

(** The first half of the surrogate pair of the character whose four bytes
    are [c] and the first three of [rest], in the three bytes of generalised
    UTF-8.  With [u] the bits 10 to 20 of the code point, the half is
    [0xD800 + (u - 0x40)]. *)
Definition highSurrogate (c : ascii) (rest : string) : string :=
  match rest with
  | String b1 (String b2 _) =>
      let w := (nat_of_ascii c mod 8) * 256 + (nat_of_ascii b1 mod 64) * 4
               + (nat_of_ascii b2 mod 64) / 16 - 64 in
      String (ascii_of_nat 237)
        (String (ascii_of_nat (160 + w / 64))
           (String (ascii_of_nat (128 + w mod 64)) EmptyString))
  | _ => EmptyString
  end.

(** [s.substring(0, n)]: the code units before position [n].  The bytes of
    a character stay together; when position [n] falls inside a surrogate
    pair, JavaScript keeps the first half alone. *)
Fixpoint substringUnits (n : nat) (s : string) : string :=
  match s with
  | EmptyString => EmptyString
  | String c s' =>
      match codeUnits c with
      | 0 => String c (substringUnits n s')
      | 1 => match n with
             | 0 => EmptyString
             | S n' => String c (substringUnits n' s')
             end
      | _ => match n with
             | 0 => EmptyString
             | 1 => highSurrogate c s'
             | S (S n') => String c (substringUnits n' s')
             end
      end
  end.

(** Text of the Basic Multilingual Plane: no character takes a surrogate
    pair. *)
Fixpoint inBmp (s : string) : bool :=
  match s with
  | EmptyString => true
  | String c s' => (codeUnits c <=? 1)%nat && inBmp s'
  end.

(** ASCII text. *)
Fixpoint isAscii (s : string) : bool :=
  match s with
  | EmptyString => true
  | String c s' => (nat_of_ascii c <? 128)%nat && isAscii s'
  end.

(** [s.startsWith(p)]. *)
Fixpoint startsWith (p s : string) : bool :=
  match p, s with
  | EmptyString, _ => true
  | String _ _, EmptyString => false
  | String a p', String b s' => Ascii.eqb a b && startsWith p' s'
  end.

(** [s.includes(sub)]. *)
Fixpoint includes (sub s : string) : bool :=
  startsWith sub s ||
  match s with
  | EmptyString => false
  | String _ s' => includes sub s'
  end.

(** [xs.join(sep)]. *)
Fixpoint join (sep : string) (xs : list string) : string :=
  match xs with
  | [] => ""
  | [x] => x
  | x :: rest => x ++ sep ++ join sep rest
  end.

(** What a [throw] carries. *)
Inductive Exn : Type :=
| TypeError (msg : string)
| Error (msg : string).

(** Completion of an expression that may throw. *)
Inductive completion (A : Type) : Type :=
| Normal (a : A)
| Throw (e : Exn).
Arguments Normal {A} a.
Arguments Throw {A} e.

End Js.
Import Js.

(* ================================================================== *)
(** * Data model ([types.ts], [notifiers/base.ts]) *)
(* ================================================================== *)

(** [payload.buildTriggerMetadata].  The builders read [branch],
    [commitHash] and [author]; the other fields are those of the events the
    test-suite builds and are read by [getCommitUrl] only. *)
Record BuildTriggerMetadata : Type := {
  branch : option string;
  commitHash : option string;
  author : option string;
  repoName : option string;
  providerAccountName : option string;
  providerType : option string
}.

Record EventSource : Type := {
  workerName : option string
}.

Record EventPayload : Type := {
  buildUuid : string;
  status : string;
  buildOutcome : option string;
  createdAt : string;
  stoppedAt : option string;
  buildTriggerMetadata : option BuildTriggerMetadata
}.

Record EventMetadata : Type := {
  accountId : string;
  eventTimestamp : string
}.

(** A [CloudflareEvent] as it arrives at run time: the queue handler
    checks [type], [payload] and [metadata] for presence, the builders read
    [source] through [?.]. *)
Record CloudflareEvent : Type := {
  type : option string;
  source : option EventSource;
  payload : option EventPayload;
  metadata : option EventMetadata
}.

(** The result of [getBuildStatus]. *)
Record BuildStatus : Type := {
  isSucceeded : bool;
  isFailed : bool;
  isCancelled : bool
}.

(** [NotificationData] of [notifiers/base.ts]. *)
Record NotificationData : Type := {
  event : CloudflareEvent;
  previewUrl : option string;
  liveUrl : option string;
  logs : list string
}.

(** [event.payload?.buildTriggerMetadata]. *)
Definition triggerMeta (e : CloudflareEvent) : option BuildTriggerMetadata :=
  match payload e with
  | Some p => buildTriggerMetadata p
  | None => None
  end.

(** [meta?.field]. *)
Definition metaField (f : BuildTriggerMetadata -> option string)
    (meta : option BuildTriggerMetadata) : option string :=
  match meta with
  | Some m => f m
  | None => None
  end.

(** [event.source?.workerName || "Worker"]. *)
Definition workerNameOr (e : CloudflareEvent) : string :=
  or_default (match source e with Some s => workerName s | None => None end)
             "Worker".

(** The imports from [../helpers] that the notifiers and the queue handler
    use.  [helpers.ts] is not among the sources, so the builders are
    embedded over any implementation of these six functions. *)
Class Helpers : Type := {
  getBuildStatus : CloudflareEvent -> BuildStatus;
  isProductionBranch : option string -> bool;
  extractAuthorName : option string -> option string;
  getCommitUrl : CloudflareEvent -> option string;
  getDashboardUrl : CloudflareEvent -> option string;
  extractBuildError : list string -> string
}.

(* ================================================================== *)
(** * Slack notifier ([notifiers/slack.ts]) *)
(* ================================================================== *)

Module Slack.

(** The [Button] accessory of a section block
    ([type: "button"], text of [type: "plain_text"]). *)
Record Button : Type := {
  btn_text : string;
  btn_url : string;
  btn_style : option string
}.

(** [SectionBlock]: [{ type: "section", text: { type: "mrkdwn", text },
    accessory? }]. *)
Record SectionBlock : Type := {
  sec_text : string;
  sec_accessory : option Button
}.

(** [MrkdwnElement]: [{ type: "mrkdwn", text }]. *)
Record MrkdwnElement : Type := {
  mrkdwn_text : string
}.

(** [KnownBlock], restricted to the two kinds the notifier builds.
    [ContextBlock] is [{ type: "context", elements }]. *)
Inductive KnownBlock : Type :=
| Section_ (b : SectionBlock)
| Context_ (elements : list MrkdwnElement).

Record SlackPayload : Type := {
  blocks : list KnownBlock
}.

(** [buildSectionBlock(text, buttonText?, buttonUrl?, buttonStyle?)]: the
    accessory is set when [buttonText && buttonUrl], its [style] when
    [buttonStyle] is truthy. *)
Definition buildSectionBlock (text : string)
    (buttonText buttonUrl buttonStyle : option string) : SectionBlock :=
  {| sec_text := text;
     sec_accessory :=
       match buttonText, buttonUrl with
       | Some bt, Some bu =>
           if truthy buttonText && truthy buttonUrl
           then Some {| btn_text := bt;
                        btn_url := bu;
                        btn_style := if truthy buttonStyle
                                     then buttonStyle else None |}
           else None
       | _, _ => None
       end |}.

Definition buildContextBlock (elements : list MrkdwnElement) : KnownBlock :=
  Context_ elements.

Section Builders.
Context {H : Helpers}.

(** [buildContextElements(event)]: the three [if]s push in this order. *)
Definition buildContextElements (e : CloudflareEvent) : list MrkdwnElement :=
  let meta := triggerMeta e in
  let commitUrl := getCommitUrl e in
  let elements0 : list MrkdwnElement := [] in
  let elements1 :=
    match metaField branch meta with
    | Some b =>
        if truthy (Some b)
        then (elements0 ++ [ {| mrkdwn_text := "*Branch:* `" ++ b ++ "`" |} ])%list
        else elements0
    | None => elements0
    end in
  let elements2 :=
    match metaField commitHash meta with
    | Some h =>
        if truthy (Some h)
        then
          let commitText := substring0 7 h in
          (elements1 ++
           [ {| mrkdwn_text :=
                  "*Commit:* " ++
                  match commitUrl with
                  | Some u =>
                      if truthy (Some u)
                      then "<" ++ u ++ "|" ++ commitText ++ ">"
                      else "`" ++ commitText ++ "`"
                  | None => "`" ++ commitText ++ "`"
                  end |} ])%list
        else elements1
    | None => elements1
    end in
  let authorName := extractAuthorName (metaField author meta) in
  match authorName with
  | Some a =>
      if truthy (Some a)
      then (elements2 ++ [ {| mrkdwn_text := "*Author:* " ++ a |} ])%list
      else elements2
  | None => elements2
  end.

(** The shared tail of the three message builders:
    [if (contextElements.length > 0) blocks.push(buildContextBlock(...))]. *)
Definition pushContext (e : CloudflareEvent) (blocks : list KnownBlock)
    : list KnownBlock :=
  let contextElements := buildContextElements e in
  if (0 <? List.length contextElements)%nat
  then (blocks ++ [buildContextBlock contextElements])%list
  else blocks.

Definition buildSuccessMessage (e : CloudflareEvent) (isProduction : bool)
    (previewUrl liveUrl : option string) : SlackPayload :=
  let workerName := workerNameOr e in
  let dashUrl := getDashboardUrl e in
  let title := if isProduction then "Production Deploy" else "Preview Deploy" in
  let buttonText :=
    if isProduction
    then (if truthy liveUrl then "View Worker" else "View Build")
    else (if truthy previewUrl then "View Preview" else "View Build") in
  let buttonUrl :=
    if isProduction then js_or liveUrl dashUrl else js_or previewUrl dashUrl in
  let blocks :=
    [ Section_ (buildSectionBlock
                  ("✅  *" ++ title ++ "*" ++ nl ++ "*" ++ workerName ++ "*")
                  (Some buttonText) buttonUrl None) ] in
  {| blocks := pushContext e blocks |}.

Definition buildFailureMessage (e : CloudflareEvent) (logs : list string)
    : SlackPayload :=
  let workerName := workerNameOr e in
  let dashUrl := getDashboardUrl e in
  let error := extractBuildError logs in
  let blocks :=
    [ Section_ (buildSectionBlock
                  ("❌  *Build Failed*" ++ nl ++ "*" ++ workerName ++ "*")
                  (if truthy dashUrl then Some "View Logs" else None)
                  dashUrl
                  (Some "danger")) ] in
  let blocks := pushContext e blocks in
  {| blocks :=
       (blocks ++
        [ Section_ {| sec_text := "```" ++ error ++ "```";
                      sec_accessory := None |} ])%list |}.

Definition buildCancelledMessage (e : CloudflareEvent) : SlackPayload :=
  let workerName := workerNameOr e in
  let dashUrl := getDashboardUrl e in
  let blocks :=
    [ Section_ (buildSectionBlock
                  ("⚠️  *Build Cancelled*" ++ nl ++ "*" ++ workerName ++ "*")
                  (if truthy dashUrl then Some "View Build" else None)
                  dashUrl
                  None) ] in
  {| blocks := pushContext e blocks |}.

Definition buildFallbackMessage (e : CloudflareEvent) : SlackPayload :=
  {| blocks :=
       [ Section_ {| sec_text := "📢 " ++ or_default (type e) "Unknown event";
                     sec_accessory := None |} ] |}.

(** [SlackNotifier.buildPayload].  Every property read of the method and of
    the builders it calls is on [data], on [event] or behind [?.], so the
    method has no throwing path of its own. *)
Definition buildPayload (data : NotificationData) : SlackPayload :=
  let e := event data in
  let status := getBuildStatus e in
  let meta := triggerMeta e in
  let isProduction := isProductionBranch (metaField branch meta) in
  if isSucceeded status then
    buildSuccessMessage e isProduction (previewUrl data) (liveUrl data)
  else if isFailed status then
    buildFailureMessage e (logs data)
  else if isCancelled status then
    buildCancelledMessage e
  else
    buildFallbackMessage e.

End Builders.
End Slack.

(* ================================================================== *)
(** * Discord notifier ([notifiers/discord.ts]) *)
(* ================================================================== *)

Module Discord.

Record DiscordEmbedField : Type := {
  name : string;
  value : string;
  inline : option bool
}.

Record DiscordEmbed : Type := {
  title : option string;
  description : option string;
  color : option N;
  fields : option (list DiscordEmbedField);
  timestamp : option string;
  url : option string
}.

Record DiscordPayload : Type := {
  embeds : list DiscordEmbed
}.

(** Discord embed colors (decimal values). *)
Module COLORS.
Definition SUCCESS : N := 0x28a745.
Definition FAILURE : N := 0xdc3545.
Definition CANCELLED : N := 0xffc107.
Definition DEFAULT : N := 0x0366d6.
End COLORS.

(** [event.metadata.eventTimestamp]: the read of [metadata] is not guarded. *)
Definition eventTimestampOf (e : CloudflareEvent) : completion string :=
  match metadata e with
  | Some m => Normal (eventTimestamp m)
  | None =>
      Throw (TypeError
               "Cannot read properties of undefined (reading 'eventTimestamp')")
  end.

(** [event.payload.stoppedAt || event.metadata.eventTimestamp]: the read of
    [payload] is not guarded, and [metadata] is read only when [stoppedAt] is
    falsy. *)
Definition stoppedOrEventTimestamp (e : CloudflareEvent) : completion string :=
  match payload e with
  | Some p =>
      match stoppedAt p with
      | Some s => if truthy (Some s) then Normal s else eventTimestampOf e
      | None => eventTimestampOf e
      end
  | None =>
      Throw (TypeError
               "Cannot read properties of undefined (reading 'stoppedAt')")
  end.

Section Builders.
Context {H : Helpers}.

(** [buildMetadataFields(event)]. *)
Definition buildMetadataFields (e : CloudflareEvent) : list DiscordEmbedField :=
  let meta := triggerMeta e in
  let commitUrl := getCommitUrl e in
  let fields0 : list DiscordEmbedField := [] in
  let fields1 :=
    match metaField branch meta with
    | Some b =>
        if truthy (Some b)
        then (fields0 ++ [ {| name := "Branch";
                              value := "`" ++ b ++ "`";
                              inline := Some true |} ])%list
        else fields0
    | None => fields0
    end in
  let fields2 :=
    match metaField commitHash meta with
    | Some h =>
        if truthy (Some h)
        then
          let commitText := substring0 7 h in
          let value :=
            match commitUrl with
            | Some u =>
                if truthy (Some u)
                then "[`" ++ commitText ++ "`](" ++ u ++ ")"
                else "`" ++ commitText ++ "`"
            | None => "`" ++ commitText ++ "`"
            end in
          (fields1 ++ [ {| name := "Commit";
                           value := value;
                           inline := Some true |} ])%list
        else fields1
    | None => fields1
    end in
  let authorName := extractAuthorName (metaField author meta) in
  match authorName with
  | Some a =>
      if truthy (Some a)
      then (fields2 ++ [ {| name := "Author";
                            value := a;
                            inline := Some true |} ])%list
      else fields2
  | None => fields2
  end.

Definition buildSuccessMessage (e : CloudflareEvent) (isProduction : bool)
    (previewUrl liveUrl : option string) : completion DiscordPayload :=
  let workerName := workerNameOr e in
  let dashUrl := getDashboardUrl e in
  let title := if isProduction then "Production Deploy" else "Preview Deploy" in
  let url :=
    if isProduction then js_or liveUrl dashUrl else js_or previewUrl dashUrl in
  let fields := buildMetadataFields e in
  (* Under its guard [liveUrl] (or [previewUrl]) is a non-empty string, and
     [or_default _ ""] is that string. *)
  let fields :=
    if isProduction && truthy liveUrl then
      (fields ++ [ {| name := "Worker URL";
                      value := "[View Worker](" ++ or_default liveUrl "" ++ ")";
                      inline := Some false |} ])%list
    else if negb isProduction && truthy previewUrl then
      (fields ++ [ {| name := "Preview URL";
                      value := "[View Preview](" ++ or_default previewUrl "" ++ ")";
                      inline := Some false |} ])%list
    else fields in
  match stoppedOrEventTimestamp e with
  | Throw err => Throw err
  | Normal ts =>
      Normal {| embeds :=
        [ {| title := Some ("âś… " ++ title);
             description := Some ("**" ++ workerName ++ "**");
             color := Some COLORS.SUCCESS;
             fields := Some fields;
             timestamp := Some ts;
             url := if truthy url then url else None |} ] |}
  end.

Definition buildFailureMessage (e : CloudflareEvent) (logs : list string)
    : completion DiscordPayload :=
  let workerName := workerNameOr e in
  let dashUrl := getDashboardUrl e in
  let error := extractBuildError logs in
  let fields := buildMetadataFields e in
  let fields :=
    (fields ++ [ {| name := "Error";
                    value := "```" ++ nl ++ substringUnits 1000 error
                             ++ nl ++ "```";
                    inline := Some false |} ])%list in
  let fields :=
    match dashUrl with
    | Some d =>
        if truthy (Some d)
        then (fields ++ [ {| name := "Logs";
                             value := "[View Full Logs](" ++ d ++ ")";
                             inline := Some false |} ])%list
        else fields
    | None => fields
    end in
  match stoppedOrEventTimestamp e with
  | Throw err => Throw err
  | Normal ts =>
      Normal {| embeds :=
        [ {| title := Some "âťŚ Build Failed";
             description := Some ("**" ++ workerName ++ "**");
             color := Some COLORS.FAILURE;
             fields := Some fields;
             timestamp := Some ts;
             url := None |} ] |}
  end.

Definition buildCancelledMessage (e : CloudflareEvent)
    : completion DiscordPayload :=
  let workerName := workerNameOr e in
  let dashUrl := getDashboardUrl e in
  let fields := buildMetadataFields e in
  let fields :=
    match dashUrl with
    | Some d =>
        if truthy (Some d)
        then (fields ++ [ {| name := "Build Details";
                             value := "[View Build](" ++ d ++ ")";
                             inline := Some false |} ])%list
        else fields
    | None => fields
    end in
  match stoppedOrEventTimestamp e with
  | Throw err => Throw err
  | Normal ts =>
      Normal {| embeds :=
        [ {| title := Some "âš ď¸Ź Build Cancelled";
             description := Some ("**" ++ workerName ++ "**");
             color := Some COLORS.CANCELLED;
             fields := Some fields;
             timestamp := Some ts;
             url := None |} ] |}
  end.

Definition buildFallbackMessage (e : CloudflareEvent)
    : completion DiscordPayload :=
  match eventTimestampOf e with
  | Throw err => Throw err
  | Normal ts =>
      Normal {| embeds :=
        [ {| title := Some "đź“˘ Build Event";
             description := Some (or_default (type e) "Unknown event");
             color := Some COLORS.DEFAULT;
             fields := None;
             timestamp := Some ts;
             url := None |} ] |}
  end.

(** [DiscordNotifier.buildPayload]. *)
Definition buildPayload (data : NotificationData) : completion DiscordPayload :=
  let e := event data in
  let status := getBuildStatus e in
  let meta := triggerMeta e in
  let isProduction := isProductionBranch (metaField branch meta) in
  if isSucceeded status then
    buildSuccessMessage e isProduction (previewUrl data) (liveUrl data)
  else if isFailed status then
    buildFailureMessage e (logs data)
  else if isCancelled status then
    buildCancelledMessage e
  else
    buildFallbackMessage e.

End Builders.
End Discord.

(* ================================================================== *)
(** * Effects: the worker's environment and what it can observe *)
(* ================================================================== *)

(** The bindings of [Env] the worker reads. *)
Record Env : Type := {
  SLACK_WEBHOOK_URL : option string;
  LARK_WEBHOOK_URL : option string;
  DISCORD_WEBHOOK_URL : option string;
  CLOUDFLARE_API_TOKEN : option string
}.

(** What [send] reads of a [Response]: [ok], [status] and [await text()]. *)
Record Response : Type := {
  ok : bool;
  resp_status : nat;
  resp_text : string
}.

(** [`${n}`] for a number. *)
Definition showNat (n : nat) : string :=
  DecimalString.NilEmpty.string_of_uint (Nat.to_uint n).

(** A message of the batch: [message.body] and the identity under which
    [message.ack()] is recorded. *)
Record Message : Type := {
  id : string;
  body : option CloudflareEvent
}.

Inductive Level : Type := LogInfo | LogWarn | LogError.

Section Worker.

Context {H : Helpers}.

(** [LarkPayload] of [notifiers/lark.ts], which is not among the sources. *)
Variable LarkPayload : Type.

(** The payloads that travel through [buildPayload] and [send] (typed
    [unknown] in the [Notifier] interface).  The body of a webhook request is
    [JSON.stringify(payload)] and is identified with the payload. *)
Inductive Body : Type :=
| SlackBody (p : Slack.SlackPayload)
| LarkBody (p : LarkPayload)
| DiscordBody (p : Discord.DiscordPayload).

(** The observable effects, in the order the worker performs them. *)
Inductive Effect : Type :=
| EBuildPayload (notifier : string)
    (** [notifier.buildPayload(data)] was called *)
| ESend (notifier : string) (webhookUrl : string) (payload : Body)
    (** [notifier.send(webhookUrl, payload)] was called *)
| EFetch (url : string) (body : Body)
    (** [fetch(url, { method: "POST", ..., body })] was called *)
| EConsole (level : Level) (message : string) (error : option Exn)
    (** [console.log], [console.warn] or [console.error] *)
| EFetchBuildUrls (e : CloudflareEvent)
    (** [fetchBuildUrls(event, env)] was called *)
| EFetchBuildLogs (e : CloudflareEvent)
    (** [fetchBuildLogs(event, env)] was called *)
| EAck (message : string)
    (** [message.ack()] was called *).

(** An [async] computation: from the effects performed so far to its
    completion and the effects it adds. *)
Definition M (A : Type) : Type :=
  list Effect -> completion A * list Effect.

Definition ret {A : Type} (a : A) : M A :=
  fun _ => (Normal a, []).

Definition bind {A B : Type} (m : M A) (f : A -> M B) : M B :=
  fun h =>
    match m h with
    | (Normal a, d1) =>
        match f a (h ++ d1)%list with
        | (r, d2) => (r, (d1 ++ d2)%list)
        end
    | (Throw e, d1) => (Throw e, d1)
    end.

Notation "x <- m ;; k" := (bind m (fun x => k))
  (at level 61, m at next level, right associativity).
Notation "m ;; k" := (bind m (fun _ => k))
  (at level 61, right associativity).

(** An expression that may throw, performing no effect. *)
Definition lift {A : Type} (c : completion A) : M A :=
  fun _ => (c, []).

Definition emit (x : Effect) : M unit :=
  fun _ => (Normal tt, [x]).

(** [try { m } catch (error) { handler(error) }]. *)
Definition try_catch {A : Type} (m : M A) (handler : Exn -> M A) : M A :=
  fun h =>
    match m h with
    | (Normal a, d1) => (Normal a, d1)
    | (Throw e, d1) =>
        match handler e (h ++ d1)%list with
        | (r, d2) => (r, (d1 ++ d2)%list)
        end
    end.

(** Calling an [async] function without awaiting it: the call yields a
    promise that settles with the function's completion, and an exception of
    the function rejects the promise instead of reaching the caller.  The
    function's effects are recorded at the call; the interleaving of the
    effects of several pending promises is not modelled. *)
Definition spawn {A : Type} (m : M A) : M (completion A) :=
  fun h => match m h with (r, d) => (Normal r, d) end.

(** [Promise.all(promises)] for promises that are settled: rejects with the
    first rejection. *)
Fixpoint promise_all (promises : list (completion unit)) : completion unit :=
  match promises with
  | [] => Normal tt
  | Normal _ :: rest => promise_all rest
  | Throw e :: _ => Throw e
  end.

(** [for (const x of xs) { body(x) }]. *)
Fixpoint forEach {A : Type} (body : A -> M unit) (xs : list A) : M unit :=
  match xs with
  | [] => ret tt
  | x :: rest => body x ;; forEach body rest
  end.

Definition console_log (message : string) : M unit :=
  emit (EConsole LogInfo message None).
Definition console_warn (message : string) : M unit :=
  emit (EConsole LogWarn message None).
Definition console_error (message : string) (error : option Exn) : M unit :=
  emit (EConsole LogError message error).

(** The collaborators of the worker, none of them among the sources: the
    answer of a webhook endpoint to a request and the two fetchers of
    [api.ts], each as a function of what happened before (a [Throw] is a
    rejected promise); the payload builder of the Lark notifier and the
    error, if any, that its [send] raises on a response. *)
Class Collaborators : Type := {
  network : list Effect -> string -> Body -> completion Response;
  fetchBuildUrlsResult :
    list Effect -> CloudflareEvent -> Env ->
    completion (option string * option string);
  fetchBuildLogsResult :
    list Effect -> CloudflareEvent -> Env -> completion (list string);
  larkBuildPayload : NotificationData -> completion LarkPayload;
  larkResponseError : Response -> option Exn
}.

Context {W : Collaborators}.

(** [await fetch(url, { method: "POST", headers, body })]. *)
Definition fetch (url : string) (body : Body) : M Response :=
  fun h => (network h url body, [EFetch url body]).

(** [await fetchBuildUrls(event, env)]. *)
Definition fetchBuildUrls (e : CloudflareEvent) (env : Env)
    : M (option string * option string) :=
  fun h => (fetchBuildUrlsResult h e env, [EFetchBuildUrls e]).

(** [await fetchBuildLogs(event, env)]. *)
Definition fetchBuildLogs (e : CloudflareEvent) (env : Env)
    : M (list string) :=
  fun h => (fetchBuildLogsResult h e env, [EFetchBuildLogs e]).

(** [message.ack()]. *)
Definition ack (message : Message) : M unit :=
  emit (EAck (id message)).

(* ------------------------------------------------------------------ *)
(** ** The notifiers ([notifiers/base.ts]) *)

(** The [Notifier] interface. *)
Record Notifier : Type := {
  notifier_name : string;
  buildPayload : NotificationData -> completion Body;
  send : string -> Body -> M unit
}.

(** [SlackNotifier.send]. *)
Definition SlackNotifier_send (webhookUrl : string) (payload : Body) : M unit :=
  response <- fetch webhookUrl payload ;;
  if negb (ok response)
  then lift (Throw (Error ("Slack API error: " ++ showNat (resp_status response)
                           ++ " " ++ resp_text response)))
  else ret tt.

Definition SlackNotifier : Notifier :=
  {| notifier_name := "Slack";
     buildPayload := fun data => Normal (SlackBody (Slack.buildPayload data));
     send := SlackNotifier_send |}.

(** [DiscordNotifier.send]. *)
Definition DiscordNotifier_send (webhookUrl : string) (payload : Body) : M unit :=
  response <- fetch webhookUrl payload ;;
  if negb (ok response)
  then
    let text := resp_text response in
    lift (Throw (Error ("Discord API error: " ++ showNat (resp_status response)
                        ++ " " ++ text)))
  else ret tt.

Definition DiscordNotifier : Notifier :=
  {| notifier_name := "Discord";
     buildPayload := fun data =>
       match Discord.buildPayload data with
       | Normal p => Normal (DiscordBody p)
       | Throw e => Throw e
       end;
     send := DiscordNotifier_send |}.

(** Modelled from the spec: [LarkNotifier.send] of [notifiers/lark.ts],
    which is missing.  It "performs the outbound HTTP call; a non-2xx
    response or transport error is a failure": one [fetch], then a throw
    when the response is one the notifier rejects. *)
Definition LarkNotifier_send (webhookUrl : string) (payload : Body) : M unit :=
  response <- fetch webhookUrl payload ;;
  match larkResponseError response with
  | Some e => lift (Throw e)
  | None => ret tt
  end.

Definition LarkNotifier : Notifier :=
  {| notifier_name := "Lark";
     buildPayload := fun data =>
       match larkBuildPayload data with
       | Normal p => Normal (LarkBody p)
       | Throw e => Throw e
       end;
     send := LarkNotifier_send |}.

(* ------------------------------------------------------------------ *)
(** ** The notification manager ([notificationManager.ts]) *)

Record NotifierConfig : Type := {
  notifier : Notifier;
  webhookUrlKey : Env -> option string
}.

(** Registry of all available notifiers with their environment variable
    keys. *)
Definition NOTIFIERS : list NotifierConfig :=
  [ {| notifier := SlackNotifier; webhookUrlKey := SLACK_WEBHOOK_URL |};
    {| notifier := LarkNotifier; webhookUrlKey := LARK_WEBHOOK_URL |};
    {| notifier := DiscordNotifier; webhookUrlKey := DISCORD_WEBHOOK_URL |} ].

(** The body of the [async] arrow function that [sendNotifications] starts
    for a configured notifier. *)
Definition notifyTask (n : Notifier) (webhookUrl : string)
    (data : NotificationData) : M unit :=
  try_catch
    (emit (EBuildPayload (notifier_name n)) ;;
     payload <- lift (buildPayload n data) ;;
     emit (ESend (notifier_name n) webhookUrl payload) ;;
     send n webhookUrl payload ;;
     console_log ("✓ Sent notification to " ++ notifier_name n))
    (fun error =>
     console_error ("✗ Failed to send to " ++ notifier_name n ++ ":")
                   (Some error)).

(** The [for ... of NOTIFIERS] loop, threading the [promises] array. *)
Fixpoint startTasks (configs : list NotifierConfig) (data : NotificationData)
    (env : Env) (promises : list (completion unit))
    : M (list (completion unit)) :=
  match configs with
  | [] => ret promises
  | c :: rest =>
      let webhookUrl := webhookUrlKey c env in
      match webhookUrl with
      | Some u =>
          if negb (truthy webhookUrl)
          then startTasks rest data env promises
          else
            promise <- spawn (notifyTask (notifier c) u data) ;;
            startTasks rest data env (promises ++ [promise])%list
      | None => startTasks rest data env promises
      end
  end.

(** [sendNotifications(data, env)]. *)
Definition sendNotifications (data : NotificationData) (env : Env) : M unit :=
  promises <- startTasks NOTIFIERS data env [] ;;
  if (List.length promises =? 0)%nat
  then
    console_warn
      "No notification webhooks configured. Set SLACK_WEBHOOK_URL, LARK_WEBHOOK_URL, or DISCORD_WEBHOOK_URL."
  else
    lift (promise_all promises).

(* ------------------------------------------------------------------ *)
(** ** The queue handler ([index.ts]) *)

(** [!event?.type || !event?.payload || !event?.metadata]. *)
Definition invalidStructure (event : option CloudflareEvent) : bool :=
  match event with
  | None => true
  | Some e =>
      negb (truthy (type e)) ||
      match payload e with Some _ => false | None => true end ||
      match metadata e with Some _ => false | None => true end
  end.

(** [event.type.includes("started") || event.type.includes("queued")]. *)
Definition skippedType (e : CloudflareEvent) : bool :=
  let t := or_default (type e) "" in
  includes "started" t || includes "queued" t.

(** The statements of the [try] block that follow the two early
    [continue]s. *)
Definition notifyEvent (message : Message) (e : CloudflareEvent) (env : Env)
    : M unit :=
  let status := getBuildStatus e in
  fetched <-
    (if isSucceeded status then
       urls <- fetchBuildUrls e env ;;
       ret (fst urls, snd urls, @nil string)
     else if isFailed status && negb (isCancelled status) then
       logs <- fetchBuildLogs e env ;;
       ret (@None string, @None string, logs)
     else
       ret (@None string, @None string, @nil string)) ;;
  let '(previewUrl, liveUrl, logs) := fetched in
  sendNotifications
    {| event := e; previewUrl := previewUrl;
       liveUrl := liveUrl; logs := logs |} env ;;
  ack message.

(** The body of the [for ... of batch.messages] loop: the [try] block and
    its [catch].  The event that [console.error] prints with the "Invalid
    event structure:" message is not recorded. *)
Definition processMessage (env : Env) (message : Message) : M unit :=
  try_catch
    (match body message with
     | Some e =>
         if invalidStructure (body message) then
           console_error "Invalid event structure:" None ;;
           ack message
         else if skippedType e then
           ack message
         else
           notifyEvent message e env
     | None =>
         console_error "Invalid event structure:" None ;;
         ack message
     end)
    (fun error =>
     console_error "Error processing message:" (Some error) ;;
     ack message).

(** [env.SLACK_WEBHOOK_URL || env.LARK_WEBHOOK_URL || env.DISCORD_WEBHOOK_URL],
    as a condition. *)
Definition hasWebhook (env : Env) : bool :=
  truthy (js_or (js_or (SLACK_WEBHOOK_URL env) (LARK_WEBHOOK_URL env))
                (DISCORD_WEBHOOK_URL env)).

(** [queue(batch, env)]; [batch] is [batch.messages]. *)
Definition queue (batch : list Message) (env : Env) : M unit :=
  if negb (hasWebhook env) then
    console_error
      "No webhook URLs configured. Set SLACK_WEBHOOK_URL, LARK_WEBHOOK_URL, or DISCORD_WEBHOOK_URL."
      None ;;
    forEach ack batch
  else
    forEach (processMessage env) batch.

End Worker.

Arguments ret {LarkPayload A} a _.
Arguments bind {LarkPayload A B} m f _.
Arguments lift {LarkPayload A} c _.
Arguments emit {LarkPayload} x _.
Arguments try_catch {LarkPayload A} m handler _.
Arguments spawn {LarkPayload A} m _.
Arguments forEach {LarkPayload A} body xs _.
Arguments console_log {LarkPayload} message _.
Arguments console_warn {LarkPayload} message _.
Arguments console_error {LarkPayload} message error _.
Arguments ack {LarkPayload} message _.
Arguments EBuildPayload {LarkPayload} notifier.
Arguments ESend {LarkPayload} notifier webhookUrl payload.
Arguments EFetch {LarkPayload} url body.
Arguments EConsole {LarkPayload} level message error.
Arguments EFetchBuildUrls {LarkPayload} e.
Arguments EFetchBuildLogs {LarkPayload} e.
Arguments EAck {LarkPayload} message.
Arguments SlackBody {LarkPayload} p.
Arguments LarkBody {LarkPayload} p.
Arguments DiscordBody {LarkPayload} p.
Arguments network {LarkPayload Collaborators} _ _ _.
Arguments fetchBuildUrlsResult {LarkPayload Collaborators} _ _ _.
Arguments fetchBuildLogsResult {LarkPayload Collaborators} _ _ _.
Arguments larkBuildPayload {LarkPayload Collaborators} _.
Arguments larkResponseError {LarkPayload Collaborators} _.
Arguments fetch {LarkPayload W} url body _.
Arguments fetchBuildUrls {LarkPayload W} e env _.
Arguments fetchBuildLogs {LarkPayload W} e env _.
Arguments notifier_name {LarkPayload} n.
Arguments buildPayload {LarkPayload} n data.
Arguments send {LarkPayload} n webhookUrl payload _.
Arguments notifier {LarkPayload} n.
Arguments webhookUrlKey {LarkPayload} n env.
Arguments SlackNotifier_send {LarkPayload W} webhookUrl payload _.
Arguments DiscordNotifier_send {LarkPayload W} webhookUrl payload _.
Arguments LarkNotifier_send {LarkPayload W} webhookUrl payload _.
Arguments SlackNotifier {H LarkPayload W}.
Arguments DiscordNotifier {H LarkPayload W}.
Arguments LarkNotifier {LarkPayload W}.
Arguments NOTIFIERS {H LarkPayload W}.
Arguments notifyTask {LarkPayload} n webhookUrl data _.
Arguments startTasks {LarkPayload} configs data env promises _.
Arguments sendNotifications {H LarkPayload W} data env _.
Arguments notifyEvent {H LarkPayload W} message e env _.
Arguments processMessage {H LarkPayload W} env message _.
Arguments queue {H LarkPayload W} batch env _.

(* ================================================================== *)
(** * The helpers, after the specification ([helpers.ts]) *)
(* ================================================================== *)

Module Spec.

(** [event.payload?.buildOutcome]. *)
Definition outcomeOf (e : CloudflareEvent) : option string :=
  match payload e with
  | Some p => buildOutcome p
  | None => None
  end.

(** Modelled from the spec: the outcomes that count as a failure.  The
    missing [getBuildStatus] is said to hold [isFailed] for an outcome that
    "is failure-like (including cancelled)"; the outcome of a failed build in
    the events of the test-suite is ["failure"]. *)
Definition failureOutcomes : list string := ["failure"; "cancelled"].

(** Modelled from the spec: [getBuildStatus] of [helpers.ts], which is
    missing.  The rule of section 4.1 is taken word for word: "[isSucceeded]
    iff [buildOutcome == "success"] (or event type contains "succeeded");
    [isFailed] iff outcome is failure-like (including "cancelled");
    [isCancelled] iff outcome == "cancelled"", a function of [event.type]
    and [payload.buildOutcome].  The same section asks for three false
    flags when the outcome is absent or null; on an event whose type
    contains "succeeded" that contradicts the first test, and the case the
    section names is taken first.

    Two things the sources at hand say against this rule are not settled
    here: it lets an event be succeeded and failed, or succeeded and
    cancelled, at once (type "succeeded" with another outcome), and it holds
    [isFailed] for the outcome ["cancelled"], for which the test-suite
    expects the "Build Cancelled" message, given by the builders only when
    [isFailed] is false.  The theorems about the notifiers and the queue
    handler hold for every classifier; this one is the classifier of the
    samples. *)
Definition getBuildStatus (e : CloudflareEvent) : BuildStatus :=
  match outcomeOf e with
  | Some o =>
      {| isSucceeded :=
           (o =? "success") || includes "succeeded" (or_default (type e) "");
         isFailed := existsb (String.eqb o) failureOutcomes;
         isCancelled := o =? "cancelled" |}
  | None =>
      {| isSucceeded := false; isFailed := false; isCancelled := false |}
  end.

(** Modelled from the spec: the "designated production-branch name
    (default main)". *)
Definition PRODUCTION_BRANCH : string := "main".

(** Modelled from the spec: [isProductionBranch] of [helpers.ts], which is
    missing: "exact match against a configured production-branch name". *)
Definition isProductionBranch (b : option string) : bool :=
  match b with
  | Some s => s =? PRODUCTION_BRANCH
  | None => false
  end.

(** The part of [s] before the first ["@"]. *)
Fixpoint beforeAt (s : string) : string :=
  match s with
  | EmptyString => EmptyString
  | String c rest => if Ascii.eqb c "@"%char then EmptyString
                     else String c (beforeAt rest)
  end.

(** Modelled from the spec: [extractAuthorName] of [helpers.ts], which is
    missing: the author display name is "derived from an email-like string
    by taking the portion before @, or used verbatim if not email-shaped";
    an absent author has no display name. *)
Definition extractAuthorName (a : option string) : option string :=
  match a with
  | Some s => if includes "@" s then Some (beforeAt s) else Some s
  | None => None
  end.

(** Modelled from the spec: [getDashboardUrl] of [helpers.ts], which is
    missing: a link "constructed from accountId + buildUuid".  The host is
    the one the test-suite expects; the layout of the path is not given and
    is this model's. *)
Definition getDashboardUrl (e : CloudflareEvent) : option string :=
  match metadata e, payload e with
  | Some m, Some p =>
      if (accountId m =? "") || (buildUuid p =? "") then None
      else Some ("https://dash.cloudflare.com/" ++ accountId m
                 ++ "/workers/builds/" ++ buildUuid p)
  | _, _ => None
  end.

(** Modelled from the spec: [getCommitUrl] of [helpers.ts], which is
    missing: the "optional link to the source-host commit view".  The hosts
    and the layout of the path are this model's. *)
Definition getCommitUrl (e : CloudflareEvent) : option string :=
  match triggerMeta e with
  | Some m =>
      match providerType m, providerAccountName m, repoName m, commitHash m with
      | Some t, Some a, Some r, Some h =>
          if t =? "github"
          then Some ("https://github.com/" ++ a ++ "/" ++ r ++ "/commit/" ++ h)
          else if t =? "gitlab"
          then Some ("https://gitlab.com/" ++ a ++ "/" ++ r ++ "/-/commit/" ++ h)
          else None
      | _, _, _, _ => None
      end
  | None => None
  end.

(* ------------------------------------------------------------------ *)
(** ** The error extractor *)

(** Modelled from the spec: the error-indicator patterns, "e.g. contains
    [ERROR] or a designated error glyph"; the glyph is the one of the log
    lines in the test-suite. *)
Definition ERROR_INDICATORS : list string := ["[ERROR]"; "✘"].

(** Modelled from the spec: the metadata denylist, "lines reporting upload
    size, startup time, etc."; the two entries are the reports the
    specification names. *)
Definition METADATA_DENYLIST : list string :=
  ["Total Upload"; "Worker Startup Time"].

Definition matchesAny (patterns : list string) (line : string) : bool :=
  existsb (fun p => includes p line) patterns.

Definition isErrorIndicator (line : string) : bool :=
  matchesAny ERROR_INDICATORS line.

Definition isMetadataLine (line : string) : bool :=
  matchesAny METADATA_DENYLIST line.

(** Modelled from the spec: "a line is an error marker if it matches an
    error-indicator pattern AND is not a pure metadata line". *)
Definition isErrorMarker (line : string) : bool :=
  isErrorIndicator line && negb (isMetadataLine line).

(** Modelled from the spec: a continuation is a line "with leading
    whitespace" (a space or a tab). *)
Definition isContinuation (line : string) : bool :=
  match line with
  | String c _ => Ascii.eqb c " "%char || Ascii.eqb c (ascii_of_nat 9)
  | EmptyString => false
  end.

(** Modelled from the spec: the lines accumulated after the marker, "stopping
    at the first non-continuation line or next error marker". *)
Fixpoint continuationLines (lines : list string) : list string :=
  match lines with
  | l :: rest =>
      if isContinuation l && negb (isErrorMarker l)
      then l :: continuationLines rest
      else []
  | [] => []
  end.

(** Modelled from the spec: "scan lines in order ... on finding the first
    error marker, capture it and ... accumulate immediately following lines
    that are indented/stack-trace continuations into the same error
    block". *)
Fixpoint firstErrorBlock (lines : list string) : option (list string) :=
  match lines with
  | l :: rest =>
      if isErrorMarker l then Some (l :: continuationLines rest)
      else firstErrorBlock rest
  | [] => None
  end.

(** The last line that is not the empty string. *)
Fixpoint lastNonEmptyLine (lines : list string) : option string :=
  match lines with
  | l :: rest =>
      match lastNonEmptyLine rest with
      | Some x => Some x
      | None => if l =? "" then None else Some l
      end
  | [] => None
  end.

Definition NO_LOGS : string := "No logs available".

(** Modelled from the spec: [extractBuildError] of [helpers.ts], which is
    missing (section 4.2): the fallback literal for an empty sequence; the
    first error block, its lines joined by line feeds; "if no line matches,
    fall back to returning the last non-empty line, or the fallback literal
    if none exists". *)
Definition extractBuildError (logs : list string) : string :=
  match logs with
  | [] => NO_LOGS
  | _ :: _ =>
      match firstErrorBlock logs with
      | Some block => join nl block
      | None =>
          match lastNonEmptyLine logs with
          | Some l => l
          | None => NO_LOGS
          end
      end
  end.

(** Modelled from the spec: the first error marker, the whole block of an
    extractor that does not accumulate continuation lines. *)
Fixpoint firstErrorLine (lines : list string) : option string :=
  match lines with
  | l :: rest => if isErrorMarker l then Some l else firstErrorLine rest
  | [] => None
  end.

(** Modelled from the spec: the extractor with the choice that section 4.2
    leaves open, "capture it and optionally accumulate immediately following
    lines that are indented/stack-trace continuations".  With [accumulate]
    the block is the marker and its continuation lines, and the extractor is
    [extractBuildError] above; without it the block is the marker alone. *)
Definition extractBuildErrorWith (accumulate : bool) (logs : list string)
    : string :=
  match logs with
  | [] => NO_LOGS
  | _ :: _ =>
      match (if accumulate then firstErrorBlock logs
             else option_map (fun l => [l]) (firstErrorLine logs)) with
      | Some block => join nl block
      | None =>
          match lastNonEmptyLine logs with
          | Some l => l
          | None => NO_LOGS
          end
      end
  end.

(** The six functions together, as the notifiers and the queue handler
    import them. *)
Definition helpers : Helpers :=
  Build_Helpers getBuildStatus isProductionBranch extractAuthorName
                getCommitUrl getDashboardUrl extractBuildError.

End Spec.

(* ================================================================== *)
(** * Reading payloads and effect logs *)
(* ================================================================== *)

(** The four kinds of message of a builder. *)
Inductive MessageKind : Type := Succeeded | Failed | Cancelled | Fallback.

(** The contents of the metadata line of a message, before rendering: the
    branch, the shortened commit hash with the link to the commit view if
    there is one, the author display name. *)
Inductive MetaItem : Type :=
| BranchItem (branch : string)
| CommitItem (commitText : string) (commitUrl : option string)
| AuthorItem (authorName : string).

Module SlackView.
Import Slack.

(** The elements of the context blocks of a payload. *)
Definition metadataOf (p : SlackPayload) : list MrkdwnElement :=
  flat_map (fun b => match b with
                     | Context_ elements => elements
                     | Section_ _ => []
                     end) (blocks p).

(** The buttons of a payload. *)
Definition buttonsOf (p : SlackPayload) : list Button :=
  flat_map (fun b => match b with
                     | Section_ s => match sec_accessory s with
                                     | Some btn => [btn]
                                     | None => []
                                     end
                     | Context_ _ => []
                     end) (blocks p).

(** The target of the button of the leading section, the action of the
    message. *)
Definition linkOf (p : SlackPayload) : option string :=
  match blocks p with
  | Section_ s :: _ => option_map btn_url (sec_accessory s)
  | _ => None
  end.

(** The kind of a message, read from the glyph that opens its leading
    section. *)
Definition kindOf (p : SlackPayload) : option MessageKind :=
  match blocks p with
  | Section_ s :: _ =>
      let t := sec_text s in
      if startsWith "✅" t then Some Succeeded
      else if startsWith "❌" t then Some Failed
      else if startsWith "⚠️" t then Some Cancelled
      else if startsWith "📢" t then Some Fallback
      else None
  | _ => None
  end.

(** How the context line renders an item. *)
Definition renderItem (i : MetaItem) : MrkdwnElement :=
  match i with
  | BranchItem b => {| mrkdwn_text := "*Branch:* `" ++ b ++ "`" |}
  | CommitItem t (Some u) =>
      {| mrkdwn_text := "*Commit:* " ++ "<" ++ u ++ "|" ++ t ++ ">" |}
  | CommitItem t None => {| mrkdwn_text := "*Commit:* " ++ "`" ++ t ++ "`" |}
  | AuthorItem a => {| mrkdwn_text := "*Author:* " ++ a |}
  end.

End SlackView.

Module DiscordView.
Import Discord.

Definition fieldsOf (em : DiscordEmbed) : list DiscordEmbedField :=
  match fields em with
  | Some fs => fs
  | None => []
  end.

Definition isInline (f : DiscordEmbedField) : bool :=
  match inline f with
  | Some b => b
  | None => false
  end.

(** The inline fields of a payload: the metadata line. *)
Definition metadataOf (p : DiscordPayload) : list DiscordEmbedField :=
  flat_map (fun em => filter isInline (fieldsOf em)) (embeds p).

(** The fields of a payload that are not inline: links and the error. *)
Definition blockFieldsOf (p : DiscordPayload) : list DiscordEmbedField :=
  flat_map (fun em => filter (fun f => negb (isInline f)) (fieldsOf em))
           (embeds p).

(** [s] without its last character, when that character is [c]. *)
Fixpoint dropLast (c : ascii) (s : string) : option string :=
  match s with
  | EmptyString => None
  | String a EmptyString => if Ascii.eqb a c then Some EmptyString else None
  | String a rest => option_map (String a) (dropLast c rest)
  end.

(** What follows the first ["]("] of [s]. *)
Fixpoint afterLabel (s : string) : option string :=
  match s with
  | EmptyString => None
  | String a rest =>
      if Ascii.eqb a "]"%char && startsWith "(" rest
      then match rest with
           | String _ target => Some target
           | EmptyString => None
           end
      else afterLabel rest
  end.

(** The target of a markdown link [[label](target)]. *)
Definition linkTarget (value : string) : option string :=
  match afterLabel value with
  | Some t => dropLast ")"%char t
  | None => None
  end.

(** The action of the message: the [url] of the embed or, without one, the
    target of its "Logs" or "Build Details" field. *)
Definition linkOf (p : DiscordPayload) : option string :=
  match embeds p with
  | em :: _ =>
      match url em with
      | Some u => Some u
      | None =>
          match find (fun f => (name f =? "Logs") || (name f =? "Build Details"))
                     (fieldsOf em) with
          | Some f => linkTarget (value f)
          | None => None
          end
      end
  | [] => None
  end.

(** The kind of a message, read from the colour of its embed. *)
Definition kindOf (p : DiscordPayload) : option MessageKind :=
  match embeds p with
  | em :: _ =>
      match color em with
      | Some c =>
          if N.eqb c COLORS.SUCCESS then Some Succeeded
          else if N.eqb c COLORS.FAILURE then Some Failed
          else if N.eqb c COLORS.CANCELLED then Some Cancelled
          else if N.eqb c COLORS.DEFAULT then Some Fallback
          else None
      | None => None
      end
  | [] => None
  end.

(** How the embed renders an item. *)
Definition renderItem (i : MetaItem) : DiscordEmbedField :=
  match i with
  | BranchItem b =>
      {| name := "Branch"; value := "`" ++ b ++ "`"; inline := Some true |}
  | CommitItem t (Some u) =>
      {| name := "Commit"; value := "[`" ++ t ++ "`](" ++ u ++ ")";
         inline := Some true |}
  | CommitItem t None =>
      {| name := "Commit"; value := "`" ++ t ++ "`"; inline := Some true |}
  | AuthorItem a =>
      {| name := "Author"; value := a; inline := Some true |}
  end.

End DiscordView.

Section Content.
Context {H : Helpers}.

(** The kind of message that goes with a status: succeeded first, then
    failed, then cancelled. *)
Definition messageKind (st : BuildStatus) : MessageKind :=
  if isSucceeded st then Succeeded
  else if isFailed st then Failed
  else if isCancelled st then Cancelled
  else Fallback.

(** [Some s] for a truthy [s], [None] otherwise. *)
Definition present (o : option string) : option string :=
  if truthy o then o else None.

(** The metadata of an event, after the specification: the branch, the
    first seven characters of the commit hash with the optional commit link,
    the author display name, each when present. *)
Definition metadataItems (e : CloudflareEvent) : list MetaItem :=
  let meta := triggerMeta e in
  (match present (metaField branch meta) with
   | Some b => [BranchItem b]
   | None => []
   end ++
   match present (metaField commitHash meta) with
   | Some h => [CommitItem (substring0 7 h) (present (getCommitUrl e))]
   | None => []
   end ++
   match present (extractAuthorName (metaField author meta)) with
   | Some a => [AuthorItem a]
   | None => []
   end)%list.

(** The link priority, after the specification: for a succeeded build the
    live URL on the production branch and the preview URL otherwise, the
    dashboard URL when that one is missing; the dashboard URL for a failed or
    cancelled build; no link for the fallback message. *)
Definition actionLink (data : NotificationData) : option string :=
  let e := event data in
  let dashUrl := getDashboardUrl e in
  match messageKind (getBuildStatus e) with
  | Succeeded =>
      if isProductionBranch (metaField branch (triggerMeta e))
      then present (js_or (liveUrl data) dashUrl)
      else present (js_or (previewUrl data) dashUrl)
  | Failed | Cancelled => present dashUrl
  | Fallback => None
  end.

End Content.

(** A well-formed [NotificationData]: the event has a payload and
    metadata. *)
Definition wellFormed (data : NotificationData) : Prop :=
  payload (event data) <> None /\ metadata (event data) <> None.

Section Logs.
Context {LarkPayload : Type}.

(** The number of calls of [buildPayload] of the notifier [n]. *)
Definition buildCalls (n : string) (d : list (Effect LarkPayload)) : nat :=
  List.length (filter (fun x => match x with
                                | EBuildPayload m => m =? n
                                | _ => false
                                end) d).

(** The calls of [send] of the notifier [n], with their arguments. *)
Definition sendCalls (n : string) (d : list (Effect LarkPayload))
    : list (string * Body LarkPayload) :=
  flat_map (fun x => match x with
                     | ESend m u p => if m =? n then [(u, p)] else []
                     | _ => []
                     end) d.

(** Calls of [buildPayload] and of [send], of any notifier. *)
Definition isNotifierCall (x : Effect LarkPayload) : bool :=
  match x with
  | EBuildPayload _ | ESend _ _ _ => true
  | _ => false
  end.

(** The requests sent to the network. *)
Definition isRequest (x : Effect LarkPayload) : bool :=
  match x with
  | EFetch _ _ => true
  | _ => false
  end.

Definition isFetchBuildUrls (x : Effect LarkPayload) : bool :=
  match x with
  | EFetchBuildUrls _ => true
  | _ => false
  end.

Definition isFetchBuildLogs (x : Effect LarkPayload) : bool :=
  match x with
  | EFetchBuildLogs _ => true
  | _ => false
  end.

Definition isAck (x : Effect LarkPayload) : bool :=
  match x with
  | EAck _ => true
  | _ => false
  end.

Definition isWarning (x : Effect LarkPayload) : bool :=
  match x with
  | EConsole LogWarn _ _ => true
  | _ => false
  end.

Definition count (P : Effect LarkPayload -> bool)
    (d : list (Effect LarkPayload)) : nat :=
  List.length (filter P d).

(** The messages acknowledged, in order. *)
Definition acks (d : list (Effect LarkPayload)) : list string :=
  flat_map (fun x => match x with
                     | EAck i => [i]
                     | _ => []
                     end) d.

End Logs.

Section Expected.
Context {LarkPayload : Type}.

(** A predicate on effects that does not see the console. *)
Definition silentOnConsole (P : Effect LarkPayload -> bool) : Prop :=
  forall level message error, P (EConsole level message error) = false.

(** A notifier whose [send] performs one request, to the URL and with the
    payload it is given, and nothing else. *)
Definition oneRequest (n : Notifier LarkPayload) : Prop :=
  forall webhookUrl payload h,
    exists r, send n webhookUrl payload h = (r, [EFetch webhookUrl payload]).

(** What the task of a configured notifier does, the console apart: a call
    of [buildPayload] and, when that returns a payload, a call of [send]
    with the URL and that payload, and the request. *)
Definition taskEffects (n : Notifier LarkPayload) (webhookUrl : string)
    (data : NotificationData) : list (Effect LarkPayload) :=
  EBuildPayload (notifier_name n) ::
  match buildPayload n data with
  | Normal p => [ESend (notifier_name n) webhookUrl p; EFetch webhookUrl p]
  | Throw _ => []
  end.

(** The same for a registry: the tasks of the configured notifiers, in the
    order of the registry. *)
Definition tasksEffects (configs : list (NotifierConfig LarkPayload))
    (data : NotificationData) (env : Env) : list (Effect LarkPayload) :=
  flat_map (fun c =>
              match webhookUrlKey c env with
              | Some u => if truthy (Some u)
                          then taskEffects (notifier c) u data
                          else []
              | None => []
              end) configs.

(** The number of configured notifiers of a registry. *)
Definition configuredCount (configs : list (NotifierConfig LarkPayload))
    (env : Env) : nat :=
  List.length (filter (fun c => truthy (webhookUrlKey c env)) configs).

Definition isNormal {A : Type} (c : completion A) : Prop :=
  match c with
  | Normal _ => True
  | Throw _ => False
  end.

End Expected.

(* ================================================================== *)
(** * The events of the test-suite *)
(* ================================================================== *)

Module Samples.

(** [createMockEvent()]. *)
Definition mockEvent : CloudflareEvent :=
  {| type := Some "cf.workersBuilds.worker.build.succeeded";
     source := Some {| workerName := Some "test-worker" |};
     payload := Some
       {| buildUuid := "build-12345678-90ab-cdef-1234-567890abcdef";
          status := "stopped";
          buildOutcome := Some "success";
          createdAt := "2025-05-01T02:48:57.132Z";
          stoppedAt := Some "2025-05-01T02:50:15.132Z";
          buildTriggerMetadata := Some
            {| branch := Some "main";
               commitHash := Some "abc123def456";
               author := Some "developer@example.com";
               repoName := Some "test-worker-repo";
               providerAccountName := Some "cloudflare";
               providerType := Some "github" |} |};
     metadata := Some
       {| accountId := "test-account-id";
          eventTimestamp := "2025-05-01T02:48:57.132Z" |} |}.

(** The event of "should send cancellation notification (cancelled
    spelling)": [createMockEvent] with the type and the payload
    overridden. *)
Definition cancelledEvent : CloudflareEvent :=
  {| type := Some "cf.workersBuilds.worker.build.failed";
     source := Some {| workerName := Some "test-worker" |};
     payload := Some
       {| buildUuid := "build-cancelled-123";
          status := "stopped";
          buildOutcome := Some "cancelled";
          createdAt := "2025-05-01T02:48:57.132Z";
          stoppedAt := None;
          buildTriggerMetadata := None |};
     metadata := Some
       {| accountId := "test-account-id";
          eventTimestamp := "2025-05-01T02:48:57.132Z" |} |}.

(** What the queue handler passes to [sendNotifications] for
    [cancelledEvent]: no URL and no log has been fetched. *)
Definition cancelledData : NotificationData :=
  {| event := cancelledEvent; previewUrl := None; liveUrl := None;
     logs := [] |}.

(** An event with a payload and metadata and nothing optional. *)
Definition bareEvent : CloudflareEvent :=
  {| type := Some "cf.workersBuilds.worker.build.succeeded";
     source := None;
     payload := Some
       {| buildUuid := "";
          status := "stopped";
          buildOutcome := Some "success";
          createdAt := "2025-05-01T02:48:57.132Z";
          stoppedAt := None;
          buildTriggerMetadata := None |};
     metadata := Some
       {| accountId := "";
          eventTimestamp := "2025-05-01T02:48:57.132Z" |} |}.

Definition bareData : NotificationData :=
  {| event := bareEvent; previewUrl := None; liveUrl := None; logs := [] |}.

Definition mockData : NotificationData :=
  {| event := mockEvent; previewUrl := None; liveUrl := None; logs := [] |}.

(** A classifier that answers as the tests of the repository need it to,
    the builders being what they are: "Production Deploy" is expected for the
    outcome ["success"], "Build Failed" for ["failure"] and "Build
    Cancelled" for ["cancelled"], and the builders give the last only to a
    status that is cancelled and not failed. *)
Definition statusByOutcome (e : CloudflareEvent) : BuildStatus :=
  match Spec.outcomeOf e with
  | Some o =>
      {| isSucceeded := o =? "success";
         isFailed := o =? "failure";
         isCancelled := o =? "cancelled" |}
  | None =>
      {| isSucceeded := false; isFailed := false; isCancelled := false |}
  end.

(** The helpers of [Module Spec] with that classifier. *)
Definition testedHelpers : Helpers :=
  Build_Helpers statusByOutcome Spec.isProductionBranch
                Spec.extractAuthorName Spec.getCommitUrl Spec.getDashboardUrl
                Spec.extractBuildError.

(** [createMockEvent()] with another outcome: the type says "succeeded", the
    outcome ["failure"] or ["cancelled"]. *)
Definition succeededTypeFailureEvent : CloudflareEvent :=
  {| type := Some "cf.workersBuilds.worker.build.succeeded";
     source := Some {| workerName := Some "test-worker" |};
     payload := Some
       {| buildUuid := "build-12345678-90ab-cdef-1234-567890abcdef";
          status := "stopped";
          buildOutcome := Some "failure";
          createdAt := "2025-05-01T02:48:57.132Z";
          stoppedAt := Some "2025-05-01T02:50:15.132Z";
          buildTriggerMetadata := None |};
     metadata := Some
       {| accountId := "test-account-id";
          eventTimestamp := "2025-05-01T02:48:57.132Z" |} |}.

Definition succeededTypeCancelledEvent : CloudflareEvent :=
  {| type := Some "cf.workersBuilds.worker.build.succeeded";
     source := Some {| workerName := Some "test-worker" |};
     payload := Some
       {| buildUuid := "build-12345678-90ab-cdef-1234-567890abcdef";
          status := "stopped";
          buildOutcome := Some "cancelled";
          createdAt := "2025-05-01T02:48:57.132Z";
          stoppedAt := Some "2025-05-01T02:50:15.132Z";
          buildTriggerMetadata := None |};
     metadata := Some
       {| accountId := "test-account-id";
          eventTimestamp := "2025-05-01T02:48:57.132Z" |} |}.

Definition succeededTypeFailureMessage : Message :=
  {| id := "message-6"; body := Some succeededTypeFailureEvent |}.

Definition succeededTypeCancelledMessage : Message :=
  {| id := "message-7"; body := Some succeededTypeCancelledEvent |}.

(** Queue messages with the events above. *)
Definition mockMessage : Message :=
  {| id := "message-1"; body := Some mockEvent |}.

Definition cancelledMessage : Message :=
  {| id := "message-2"; body := Some cancelledEvent |}.

(** The log lines of "should extract first error and ignore subsequent
    errors". *)
Definition cascadeLogs : list string :=
  [ "Installing dependencies...";
    "✘ [ERROR] Could not resolve " ++ dq ++ "missing-module" ++ dq;
    "    at /src/index.ts:10:5";
    "✘ [ERROR] Second error" ].

(** The log lines of "should skip metadata lines when extracting errors". *)
Definition metadataLogs : list string :=
  [ "Total Upload: 100 KiB";
    "Worker Startup Time: 5ms";
    "✘ [ERROR] Actual error here" ].


(** The environment of "should continue sending to other platforms if one
    fails". *)
Definition multiPlatformEnv : Env :=
  {| SLACK_WEBHOOK_URL := Some "https://hooks.slack.com/services/test";
     LARK_WEBHOOK_URL := Some "https://open.feishu.cn/open-apis/bot/v2/hook/test";
     DISCORD_WEBHOOK_URL := Some "https://discord.com/api/webhooks/123/test";
     CLOUDFLARE_API_TOKEN := Some "test-token" |}.

(** The environment of "should handle missing all webhook URLs
    gracefully". *)
Definition envWithoutWebhooks : Env :=
  {| SLACK_WEBHOOK_URL := Some "";
     LARK_WEBHOOK_URL := Some "";
     DISCORD_WEBHOOK_URL := Some "";
     CLOUDFLARE_API_TOKEN := Some "test-token" |}.

(** Collaborators for the multi-platform scenario: Slack answers 500, the
    other endpoints accept; the Lark payload is not looked at. *)
Definition slackDown : Collaborators unit :=
  {| network := fun _ url _ =>
       if includes "hooks.slack.com" url
       then Normal {| ok := false; resp_status := 500; resp_text := "Error" |}
       else Normal {| ok := true; resp_status := 200; resp_text := "" |};
     fetchBuildUrlsResult := fun _ _ _ => Normal (None, None);
     fetchBuildLogsResult := fun _ _ _ => Normal [];
     larkBuildPayload := fun _ => Normal tt;
     larkResponseError := fun r =>
       if ok r then None else Some (Error "Lark API error") |}.

(** Collaborators whose fetchers reject. *)
Definition apiDown : Collaborators unit :=
  {| network := fun _ _ _ =>
       Normal {| ok := true; resp_status := 200; resp_text := "ok" |};
     fetchBuildUrlsResult := fun _ _ _ => Throw (Error "Network error");
     fetchBuildLogsResult := fun _ _ _ => Throw (Error "Network error");
     larkBuildPayload := fun _ => Normal tt;
     larkResponseError := fun _ => None |}.

End Samples.

(* ================================================================== *)
(** * More readings of the effect log, more events *)
(* ================================================================== *)

Section Reading.
Context {LarkPayload : Type}.

Definition isConsole (x : Effect LarkPayload) : bool :=
  match x with
  | EConsole _ _ _ => true
  | _ => false
  end.

(** The URLs the requests went to, in order. *)
Definition requestUrls (d : list (Effect LarkPayload)) : list string :=
  flat_map (fun x => match x with
                     | EFetch u _ => [u]
                     | _ => []
                     end) d.

(** The webhook URLs of an environment that are set and not empty. *)
Definition configuredUrls (env : Env) : list string :=
  flat_map (fun o => match o with
                     | Some u => if truthy (Some u) then [u] else []
                     | None => []
                     end)
           [SLACK_WEBHOOK_URL env; LARK_WEBHOOK_URL env;
            DISCORD_WEBHOOK_URL env].

End Reading.

Module MoreSamples.

(** The event of "should send failure notification with error message". *)
Definition failedEvent : CloudflareEvent :=
  {| type := Some "cf.workersBuilds.worker.build.failed";
     source := Some {| workerName := Some "test-worker" |};
     payload := Some
       {| buildUuid := "build-failed-123";
          status := "stopped";
          buildOutcome := Some "failure";
          createdAt := "2025-05-01T02:48:57.132Z";
          stoppedAt := Some "2025-05-01T02:49:30.132Z";
          buildTriggerMetadata := Some
            {| branch := Some "feature/broken";
               commitHash := Some "broken123";
               author := Some "dev@example.com";
               repoName := Some "my-worker";
               providerAccountName := Some "cloudflare";
               providerType := Some "github" |} |};
     metadata := Some
       {| accountId := "test-account-id";
          eventTimestamp := "2025-05-01T02:48:57.132Z" |} |}.

(** The started event of "should process multiple messages and skip
    started/queued events". *)
Definition startedEvent : CloudflareEvent :=
  {| type := Some "cf.workersBuilds.worker.build.started";
     source := Some {| workerName := Some "test-worker" |};
     payload := Some
       {| buildUuid := "build-1";
          status := "running";
          buildOutcome := None;
          createdAt := "2025-05-01T02:48:57.132Z";
          stoppedAt := None;
          buildTriggerMetadata := None |};
     metadata := Some
       {| accountId := "test-account-id";
          eventTimestamp := "2025-05-01T02:48:57.132Z" |} |}.

(** An event that lacks its metadata. *)
Definition noMetadataEvent : CloudflareEvent :=
  {| type := Some "cf.workersBuilds.worker.build.succeeded";
     source := None;
     payload := Some
       {| buildUuid := "build-1";
          status := "stopped";
          buildOutcome := Some "success";
          createdAt := "2025-05-01T02:48:57.132Z";
          stoppedAt := None;
          buildTriggerMetadata := None |};
     metadata := None |}.

Definition noMetadataData : NotificationData :=
  {| event := noMetadataEvent; previewUrl := None; liveUrl := None;
     logs := [] |}.

Definition failedMessage : Message :=
  {| id := "message-3"; body := Some failedEvent |}.

Definition startedMessage : Message :=
  {| id := "message-4"; body := Some startedEvent |}.

Definition emptyMessage : Message :=
  {| id := "message-5"; body := None |}.

(** The log lines the test-suite serves for the failed build. *)
Definition buildLogs : list string :=
  [ "Installing dependencies...";
    "Building worker...";
    "✘ [ERROR] Could not resolve " ++ dq ++ "missing-module" ++ dq;
    "Build failed" ].

(** Collaborators that all answer: the endpoints accept, the fetchers
    return a preview URL, a live URL and the log lines. *)
Definition allUp : Collaborators unit :=
  {| network := fun _ _ _ =>
       Normal {| ok := true; resp_status := 200; resp_text := "ok" |};
     fetchBuildUrlsResult := fun _ _ _ =>
       Normal (Some "https://preview-abc123.workers.dev",
               Some "https://test-worker.my-account.workers.dev");
     fetchBuildLogsResult := fun _ _ _ => Normal buildLogs;
     larkBuildPayload := fun _ => Normal tt;
     larkResponseError := fun r =>
       if ok r then None else Some (Error "Lark API error") |}.

(** Collaborators whose Lark builder throws. *)
Definition larkBuilderDown : Collaborators unit :=
  {| network := fun _ _ _ =>
       Normal {| ok := true; resp_status := 200; resp_text := "ok" |};
     fetchBuildUrlsResult := fun _ _ _ => Normal (None, None);
     fetchBuildLogsResult := fun _ _ _ => Normal [];
     larkBuildPayload := fun _ => Throw (TypeError "card is undefined");
     larkResponseError := fun _ => None |}.

(** The environment of the test-suite: Slack only. *)
Definition slackOnlyEnv : Env :=
  {| SLACK_WEBHOOK_URL := Some "https://hooks.slack.com/services/test";
     LARK_WEBHOOK_URL := None;
     DISCORD_WEBHOOK_URL := Some "";
     CLOUDFLARE_API_TOKEN := Some "test-token" |}.

End MoreSamples.

(* ================================================================== *)
(** * Facts about the helpers *)
(* ================================================================== *)

Module SpecFacts.
Import Spec.

(** ** The status classifier *)

(** The rule of section 4.1 for [isSucceeded] and its clause for an absent
    outcome do not go together: no function of the event has [isSucceeded]
    exactly when the outcome is ["success"] or the type contains
    "succeeded", and three false flags whenever the outcome is absent.  An
    event of type "succeeded" without outcome tells them apart. *)
Lemma classifier_rule_unsatisfiable :
  ~ exists f : CloudflareEvent -> BuildStatus,
      forall e,
        (isSucceeded (f e) = true <->
         outcomeOf e = Some "success" \/
         includes "succeeded" (or_default (type e) "") = true) /\
        (outcomeOf e = None -> isSucceeded (f e) = false).
Proof.
  intros [f Hf].
  destruct (Hf {| type := Some "cf.workersBuilds.worker.build.succeeded";
                  source := None; payload := None; metadata := None |})
    as [[_ Hrule] Habsent].
  rewrite Habsent in Hrule by reflexivity.
  discriminate Hrule. right. reflexivity.
Qed.

(* ------------------------------------------------------------------ *)
(** ** The error extractor *)


Lemma firstErrorBlock_no_indicator (logs : list string) :
  Forall (fun l => isErrorIndicator l = false) logs ->
  firstErrorBlock logs = None.
Proof.
  induction 1 as [| l rest Hl _ IH]; [reflexivity | ].
  cbn [firstErrorBlock]. unfold isErrorMarker. rewrite Hl. exact IH.
Qed.

Lemma lastNonEmptyLine_all_empty (logs : list string) :
  Forall (fun x => x = "") logs -> lastNonEmptyLine logs = None.
Proof.
  induction 1 as [| l rest Hl _ IH]; [reflexivity | ].
  cbn [lastNonEmptyLine]. rewrite IH. subst l. reflexivity.
Qed.

Lemma lastNonEmptyLine_last (pre : list string) (l : string)
    (post : list string) :
  l <> "" -> Forall (fun x => x = "") post ->
  lastNonEmptyLine (pre ++ l :: post) = Some l.
Proof.
  intros Hl Hpost. induction pre as [| p pre IH].
  - cbn [app lastNonEmptyLine].
    rewrite (lastNonEmptyLine_all_empty post Hpost).
    destruct (l =? "") eqn:E; [ | reflexivity].
    apply String.eqb_eq in E. contradiction.
  - cbn [app lastNonEmptyLine]. rewrite IH. reflexivity.
Qed.




Lemma extractBuildErrorWith_accumulate (logs : list string) :
  extractBuildErrorWith true logs = extractBuildError logs.
Proof. destruct logs; reflexivity. Qed.




(** The extractor on the three logs of the unit tests. *)
Example extractBuildError_first_of_cascade :
  includes "Could not resolve" (extractBuildError Samples.cascadeLogs) = true /\
  includes "Second error" (extractBuildError Samples.cascadeLogs) = false.
Proof. split; vm_compute; reflexivity. Qed.

(** The unit tests do not tell the two extractors apart. *)
Example unit_tests_either_way (accumulate : bool) :
  (includes "Could not resolve"
     (extractBuildErrorWith accumulate Samples.cascadeLogs) = true /\
   includes "Second error"
     (extractBuildErrorWith accumulate Samples.cascadeLogs) = false) /\
  extractBuildErrorWith accumulate [] = "No logs available" /\
  includes "Actual error here"
    (extractBuildErrorWith accumulate Samples.metadataLogs) = true.
Proof. destruct accumulate; repeat split; vm_compute; reflexivity. Qed.

Example extractBuildError_skips_metadata :
  extractBuildError Samples.metadataLogs = "✘ [ERROR] Actual error here".
Proof. reflexivity. Qed.

(** C5 -- [extractBuildError] of the empty sequence is the literal "No
    logs available"; on a non-empty sequence no line of which matches an
    error indicator it returns the last non-empty line, and the same literal
    when every line is empty. *)
Theorem extractBuildError_fallback :
  extractBuildError [] = "No logs available" /\
  forall logs : list string,
    logs <> [] ->
    Forall (fun l => isErrorIndicator l = false) logs ->
    (forall pre l post,
        logs = (pre ++ l :: post)%list ->
        l <> "" -> Forall (fun x => x = "") post ->
        extractBuildError logs = l) /\
    (Forall (fun x => x = "") logs ->
     extractBuildError logs = "No logs available").
Proof.
  split; [reflexivity | ].
  intros logs Hne Hno.
  assert (Hfall : extractBuildError logs =
                  match lastNonEmptyLine logs with
                  | Some l => l
                  | None => NO_LOGS
                  end).
  { unfold extractBuildError.
    rewrite (firstErrorBlock_no_indicator logs Hno).
    destruct logs; [contradiction | reflexivity]. }
  split.
  - intros pre l post Heq Hl Hpost.
    rewrite Hfall, Heq, (lastNonEmptyLine_last pre l post Hl Hpost).
    reflexivity.
  - intros Hall. rewrite Hfall, (lastNonEmptyLine_all_empty logs Hall).
    reflexivity.
Qed.

(** The fallback on a log without error lines. *)
Lemma extractBuildError_fallback_witness :
  extractBuildError ["Installing dependencies..."; "Build finished"; ""]
  = "Build finished".
Proof.
  apply (proj1 (proj2 extractBuildError_fallback
                      ["Installing dependencies..."; "Build finished"; ""]
                      ltac:(discriminate)
                      ltac:(repeat constructor))
               ["Installing dependencies..."] "Build finished" [""]).
  - reflexivity.
  - discriminate.
  - repeat constructor.
Defined.

End SpecFacts.

(* ================================================================== *)
(** * Facts about the payload builders *)
(* ================================================================== *)

Module BuilderFacts.

Section WithHelpers.
Context {H : Helpers}.

(** The dispatch of [buildPayload], by kind. *)
Lemma slack_buildPayload_kind (data : NotificationData) :
  Slack.buildPayload data =
  match messageKind (getBuildStatus (event data)) with
  | Succeeded =>
      Slack.buildSuccessMessage (event data)
        (isProductionBranch (metaField branch (triggerMeta (event data))))
        (previewUrl data) (liveUrl data)
  | Failed => Slack.buildFailureMessage (event data) (logs data)
  | Cancelled => Slack.buildCancelledMessage (event data)
  | Fallback => Slack.buildFallbackMessage (event data)
  end.
Proof.
  unfold Slack.buildPayload, messageKind.
  destruct (getBuildStatus (event data)) as [[] [] []]; reflexivity.
Qed.

Lemma discord_buildPayload_kind (data : NotificationData) :
  Discord.buildPayload data =
  match messageKind (getBuildStatus (event data)) with
  | Succeeded =>
      Discord.buildSuccessMessage (event data)
        (isProductionBranch (metaField branch (triggerMeta (event data))))
        (previewUrl data) (liveUrl data)
  | Failed => Discord.buildFailureMessage (event data) (logs data)
  | Cancelled => Discord.buildCancelledMessage (event data)
  | Fallback => Discord.buildFallbackMessage (event data)
  end.
Proof.
  unfold Discord.buildPayload, messageKind.
  destruct (getBuildStatus (event data)) as [[] [] []]; reflexivity.
Qed.

(** A status that is failed is never given the cancelled message: the test
    of [isFailed] comes first. *)
Lemma failed_status_builds_failure (data : NotificationData) :
  isSucceeded (getBuildStatus (event data)) = false ->
  isFailed (getBuildStatus (event data)) = true ->
  Slack.buildPayload data = Slack.buildFailureMessage (event data) (logs data)
  /\ Discord.buildPayload data =
     Discord.buildFailureMessage (event data) (logs data).
Proof.
  intros Hs Hf. unfold Slack.buildPayload, Discord.buildPayload.
  rewrite Hs, Hf. split; reflexivity.
Qed.

(** Both metadata builders render the same items. *)
Lemma slack_context_items (e : CloudflareEvent) :
  Slack.buildContextElements e = map SlackView.renderItem (metadataItems e).
Proof.
  unfold Slack.buildContextElements, metadataItems, present.
  destruct (metaField branch (triggerMeta e)) as [b|];
    [destruct (truthy (Some b)) | ];
    (destruct (metaField commitHash (triggerMeta e)) as [h|];
     [destruct (truthy (Some h)) | ]);
    (destruct (getCommitUrl e) as [u|]; [destruct (truthy (Some u)) | ]);
    (destruct (extractAuthorName (metaField author (triggerMeta e))) as [a|];
     [destruct (truthy (Some a)) | ]);
    reflexivity.
Qed.

Lemma discord_fields_items (e : CloudflareEvent) :
  Discord.buildMetadataFields e =
  map DiscordView.renderItem (metadataItems e).
Proof.
  unfold Discord.buildMetadataFields, metadataItems, present.
  destruct (metaField branch (triggerMeta e)) as [b|];
    [destruct (truthy (Some b)) | ];
    (destruct (metaField commitHash (triggerMeta e)) as [h|];
     [destruct (truthy (Some h)) | ]);
    (destruct (getCommitUrl e) as [u|]; [destruct (truthy (Some u)) | ]);
    (destruct (extractAuthorName (metaField author (triggerMeta e))) as [a|];
     [destruct (truthy (Some a)) | ]);
    reflexivity.
Qed.

Lemma pushContext_cons (e : CloudflareEvent) (b : Slack.KnownBlock)
    (bs : list Slack.KnownBlock) :
  exists tl, Slack.pushContext e (b :: bs) = b :: tl.
Proof.
  unfold Slack.pushContext.
  destruct (0 <? List.length (Slack.buildContextElements e))%nat;
    eexists; reflexivity.
Qed.

Lemma metadataOf_pushContext (e : CloudflareEvent) (s : Slack.SectionBlock)
    (tl : list Slack.KnownBlock) :
  (forall b, In b tl -> exists s', b = Slack.Section_ s') ->
  SlackView.metadataOf
    {| Slack.blocks := (Slack.pushContext e [Slack.Section_ s] ++ tl)%list |}
  = Slack.buildContextElements e.
Proof.
  intros Htl. unfold SlackView.metadataOf, Slack.pushContext.
  cbn [Slack.blocks].
  assert (Hnil : flat_map
                   (fun b => match b with
                             | Slack.Context_ elements => elements
                             | Slack.Section_ _ => []
                             end) tl = []).
  { induction tl as [| b tl IH]; [reflexivity | ].
    cbn [flat_map]. destruct (Htl b (or_introl eq_refl)) as [s' ->].
    apply IH. intros b' Hb'. apply Htl. now right. }
  rewrite flat_map_app, Hnil, app_nil_r.
  destruct (Slack.buildContextElements e) as [| x l]; cbn.
  - reflexivity.
  - now rewrite app_nil_r.
Qed.

Lemma filter_inline_items (items : list MetaItem) :
  filter DiscordView.isInline (map DiscordView.renderItem items)
  = map DiscordView.renderItem items.
Proof.
  induction items as [| i items IH]; [reflexivity | ].
  cbn [map filter]. rewrite IH.
  destruct i as [b | t [u|] | a]; reflexivity.
Qed.

Lemma find_link_items (items : list MetaItem)
    (rest : list Discord.DiscordEmbedField) :
  find (fun f => (Discord.name f =? "Logs")
                 || (Discord.name f =? "Build Details"))
       (map DiscordView.renderItem items ++ rest)%list
  = find (fun f => (Discord.name f =? "Logs")
                   || (Discord.name f =? "Build Details")) rest.
Proof.
  induction items as [| i items IH]; [reflexivity | ].
  cbn [map app find]. rewrite IH.
  destruct i as [b | t [u|] | a]; reflexivity.
Qed.

Lemma dropLast_app (c : ascii) (s : string) :
  DiscordView.dropLast c (s ++ String c EmptyString) = Some s.
Proof.
  induction s as [| a s IH].
  - cbn. now rewrite Ascii.eqb_refl.
  - cbn [append]. cbn [DiscordView.dropLast].
    destruct (s ++ String c EmptyString) eqn:E.
    + destruct s; discriminate.
    + rewrite IH. reflexivity.
Qed.

Lemma linkTarget_logs (d : string) :
  DiscordView.linkTarget ("[View Full Logs](" ++ d ++ ")") = Some d.
Proof.
  unfold DiscordView.linkTarget. cbn. apply dropLast_app.
Qed.

Lemma linkTarget_build (d : string) :
  DiscordView.linkTarget ("[View Build](" ++ d ++ ")") = Some d.
Proof.
  unfold DiscordView.linkTarget. cbn. apply dropLast_app.
Qed.

Lemma linkOf_pushContext (e : CloudflareEvent) (s : Slack.SectionBlock)
    (tl : list Slack.KnownBlock) :
  SlackView.linkOf
    {| Slack.blocks := (Slack.pushContext e [Slack.Section_ s] ++ tl)%list |}
  = option_map Slack.btn_url (Slack.sec_accessory s).
Proof.
  destruct (pushContext_cons e (Slack.Section_ s) []) as [tl' Heq].
  unfold SlackView.linkOf. cbn [Slack.blocks]. rewrite Heq. reflexivity.
Qed.

Lemma kindOf_pushContext (e : CloudflareEvent) (s : Slack.SectionBlock)
    (tl : list Slack.KnownBlock) :
  SlackView.kindOf
    {| Slack.blocks := (Slack.pushContext e [Slack.Section_ s] ++ tl)%list |}
  = SlackView.kindOf {| Slack.blocks := [Slack.Section_ s] |}.
Proof.
  destruct (pushContext_cons e (Slack.Section_ s) []) as [tl' Heq].
  unfold SlackView.kindOf. cbn [Slack.blocks]. rewrite Heq. reflexivity.
Qed.

Lemma buildSectionBlock_link (text : string)
    (buttonText buttonUrl buttonStyle : option string) :
  option_map Slack.btn_url
    (Slack.sec_accessory
       (Slack.buildSectionBlock text buttonText buttonUrl buttonStyle))
  = if truthy buttonText then present buttonUrl else None.
Proof.
  unfold Slack.buildSectionBlock, present. cbn [Slack.sec_accessory].
  destruct buttonText as [bt|], buttonUrl as [bu|]; cbn [truthy andb];
    try reflexivity.
  - destruct (negb (bt =? "")), (negb (bu =? "")); reflexivity.
  - destruct (negb (bt =? "")); reflexivity.
Qed.

Lemma slack_parity (data : NotificationData) :
  let sp := Slack.buildPayload data in
  let kind := messageKind (getBuildStatus (event data)) in
  let items := match kind with
               | Fallback => []
               | _ => metadataItems (event data)
               end in
  SlackView.kindOf sp = Some kind /\
  SlackView.metadataOf sp = map SlackView.renderItem items /\
  SlackView.linkOf sp = actionLink data.
Proof.
  cbv zeta. rewrite slack_buildPayload_kind. unfold actionLink.
  destruct (messageKind (getBuildStatus (event data))).
  - unfold Slack.buildSuccessMessage. cbv zeta.
    rewrite <- (app_nil_r (Slack.pushContext _ _)).
    rewrite kindOf_pushContext, linkOf_pushContext, buildSectionBlock_link,
      metadataOf_pushContext by (intros ? []).
    split; [reflexivity | split; [apply slack_context_items | ]].
    destruct (isProductionBranch _);
      [destruct (truthy (liveUrl data)) | destruct (truthy (previewUrl data))];
      reflexivity.
  - unfold Slack.buildFailureMessage. cbv zeta.
    rewrite kindOf_pushContext, linkOf_pushContext, buildSectionBlock_link.
    rewrite metadataOf_pushContext.
    2:{ intros b [<- | []]. eexists; reflexivity. }
    split; [reflexivity | split; [apply slack_context_items | ]].
    unfold present.
    destruct (truthy (getDashboardUrl (event data))); reflexivity.
  - unfold Slack.buildCancelledMessage. cbv zeta.
    rewrite <- (app_nil_r (Slack.pushContext _ _)).
    rewrite kindOf_pushContext, linkOf_pushContext, buildSectionBlock_link,
      metadataOf_pushContext by (intros ? []).
    split; [reflexivity | split; [apply slack_context_items | ]].
    unfold present.
    destruct (truthy (getDashboardUrl (event data))); reflexivity.
  - repeat split.
Qed.

Lemma discord_parity (data : NotificationData)
    (dp : Discord.DiscordPayload) :
  Discord.buildPayload data = Normal dp ->
  let kind := messageKind (getBuildStatus (event data)) in
  let items := match kind with
               | Fallback => []
               | _ => metadataItems (event data)
               end in
  DiscordView.kindOf dp = Some kind /\
  DiscordView.metadataOf dp = map DiscordView.renderItem items /\
  DiscordView.linkOf dp = actionLink data.
Proof.
  cbv zeta. rewrite discord_buildPayload_kind. unfold actionLink.
  destruct (messageKind (getBuildStatus (event data))).
  - unfold Discord.buildSuccessMessage. cbv zeta.
    destruct (Discord.stoppedOrEventTimestamp (event data)) as [ts|];
      [ | discriminate].
    intros [= <-]. rewrite discord_fields_items.
    split; [reflexivity | ]. split.
    + unfold DiscordView.metadataOf.
      cbn [Discord.embeds flat_map DiscordView.fieldsOf Discord.fields].
      rewrite app_nil_r.
      destruct (isProductionBranch _ && truthy (liveUrl data));
        [ | destruct (negb (isProductionBranch _) && truthy (previewUrl data))];
        rewrite ?filter_app, filter_inline_items; cbn [filter];
        rewrite ?app_nil_r; reflexivity.
    + unfold DiscordView.linkOf, present.
      cbn [Discord.embeds Discord.url DiscordView.fieldsOf Discord.fields].
      destruct (isProductionBranch _);
        (set (u := js_or _ _); clearbody u;
         destruct (truthy u) eqn:Hu;
         [ destruct u; [reflexivity | discriminate Hu]
         | destruct (_ && truthy (liveUrl data));
           [ | destruct (_ && truthy (previewUrl data))];
           first [ rewrite find_link_items | rewrite <- (app_nil_r (map _ _)), find_link_items ]; reflexivity ]).
  - unfold Discord.buildFailureMessage, present. cbv zeta.
    destruct (Discord.stoppedOrEventTimestamp (event data)) as [ts|];
      [ | discriminate].
    destruct (getDashboardUrl (event data)) as [d|];
      [destruct (truthy (Some d)) | ];
      intros [= <-]; rewrite discord_fields_items;
      (split; [reflexivity | split]);
      unfold DiscordView.metadataOf, DiscordView.linkOf;
      cbn [Discord.embeds flat_map DiscordView.fieldsOf Discord.fields
           Discord.url];
      rewrite ?app_nil_r, ?filter_app, ?filter_inline_items,
        <- ?app_assoc, ?find_link_items;
      cbn; rewrite ?app_nil_r, ?dropLast_app; reflexivity.
  - unfold Discord.buildCancelledMessage, present. cbv zeta.
    destruct (Discord.stoppedOrEventTimestamp (event data)) as [ts|];
      [ | discriminate].
    destruct (getDashboardUrl (event data)) as [d|];
      [destruct (truthy (Some d)) | ];
      intros [= <-]; rewrite discord_fields_items;
      (split; [reflexivity | split]);
      unfold DiscordView.metadataOf, DiscordView.linkOf;
      cbn [Discord.embeds flat_map DiscordView.fieldsOf Discord.fields
           Discord.url];
      rewrite ?app_nil_r, ?filter_app, ?filter_inline_items;
      try (first [ rewrite find_link_items
                 | rewrite <- (app_nil_r (map _ _)), find_link_items ]);
      cbn; rewrite ?app_nil_r, ?dropLast_app; reflexivity.
  - unfold Discord.buildFallbackMessage.
    destruct (Discord.eventTimestampOf (event data)) as [ts|];
      [ | discriminate].
    intros [= <-]. repeat split.
Qed.

(** C8 -- Content parity.  For every [NotificationData] for which the
    Discord builder yields a payload (it does for every well-formed one),
    the Slack and the Discord payloads are of the same message kind, their
    metadata lines render one and the same list of items (the branch, the
    first seven characters of the commit hash with the same optional link,
    the author display name; none for the fallback message), and their
    action links are the same link, the one of the link-priority rule. *)
Theorem builders_content_parity (data : NotificationData)
    (dp : Discord.DiscordPayload) :
  Discord.buildPayload data = Normal dp ->
  let sp := Slack.buildPayload data in
  let kind := messageKind (getBuildStatus (event data)) in
  let items := match kind with
               | Fallback => []
               | _ => metadataItems (event data)
               end in
  (SlackView.kindOf sp = Some kind /\ DiscordView.kindOf dp = Some kind) /\
  (SlackView.metadataOf sp = map SlackView.renderItem items /\
   DiscordView.metadataOf dp = map DiscordView.renderItem items) /\
  (SlackView.linkOf sp = actionLink data /\
   DiscordView.linkOf dp = actionLink data).
Proof.
  intros Hdp. cbv zeta.
  destruct (slack_parity data) as [Hk [Hm Hl]].
  destruct (discord_parity data dp Hdp) as [Hk' [Hm' Hl']].
  repeat split; assumption.
Qed.

Lemma metadataItems_absent (e : CloudflareEvent) :
  triggerMeta e = None ->
  truthy (extractAuthorName None) = false ->
  metadataItems e = [].
Proof.
  intros Hmeta Hauthor. unfold metadataItems, present.
  rewrite Hmeta. cbn [metaField truthy]. rewrite Hauthor. reflexivity.
Qed.

Lemma actionLink_absent (data : NotificationData) :
  truthy (previewUrl data) = false ->
  truthy (liveUrl data) = false ->
  truthy (getDashboardUrl (event data)) = false ->
  actionLink data = None.
Proof.
  intros Hp Hl Hd. unfold actionLink, present, js_or.
  rewrite Hp, Hl, Hd.
  destruct (messageKind _); [destruct (isProductionBranch _) | | | ];
    reflexivity.
Qed.

Lemma buttonsOf_pushContext (e : CloudflareEvent) (s : Slack.SectionBlock)
    (tl : list Slack.KnownBlock) :
  SlackView.buttonsOf
    {| Slack.blocks := (Slack.pushContext e [Slack.Section_ s] ++ tl)%list |}
  = (match Slack.sec_accessory s with
     | Some btn => [btn]
     | None => []
     end ++ SlackView.buttonsOf {| Slack.blocks := tl |})%list.
Proof.
  unfold SlackView.buttonsOf, Slack.pushContext. cbn [Slack.blocks].
  rewrite flat_map_app.
  destruct (0 <? List.length (Slack.buildContextElements e))%nat;
    cbn [flat_map app Slack.buildContextBlock]; rewrite ?app_nil_r;
    reflexivity.
Qed.

Lemma slack_buttons_link (data : NotificationData) :
  SlackView.linkOf (Slack.buildPayload data) = None ->
  SlackView.buttonsOf (Slack.buildPayload data) = [].
Proof.
  rewrite slack_buildPayload_kind.
  destruct (messageKind _).
  - unfold Slack.buildSuccessMessage. cbv zeta.
    rewrite <- (app_nil_r (Slack.pushContext _ _)).
    rewrite linkOf_pushContext, buttonsOf_pushContext.
    destruct (Slack.sec_accessory _); [discriminate | reflexivity].
  - unfold Slack.buildFailureMessage. cbv zeta.
    rewrite linkOf_pushContext, buttonsOf_pushContext.
    destruct (Slack.sec_accessory _); [discriminate | reflexivity].
  - unfold Slack.buildCancelledMessage. cbv zeta.
    rewrite <- (app_nil_r (Slack.pushContext _ _)).
    rewrite linkOf_pushContext, buttonsOf_pushContext.
    destruct (Slack.sec_accessory _); [discriminate | reflexivity].
  - reflexivity.
Qed.

Lemma filter_block_items (items : list MetaItem) :
  filter (fun f => negb (DiscordView.isInline f))
         (map DiscordView.renderItem items) = [].
Proof.
  induction items as [| i items IH]; [reflexivity | ].
  cbn [map filter]. rewrite IH.
  destruct i as [b | t [u|] | a]; reflexivity.
Qed.

Lemma discord_block_fields (data : NotificationData)
    (dp : Discord.DiscordPayload) :
  Discord.buildPayload data = Normal dp ->
  truthy (previewUrl data) = false ->
  truthy (liveUrl data) = false ->
  truthy (getDashboardUrl (event data)) = false ->
  Forall (fun f => Discord.name f = "Error") (DiscordView.blockFieldsOf dp).
Proof.
  rewrite discord_buildPayload_kind. intros Hdp Hp Hl Hd. revert Hdp.
  destruct (messageKind _).
  - unfold Discord.buildSuccessMessage. cbv zeta.
    destruct (Discord.stoppedOrEventTimestamp (event data)) as [ts|];
      [ | discriminate].
    rewrite Hp, Hl, !andb_false_r. intros [= <-].
    unfold DiscordView.blockFieldsOf.
    cbn [Discord.embeds flat_map DiscordView.fieldsOf Discord.fields].
    rewrite discord_fields_items, filter_block_items. constructor.
  - unfold Discord.buildFailureMessage. cbv zeta.
    destruct (Discord.stoppedOrEventTimestamp (event data)) as [ts|];
      [ | discriminate].
    destruct (getDashboardUrl (event data)) as [d|];
      [rewrite Hd | ]; intros [= <-];
      unfold DiscordView.blockFieldsOf;
      cbn [Discord.embeds flat_map DiscordView.fieldsOf Discord.fields];
      rewrite discord_fields_items, filter_app, filter_block_items;
      cbn; repeat constructor.
  - unfold Discord.buildCancelledMessage. cbv zeta.
    destruct (Discord.stoppedOrEventTimestamp (event data)) as [ts|];
      [ | discriminate].
    destruct (getDashboardUrl (event data)) as [d|];
      [rewrite Hd | ]; intros [= <-];
      unfold DiscordView.blockFieldsOf;
      cbn [Discord.embeds flat_map DiscordView.fieldsOf Discord.fields];
      rewrite discord_fields_items, filter_block_items; constructor.
  - unfold Discord.buildFallbackMessage.
    destruct (Discord.eventTimestampOf (event data)) as [ts|];
      [ | discriminate].
    intros [= <-]. constructor.
Qed.

Lemma discord_total (data : NotificationData) :
  wellFormed data -> exists dp, Discord.buildPayload data = Normal dp.
Proof.
  intros [Hp Hm]. rewrite discord_buildPayload_kind.
  assert (Ht : exists ts, Discord.eventTimestampOf (event data) = Normal ts).
  { unfold Discord.eventTimestampOf.
    destruct (metadata (event data)); [eexists; reflexivity | contradiction]. }
  assert (Hs : exists ts,
             Discord.stoppedOrEventTimestamp (event data) = Normal ts).
  { unfold Discord.stoppedOrEventTimestamp.
    destruct (payload (event data)) as [p|]; [ | contradiction].
    destruct (stoppedAt p) as [s|]; [destruct (truthy (Some s)) | ];
      solve [eexists; reflexivity | exact Ht]. }
  destruct Ht as [ts1 Ht], Hs as [ts2 Hs].
  destruct (messageKind _);
    unfold Discord.buildSuccessMessage, Discord.buildFailureMessage,
      Discord.buildCancelledMessage, Discord.buildFallbackMessage;
    cbv zeta; rewrite ?Hs, ?Ht; eexists; reflexivity.
Qed.

(** C9 -- For every well-formed [NotificationData] (the event has a
    payload and metadata) [buildPayload] of the Slack notifier and of the
    Discord notifier returns a payload and does not throw, whatever else is
    absent.  What is absent is left out: without [buildTriggerMetadata] (and
    with no author name for an absent author) neither payload has a metadata
    line; without preview, live and dashboard URL the Slack payload has no
    button and the Discord payload has no link, its only field that is not
    inline being the error, if any. *)
Theorem buildPayload_total_on_well_formed {LarkPayload : Type}
    {W : Collaborators LarkPayload} (data : NotificationData) :
  wellFormed data ->
  exists (sp : Slack.SlackPayload) (dp : Discord.DiscordPayload),
    buildPayload SlackNotifier data = Normal (SlackBody sp) /\
    buildPayload DiscordNotifier data = Normal (DiscordBody dp) /\
    (triggerMeta (event data) = None ->
     truthy (extractAuthorName None) = false ->
     SlackView.metadataOf sp = [] /\ DiscordView.metadataOf dp = []) /\
    (truthy (previewUrl data) = false ->
     truthy (liveUrl data) = false ->
     truthy (getDashboardUrl (event data)) = false ->
     SlackView.buttonsOf sp = [] /\
     DiscordView.linkOf dp = None /\
     Forall (fun f => Discord.name f = "Error")
            (DiscordView.blockFieldsOf dp)).
Proof.
  intros Hwf. destruct (discord_total data Hwf) as [dp Hdp].
  exists (Slack.buildPayload data), dp.
  destruct (slack_parity data) as [_ [Hsm Hsl]].
  destruct (discord_parity data dp Hdp) as [_ [Hdm Hdl]].
  split; [reflexivity | ].
  split; [cbn [buildPayload DiscordNotifier]; now rewrite Hdp | ].
  split.
  - intros Hmeta Hauthor. rewrite Hsm, Hdm.
    rewrite (metadataItems_absent _ Hmeta Hauthor).
    split; destruct (messageKind _); reflexivity.
  - intros Hp Hl Hd.
    pose proof (actionLink_absent data Hp Hl Hd) as Hnone.
    split; [apply slack_buttons_link; congruence | ].
    split; [congruence | ].
    now apply (discord_block_fields data).
Qed.


(** What the test "should send cancellation notification" asks of the
    classifier.  It expects the text of the first block of the Slack payload
    for its event to contain "Build Cancelled"; with the builders as they
    are that is so exactly when the classifier reports the event as
    cancelled and neither as succeeded nor as failed. *)
Lemma cancelled_test_fixes_status :
  match Slack.blocks (Slack.buildPayload Samples.cancelledData) with
  | Slack.Section_ s :: _ =>
      includes "Build Cancelled" (Slack.sec_text s) = true
  | _ => False
  end <->
  getBuildStatus Samples.cancelledEvent
  = {| isSucceeded := false; isFailed := false; isCancelled := true |}.
Proof.
  rewrite slack_buildPayload_kind. unfold messageKind.
  change (event Samples.cancelledData) with Samples.cancelledEvent.
  destruct (getBuildStatus Samples.cancelledEvent) as [[] [] []];
    cbn [isSucceeded isFailed isCancelled];
    unfold Slack.buildSuccessMessage, Slack.buildFailureMessage,
      Slack.buildCancelledMessage, Slack.buildFallbackMessage;
    cbv zeta; cbn [Slack.blocks];
    try match goal with
        | |- context [Slack.pushContext ?e (?b :: ?bs)] =>
            destruct (pushContext_cons e b bs) as [tl ->]
        end;
    try destruct (isProductionBranch _);
    (split; [vm_compute; intros Hx; discriminate Hx
            | intros Hx; discriminate Hx ])
    || (split; [reflexivity | intros _; vm_compute; reflexivity])
    || idtac.
Qed.


End WithHelpers.

(** The two builders on the event of the test-suite, with the helpers of the
    specification. *)
Lemma builders_content_parity_witness :
  exists dp,
    Discord.buildPayload (H := Spec.helpers) Samples.mockData = Normal dp /\
    SlackView.linkOf (Slack.buildPayload (H := Spec.helpers) Samples.mockData)
    = DiscordView.linkOf dp.
Proof.
  eexists. split; [reflexivity | ].
  destruct (builders_content_parity (H := Spec.helpers) Samples.mockData _
              eq_refl) as [_ [_ [Hs Hd]]].
  cbv zeta in Hs. rewrite Hs, Hd. reflexivity.
Defined.

(** The builders on an event that has a payload, metadata and nothing
    else. *)
Lemma buildPayload_total_on_well_formed_witness :
  exists sp dp,
    buildPayload (SlackNotifier (H := Spec.helpers) (W := Samples.apiDown))
                 Samples.bareData = Normal (SlackBody sp) /\
    buildPayload (DiscordNotifier (H := Spec.helpers) (W := Samples.apiDown))
                 Samples.bareData = Normal (DiscordBody dp) /\
    SlackView.metadataOf sp = [] /\ SlackView.buttonsOf sp = [] /\
    DiscordView.metadataOf dp = [] /\ DiscordView.linkOf dp = None.
Proof.
  destruct (buildPayload_total_on_well_formed
              (H := Spec.helpers) (W := Samples.apiDown) Samples.bareData)
    as [sp [dp [Hs [Hd [Hmeta Hurl]]]]].
  - split; discriminate.
  - exists sp, dp.
    destruct (Hmeta eq_refl eq_refl) as [Hm1 Hm2].
    destruct (Hurl eq_refl eq_refl eq_refl) as [Hb [Hl _]].
    repeat split; assumption.
Defined.

(** The succeeded event of the test-suite, on the production branch: the
    title of both payloads. *)
Example production_deploy_titles :
  SlackView.kindOf (Slack.buildPayload (H := Spec.helpers) Samples.mockData)
  = Some Succeeded /\
  match Slack.blocks (Slack.buildPayload (H := Spec.helpers) Samples.mockData)
  with
  | Slack.Section_ s :: _ =>
      includes "Production Deploy" (Slack.sec_text s) = true /\
      includes "test-worker" (Slack.sec_text s) = true
  | _ => False
  end /\
  match Discord.buildPayload (H := Spec.helpers) Samples.mockData with
  | Normal {| Discord.embeds := em :: _ |} =>
      match Discord.title em with
      | Some t => includes "Production Deploy" t = true
      | None => False
      end
  | _ => False
  end.
Proof. repeat split; vm_compute; reflexivity. Qed.


End BuilderFacts.

(* ================================================================== *)
(** * Facts about the notification manager and the queue handler *)
(* ================================================================== *)

Module WorkerFacts.

Section WithCollaborators.
Context {H : Helpers} {LarkPayload : Type} {W : Collaborators LarkPayload}.

Local Abbreviation Eff := (Effect LarkPayload).

(** The three notifiers send one request each. *)
Lemma SlackNotifier_oneRequest : oneRequest (SlackNotifier (H := H)).
Proof.
  intros u p h. cbn [send SlackNotifier].
  unfold SlackNotifier_send, bind, fetch.
  destruct (network h u p) as [resp | e]; [ | eexists; reflexivity].
  destruct (ok resp); cbn; eexists; reflexivity.
Qed.

Lemma DiscordNotifier_oneRequest : oneRequest (DiscordNotifier (H := H)).
Proof.
  intros u p h. cbn [send DiscordNotifier].
  unfold DiscordNotifier_send, bind, fetch.
  destruct (network h u p) as [resp | e]; [ | eexists; reflexivity].
  destruct (ok resp); cbn; eexists; reflexivity.
Qed.

Lemma LarkNotifier_oneRequest : oneRequest LarkNotifier.
Proof.
  intros u p h. cbn [send LarkNotifier].
  unfold LarkNotifier_send, bind, fetch.
  destruct (network h u p) as [resp | e]; [ | eexists; reflexivity].
  destruct (larkResponseError resp); cbn; eexists; reflexivity.
Qed.

(** A task completes normally, whatever its notifier does, and performs the
    expected calls and one console effect. *)
Lemma notifyTask_shape (n : Notifier LarkPayload) (u : string)
    (data : NotificationData) (h : list Eff) :
  oneRequest n ->
  exists level message error,
    notifyTask n u data h =
    (Normal tt, (taskEffects n u data ++ [EConsole level message error])%list).
Proof.
  intros Hsend. unfold notifyTask, try_catch, bind, emit, lift, taskEffects,
    console_log, console_error.
  destruct (buildPayload n data) as [p | e].
  - match goal with
    | |- context [send n u p ?h'] => destruct (Hsend u p h') as [r Hr]
    end.
    rewrite Hr. destruct r as [[] | e]; cbn; eexists _, _, _; reflexivity.
  - cbn. eexists _, _, _; reflexivity.
Qed.

(** The loop over a registry of notifiers that send one request each: it
    completes normally, adds one settled promise per configured notifier,
    none of them rejected, and performs the expected effects. *)
Lemma startTasks_shape (configs : list (NotifierConfig LarkPayload))
    (data : NotificationData) (env : Env) :
  Forall (fun c => oneRequest (notifier c)) configs ->
  forall (promises : list (completion unit)) (h : list Eff),
    Forall isNormal promises ->
    exists promises' d,
      startTasks configs data env promises h = (Normal promises', d) /\
      Forall isNormal promises' /\
      List.length promises'
      = (List.length promises + configuredCount configs env)%nat /\
      forall P, silentOnConsole P ->
                filter P d = filter P (tasksEffects configs data env).
Proof.
  intros Hall. induction Hall as [| c configs Hc _ IH];
    intros promises h Hprom.
  - exists promises, []. cbn. repeat split; [assumption | lia].
  - cbn [startTasks]. unfold configuredCount, tasksEffects.
    cbn [filter flat_map].
    destruct (webhookUrlKey c env) as [u|] eqn:Hu.
    + destruct (truthy (Some u)) eqn:Ht; cbn [negb].
      * unfold bind, spawn.
        destruct (notifyTask_shape (notifier c) u data h Hc)
          as [lvl [msg [err Hrun]]].
        rewrite Hrun.
        destruct (IH (promises ++ [Normal tt])%list
                     (h ++ taskEffects (notifier c) u data
                        ++ [EConsole lvl msg err])%list)
          as [promises' [d [Hrun' [Hnorm [Hlen Hfil]]]]].
        { apply Forall_app. split; [assumption | repeat constructor]. }
        rewrite Hrun'. eexists _, _. split; [reflexivity | ].
        split; [assumption | ]. split.
        -- rewrite Hlen, length_app. cbn [List.length].
           unfold configuredCount. lia.
        -- intros P HP. rewrite !filter_app, (Hfil P HP). cbn [filter].
           rewrite HP. rewrite app_nil_r. reflexivity.
      * destruct (IH promises h Hprom)
          as [promises' [d [Hrun' [Hnorm [Hlen Hfil]]]]].
        rewrite Hrun'. eexists _, _. split; [reflexivity | ].
        split; [assumption | ]. split; [exact Hlen | exact Hfil].
    + destruct (IH promises h Hprom)
        as [promises' [d [Hrun' [Hnorm [Hlen Hfil]]]]].
      rewrite Hrun'. eexists _, _. split; [reflexivity | ].
      split; [assumption | ]. split; [exact Hlen | exact Hfil].
Qed.

Lemma promise_all_normal (promises : list (completion unit)) :
  Forall isNormal promises -> promise_all promises = Normal tt.
Proof.
  induction 1 as [| p promises Hp _ IH]; [reflexivity | ].
  destruct p; [exact IH | contradiction].
Qed.

Lemma NOTIFIERS_oneRequest :
  Forall (fun c => oneRequest (notifier c)) (NOTIFIERS (H := H)).
Proof.
  repeat constructor; cbn [notifier].
  - apply SlackNotifier_oneRequest.
  - apply LarkNotifier_oneRequest.
  - apply DiscordNotifier_oneRequest.
Qed.

(** [sendNotifications] never throws, and the console apart its effects are
    the tasks of the configured notifiers. *)
Lemma sendNotifications_shape (data : NotificationData) (env : Env)
    (h : list Eff) :
  exists d,
    sendNotifications data env h = (Normal tt, d) /\
    forall P, silentOnConsole P ->
              filter P d = filter P (tasksEffects NOTIFIERS data env).
Proof.
  unfold sendNotifications, bind.
  destruct (startTasks_shape NOTIFIERS data env NOTIFIERS_oneRequest
              [] h (Forall_nil _))
    as [promises [d [Hrun [Hnorm [Hlen Hfil]]]]].
  rewrite Hrun.
  destruct (List.length promises =? 0)%nat.
  - cbn. eexists. split; [reflexivity | ]. intros P HP.
    rewrite filter_app. cbn [filter]. rewrite HP, app_nil_r. now apply Hfil.
  - unfold lift. rewrite (promise_all_normal promises Hnorm).
    eexists. split; [reflexivity | ]. intros P HP.
    rewrite app_nil_r. now apply Hfil.
Qed.

Lemma sendCalls_filter (P : Eff -> bool) (n : string) (d : list Eff) :
  (forall m u p, P (ESend m u p) = true) ->
  sendCalls n (filter P d) = sendCalls n d.
Proof.
  intros HP. unfold sendCalls.
  induction d as [| x d IH]; [reflexivity | ].
  cbn [filter]. destruct (P x) eqn:E; cbn [flat_map]; rewrite IH.
  - reflexivity.
  - destruct x; try reflexivity. rewrite HP in E. discriminate.
Qed.

Lemma truthy_Some (u : string) : u <> "" -> truthy (Some u) = true.
Proof.
  intros Hu. cbn. destruct (u =? "") eqn:E; [ | reflexivity].
  apply String.eqb_eq in E. contradiction.
Qed.

(** The calls of [sendNotifications], notifier by notifier. *)
Lemma sendNotifications_calls (data : NotificationData)
    (env : Env) (h : list Eff) :
  exists d,
    sendNotifications data env h = (Normal tt, d) /\
    forall c u,
      In c NOTIFIERS -> webhookUrlKey c env = Some u -> u <> "" ->
      buildCalls (notifier_name (notifier c)) d = 1 /\
      forall p,
        buildPayload (notifier c) data = Normal p ->
        sendCalls (notifier_name (notifier c)) d = [(u, p)] /\
        In (EFetch u p) d.
Proof.
  destruct (sendNotifications_shape data env h) as [d [Hrun Hfil]].
  exists d. split; [exact Hrun | ].
  intros c u Hin Hu Hne.
  pose proof (truthy_Some u Hne) as Ht.
  assert (Hbuild : buildCalls (notifier_name (notifier c)) d
                   = buildCalls (notifier_name (notifier c))
                                (tasksEffects NOTIFIERS data env)).
  { unfold buildCalls. rewrite Hfil; [reflexivity | intros ? ? ?; reflexivity]. }
  assert (Hsend : sendCalls (notifier_name (notifier c)) d
                  = sendCalls (notifier_name (notifier c))
                              (tasksEffects NOTIFIERS data env)).
  { rewrite <- (sendCalls_filter isNotifierCall _ d) by reflexivity.
    rewrite Hfil by (intros ? ? ?; reflexivity).
    now apply sendCalls_filter. }
  assert (Hreq : forall p, In (EFetch u p) (tasksEffects NOTIFIERS data env)
                           -> In (EFetch u p) d).
  { intros p Hp.
    assert (Hp' : In (EFetch u p) (filter isRequest d)).
    { rewrite Hfil by (intros ? ? ?; reflexivity).
      apply filter_In. split; [exact Hp | reflexivity]. }
    apply filter_In in Hp'. tauto. }
  rewrite Hbuild, Hsend. clear Hbuild Hsend Hfil Hrun.
  unfold tasksEffects, NOTIFIERS in *.
  cbn [flat_map notifier webhookUrlKey] in *.
  revert Hreq.
  destruct Hin as [<- | [<- | [<- | []]]];
    cbn [notifier webhookUrlKey] in Hu |- *; rewrite Hu, Ht;
    repeat match goal with
      | |- context [match ?k env with _ => _ end] =>
          destruct (k env) as [?|]
      | |- context [if truthy (Some ?v) then _ else _] =>
          destruct (truthy (Some v))
      end;
    unfold taskEffects;
    cbn [buildPayload notifier_name SlackNotifier LarkNotifier DiscordNotifier];
    destruct (larkBuildPayload data); destruct (Discord.buildPayload data);
    intros Hreq;
    (split; [reflexivity
            | intros p Hp;
              first [ discriminate Hp
                    | injection Hp as <-;
                      split; [reflexivity | apply Hreq; cbn; auto 20] ]]).
Qed.

(** C2 -- Isolation of the notifiers.  For every [NotificationData],
    environment and behaviour of the network (any send may fail, by a
    response that is not ok or by a rejected request), [sendNotifications]
    returns normally, and for every notifier of the registry with a
    non-empty webhook URL: [buildPayload] is called exactly once and, with
    the payload it returns, [send] is called exactly once, with that URL
    and that payload, and the request is made -- whatever happens to the
    other notifiers.  On well-formed data the Slack and the Discord builder
    do return a payload, so each of the two, when configured, is sent its
    own payload exactly once. *)
Theorem sendNotifications_isolates_failures (data : NotificationData)
    (env : Env) (h : list Eff) :
  exists d,
    sendNotifications data env h = (Normal tt, d) /\
    (forall c u,
        In c NOTIFIERS -> webhookUrlKey c env = Some u -> u <> "" ->
        buildCalls (notifier_name (notifier c)) d = 1 /\
        forall p,
          buildPayload (notifier c) data = Normal p ->
          sendCalls (notifier_name (notifier c)) d = [(u, p)] /\
          In (EFetch u p) d) /\
    (wellFormed data ->
     (forall u,
         SLACK_WEBHOOK_URL env = Some u -> u <> "" ->
         sendCalls "Slack" d = [(u, SlackBody (Slack.buildPayload data))]) /\
     (forall u,
         DISCORD_WEBHOOK_URL env = Some u -> u <> "" ->
         exists dp,
           Discord.buildPayload data = Normal dp /\
           sendCalls "Discord" d = [(u, DiscordBody dp)])).
Proof.
  destruct (sendNotifications_calls data env h) as [d [Hrun Hall]].
  exists d. split; [exact Hrun | ]. split; [exact Hall | ].
  intros Hwf. split.
  - intros u Hu Hne.
    destruct (Hall {| notifier := SlackNotifier;
                      webhookUrlKey := SLACK_WEBHOOK_URL |} u)
      as [_ Hs]; [cbn; auto | exact Hu | exact Hne | ].
    now apply Hs.
  - intros u Hu Hne.
    destruct (BuilderFacts.discord_total data Hwf) as [dp Hdp].
    exists dp. split; [exact Hdp | ].
    destruct (Hall {| notifier := DiscordNotifier;
                      webhookUrlKey := DISCORD_WEBHOOK_URL |} u)
      as [_ Hs]; [cbn; auto | exact Hu | exact Hne | ].
    apply Hs. cbn [buildPayload notifier DiscordNotifier]. now rewrite Hdp.
Qed.

Lemma forEach_ack (batch : list Message) (h : list Eff) :
  forEach ack batch h = (Normal tt, map (fun m => EAck (id m)) batch).
Proof.
  revert h. induction batch as [| m batch IH]; intros h; [reflexivity | ].
  cbn [forEach map]. unfold bind. cbn [ack emit]. unfold ack, emit.
  rewrite IH. reflexivity.
Qed.

Lemma hasWebhook_false (env : Env) :
  truthy (SLACK_WEBHOOK_URL env) = false ->
  truthy (LARK_WEBHOOK_URL env) = false ->
  truthy (DISCORD_WEBHOOK_URL env) = false ->
  hasWebhook env = false.
Proof.
  intros Hs Hl Hd. unfold hasWebhook, js_or. now rewrite Hs, Hl, Hd.
Qed.

(** C7 -- With no platform configured (each webhook URL absent or empty)
    [sendNotifications] completes normally and its only effect is the
    warning: no [buildPayload], no [send], no request.  The queue handler,
    which checks the three URLs first, logs an error and acknowledges the
    messages without reaching [sendNotifications]. *)
Theorem sendNotifications_without_webhooks (data : NotificationData)
    (env : Env) (h : list Eff) :
  truthy (SLACK_WEBHOOK_URL env) = false ->
  truthy (LARK_WEBHOOK_URL env) = false ->
  truthy (DISCORD_WEBHOOK_URL env) = false ->
  sendNotifications data env h =
  (Normal tt,
   [EConsole LogWarn
      "No notification webhooks configured. Set SLACK_WEBHOOK_URL, LARK_WEBHOOK_URL, or DISCORD_WEBHOOK_URL."
      None]) /\
  forall batch,
    queue batch env h =
    (Normal tt,
     EConsole LogError
       "No webhook URLs configured. Set SLACK_WEBHOOK_URL, LARK_WEBHOOK_URL, or DISCORD_WEBHOOK_URL."
       None :: map (fun m => EAck (id m)) batch).
Proof.
  intros Hs Hl Hd. split.
  - unfold sendNotifications, NOTIFIERS, bind.
    cbn [startTasks webhookUrlKey].
    destruct (SLACK_WEBHOOK_URL env) as [s|]; [rewrite Hs | ];
      (destruct (LARK_WEBHOOK_URL env) as [l|]; [rewrite Hl | ]);
      (destruct (DISCORD_WEBHOOK_URL env) as [d|]; [rewrite Hd | ]);
      reflexivity.
  - intros batch. unfold queue.
    rewrite (hasWebhook_false env Hs Hl Hd). cbn [negb].
    unfold bind, console_error, emit. rewrite forEach_ack. reflexivity.
Qed.

(* ------------------------------------------------------------------ *)
(** ** The queue handler *)

Lemma tasksEffects_filter_nil (P : Eff -> bool)
    (configs : list (NotifierConfig LarkPayload))
    (data : NotificationData) (env : Env) :
  (forall n, P (EBuildPayload n) = false) ->
  (forall n u p, P (ESend n u p) = false) ->
  (forall u p, P (EFetch u p) = false) ->
  filter P (tasksEffects configs data env) = [].
Proof.
  intros Hb Hs Hf. unfold tasksEffects.
  induction configs as [| c configs IH]; [reflexivity | ].
  cbn [flat_map]. rewrite filter_app, IH, app_nil_r.
  destruct (webhookUrlKey c env) as [u|]; [ | reflexivity].
  destruct (truthy (Some u)); [ | reflexivity].
  unfold taskEffects. destruct (buildPayload (notifier c) data);
    cbn [filter]; rewrite ?Hb, ?Hs, ?Hf; reflexivity.
Qed.

Lemma acks_filter (d : list Eff) :
  filter isAck d = [] -> acks d = [].
Proof.
  unfold acks. induction d as [| x d IH]; [reflexivity | ].
  cbn [filter flat_map]. destruct x; cbn [isAck]; try exact IH.
  discriminate.
Qed.

Lemma acks_app (d1 d2 : list Eff) :
  acks (d1 ++ d2) = (acks d1 ++ acks d2)%list.
Proof. unfold acks. apply flat_map_app. Qed.

Lemma count_app (P : Eff -> bool) (d1 d2 : list Eff) :
  count P (d1 ++ d2) = (count P d1 + count P d2)%nat.
Proof. unfold count. now rewrite filter_app, length_app. Qed.

(** [sendNotifications] returns normally, acknowledges nothing and calls no
    fetcher. *)
Lemma sendNotifications_quiet (data : NotificationData) (env : Env)
    (h : list Eff) :
  exists d,
    sendNotifications data env h = (Normal tt, d) /\
    acks d = [] /\
    count isFetchBuildUrls d = 0 /\ count isFetchBuildLogs d = 0.
Proof.
  destruct (sendNotifications_shape data env h) as [d [Hrun Hfil]].
  exists d. split; [exact Hrun | ]. unfold count.
  split; [apply acks_filter | split];
    (rewrite Hfil by (intros ? ? ?; reflexivity);
     rewrite tasksEffects_filter_nil by (intros; reflexivity);
     reflexivity).
Qed.

(** The statements after the two early exits: the fetcher that goes with
    the status is called, at most one of the two and at most once; the
    message is acknowledged once unless a fetcher throws, and then not at
    all. *)
Lemma notifyEvent_shape (m : Message) (e : CloudflareEvent) (env : Env)
    (h : list Eff) :
  let st := getBuildStatus e in
  exists r d,
    notifyEvent m e env h = (r, d) /\
    count isFetchBuildUrls d = (if isSucceeded st then 1 else 0) /\
    count isFetchBuildLogs d
    = (if isSucceeded st then 0
       else if isFailed st && negb (isCancelled st) then 1 else 0) /\
    acks d = match r with
             | Normal _ => [id m]
             | Throw _ => []
             end.
Proof.
  cbv zeta. unfold notifyEvent.
  destruct (isSucceeded (getBuildStatus e)).
  - unfold bind at 1 2, fetchBuildUrls.
    destruct (fetchBuildUrlsResult h e env) as [urls | err].
    + cbn [ret]. unfold ret, bind.
      match goal with
      | |- context [sendNotifications ?d ?v ?h'] =>
          destruct (sendNotifications_quiet d v h')
            as [d2 [Hrun [Ha [Hu Hl]]]]
      end.
      rewrite Hrun. unfold ack, emit. eexists _, _.
      split; [reflexivity | ].
      rewrite !count_app, !acks_app, Ha, Hu, Hl. repeat split.
    + eexists _, _. split; [reflexivity | ]. repeat split.
  - destruct (isFailed (getBuildStatus e) && negb (isCancelled (getBuildStatus e))).
    + unfold bind at 1 2, fetchBuildLogs.
      destruct (fetchBuildLogsResult h e env) as [logs | err].
      * cbn [ret]. unfold ret, bind.
        match goal with
        | |- context [sendNotifications ?d ?v ?h'] =>
            destruct (sendNotifications_quiet d v h')
              as [d2 [Hrun [Ha [Hu Hl]]]]
        end.
        rewrite Hrun. unfold ack, emit. eexists _, _.
        split; [reflexivity | ].
        rewrite !count_app, !acks_app, Ha, Hu, Hl. repeat split.
      * eexists _, _. split; [reflexivity | ]. repeat split.
    + unfold bind, ret.
      match goal with
      | |- context [sendNotifications ?d ?v ?h'] =>
          destruct (sendNotifications_quiet d v h')
            as [d2 [Hrun [Ha [Hu Hl]]]]
      end.
      rewrite Hrun. unfold ack, emit. eexists _, _.
      split; [reflexivity | ].
      rewrite !count_app, !acks_app, Ha, Hu, Hl. repeat split.
Qed.

(** One round of the loop: it completes normally and acknowledges its
    message once; for a valid event that is not skipped the fetchers are
    called as the status says. *)
Lemma processMessage_shape (env : Env) (m : Message) (h : list Eff) :
  exists d,
    processMessage env m h = (Normal tt, d) /\
    acks d = [id m] /\
    forall e,
      body m = Some e ->
      invalidStructure (Some e) = false ->
      skippedType e = false ->
      count isFetchBuildUrls d
      = (if isSucceeded (getBuildStatus e) then 1 else 0) /\
      count isFetchBuildLogs d
      = (if isSucceeded (getBuildStatus e) then 0
         else if isFailed (getBuildStatus e)
                 && negb (isCancelled (getBuildStatus e))
              then 1 else 0).
Proof.
  unfold processMessage, try_catch.
  destruct (body m) as [e|] eqn:Hbody.
  - destruct (invalidStructure (Some e)) eqn:Hinv.
    + eexists. split; [reflexivity | ]. split; [reflexivity | ].
      intros e' [= <-] Hinv'. congruence.
    + destruct (skippedType e) eqn:Hskip.
      * eexists. split; [reflexivity | ]. split; [reflexivity | ].
        intros e' [= <-] _ Hskip'. congruence.
      * destruct (notifyEvent_shape m e env h)
          as [r [d [Hrun [Hu [Hl Ha]]]]].
        rewrite Hrun. destruct r as [[] | err].
        -- exists d. split; [reflexivity | ]. split; [exact Ha | ].
           intros e' [= <-] _ _. split; assumption.
        -- cbn. eexists. split; [reflexivity | ].
           rewrite acks_app, Ha. split; [reflexivity | ].
           intros e' [= <-] _ _. rewrite !count_app, Hu, Hl.
           cbn. split; lia.
  - eexists. split; [reflexivity | ]. split; [reflexivity | ].
    intros e' [=].
Qed.

(** C10 -- For every batch and environment the queue handler completes
    normally and the messages it acknowledges are the messages of the
    batch, each once and in order: without a webhook, for an invalid or a
    skipped event, after the notifications and after an exception in the
    processing of the message. *)
Theorem queue_acks_each_message_once (batch : list Message) (env : Env)
    (h : list Eff) :
  exists d,
    queue batch env h = (Normal tt, d) /\
    acks d = map id batch.
Proof.
  unfold queue. destruct (hasWebhook env); cbn [negb].
  - revert h. induction batch as [| m batch IH]; intros h.
    + exists []. split; reflexivity.
    + cbn [forEach map]. unfold bind.
      destruct (processMessage_shape env m h) as [d1 [Hrun [Ha _]]].
      rewrite Hrun.
      destruct (IH (h ++ d1)%list) as [d2 [Hrun2 Ha2]].
      rewrite Hrun2. eexists. split; [reflexivity | ].
      rewrite acks_app, Ha, Ha2. reflexivity.
  - unfold bind, console_error, emit. rewrite forEach_ack.
    eexists. split; [reflexivity | ].
    cbn [app acks flat_map]. fold (acks (map (fun m => EAck (LarkPayload := LarkPayload) (id m)) batch)).
    induction batch as [| m batch IH]; [reflexivity | ].
    cbn [map]. unfold acks in *. cbn [flat_map app]. now rewrite IH.
Qed.

(** C6 (as amended) -- The queue handler on a message whose event is
    structurally valid and not skipped, for every classifier: each fetcher
    is called at most once and never both; [fetchBuildUrls] is called
    exactly when the status is succeeded; [fetchBuildLogs] exactly when it
    is not succeeded, is failed and is not cancelled; for a cancelled event
    [fetchBuildLogs] is not called, and [fetchBuildUrls] is called only if
    the event is also succeeded.  When the classifier never reports
    succeeded together with failed or cancelled, that is the statement with
    "failed and not cancelled" alone, and neither fetcher is called for a
    cancelled event.  [d] is what the round of the loop for the message
    does; it is all the handler does on the batch of that one message, when
    a webhook is configured. *)
Theorem queue_fetches_by_status (env : Env) (m : Message)
    (e : CloudflareEvent) (h : list Eff) :
  body m = Some e ->
  invalidStructure (Some e) = false ->
  skippedType e = false ->
  let st := getBuildStatus e in
  let d := snd (processMessage env m h) in
  (hasWebhook env = true -> snd (queue [m] env h) = d) /\
  (count isFetchBuildUrls d <= 1 /\ count isFetchBuildLogs d <= 1 /\
   count isFetchBuildUrls d + count isFetchBuildLogs d <= 1) /\
  (count isFetchBuildUrls d = 1 <-> isSucceeded st = true) /\
  (count isFetchBuildLogs d = 1 <->
   isSucceeded st = false /\ isFailed st = true /\ isCancelled st = false) /\
  (isCancelled st = true ->
   count isFetchBuildLogs d = 0 /\
   (count isFetchBuildUrls d = 0 <-> isSucceeded st = false)) /\
  ((isSucceeded st = true ->
    isFailed st = false /\ isCancelled st = false) ->
   (count isFetchBuildLogs d = 1 <->
    isFailed st = true /\ isCancelled st = false) /\
   (isCancelled st = true ->
    count isFetchBuildUrls d = 0 /\ count isFetchBuildLogs d = 0)).
Proof.
  intros Hbody Hvalid Hskip. cbv zeta.
  destruct (processMessage_shape env m h) as [d [Hrun [_ Hcount]]].
  destruct (Hcount e Hbody Hvalid Hskip) as [Hu Hl].
  split.
  - intros Hweb. unfold queue. rewrite Hweb. cbn [negb forEach].
    unfold bind. rewrite Hrun. cbn. apply app_nil_r.
  - rewrite Hrun. cbn [snd]. rewrite Hu, Hl.
    destruct (isSucceeded (getBuildStatus e)),
      (isFailed (getBuildStatus e)),
      (isCancelled (getBuildStatus e)); cbn [andb negb];
      repeat match goal with
             | |- _ /\ _ => split
             | |- _ <-> _ => split
             | |- _ -> _ => intro
             | H : _ /\ _ |- _ => destruct H
             | H : ?P -> _ /\ _ |- _ =>
                 match type of P with
                 | Prop => specialize (H eq_refl)
                 end
             end;
      try lia; try discriminate; try reflexivity.
Qed.

End WithCollaborators.


(** The environment of the test-suite without webhook URLs. *)
Lemma sendNotifications_without_webhooks_witness :
  sendNotifications (H := Spec.helpers) (W := Samples.slackDown)
    Samples.mockData Samples.envWithoutWebhooks [] =
  (Normal tt,
   [EConsole LogWarn
      "No notification webhooks configured. Set SLACK_WEBHOOK_URL, LARK_WEBHOOK_URL, or DISCORD_WEBHOOK_URL."
      None]).
Proof.
  apply (sendNotifications_without_webhooks (H := Spec.helpers)
           (W := Samples.slackDown) Samples.mockData
           Samples.envWithoutWebhooks []); reflexivity.
Defined.

(** The multi-platform scenario of the test-suite: three platforms
    configured, Slack answers 500.  The failure is logged; the Lark and the
    Discord notifier build and send once each. *)
Lemma sendNotifications_isolates_failures_witness :
  exists d,
    sendNotifications (H := Spec.helpers) (W := Samples.slackDown)
      Samples.mockData Samples.multiPlatformEnv [] = (Normal tt, d) /\
    In (EConsole LogError "✗ Failed to send to Slack:"
                 (Some (Error "Slack API error: 500 Error"))) d /\
    (buildCalls "Lark" d = 1 /\
     sendCalls "Lark" d
     = [("https://open.feishu.cn/open-apis/bot/v2/hook/test", LarkBody tt)]) /\
    (buildCalls "Discord" d = 1 /\
     exists dp,
       Discord.buildPayload (H := Spec.helpers) Samples.mockData = Normal dp /\
       sendCalls "Discord" d
       = [("https://discord.com/api/webhooks/123/test", DiscordBody dp)]).
Proof.
  destruct (sendNotifications_isolates_failures (H := Spec.helpers)
              (W := Samples.slackDown) Samples.mockData
              Samples.multiPlatformEnv [])
    as [d [Hrun [Hall _]]].
  exists d. split; [exact Hrun | ]. split.
  - vm_compute in Hrun. injection Hrun as <-. cbn. auto 20.
  - split.
    + destruct (Hall {| notifier := LarkNotifier (W := Samples.slackDown);
                        webhookUrlKey := LARK_WEBHOOK_URL |}
                     "https://open.feishu.cn/open-apis/bot/v2/hook/test")
        as [Hb Hs]; [cbn; auto | reflexivity | discriminate | ].
      split; [exact Hb | ]. now apply Hs.
    + destruct (Hall {| notifier :=
                          DiscordNotifier (H := Spec.helpers)
                                          (W := Samples.slackDown);
                        webhookUrlKey := DISCORD_WEBHOOK_URL |}
                     "https://discord.com/api/webhooks/123/test")
        as [Hb Hs]; [cbn; auto | reflexivity | discriminate | ].
      split; [exact Hb | ]. eexists. split; [reflexivity | ].
      now apply Hs.
Defined.

(** The cancelled event of the test-suite, with a classifier under which
    it is cancelled and not succeeded: neither fetcher is called. *)
Lemma queue_fetches_by_status_witness :
  let d := snd (processMessage (H := Samples.testedHelpers)
                  (W := Samples.slackDown)
                  Samples.multiPlatformEnv Samples.cancelledMessage []) in
  count isFetchBuildUrls d = 0 /\ count isFetchBuildLogs d = 0.
Proof.
  destruct (queue_fetches_by_status (H := Samples.testedHelpers)
              (W := Samples.slackDown)
              Samples.multiPlatformEnv Samples.cancelledMessage
              Samples.cancelledEvent [] eq_refl eq_refl eq_refl)
    as [_ [_ [_ [_ [_ Hexcl]]]]].
  apply Hexcl; [discriminate | reflexivity].
Defined.

(** C6 (as stated) fails for a classifier that reports an event as
    succeeded and failed, or as succeeded and cancelled, at once; the rule
    of section 4.1 does for an event of type "succeeded" whose outcome is
    ["failure"] or ["cancelled"].  For the first the status is failed and
    not cancelled and [fetchBuildLogs] is not called: the handler tests
    [isSucceeded] first and fetches the URLs.  For the second the event is
    cancelled and [fetchBuildUrls] is called. *)
Lemma overlapping_status_breaks_fetch_rule :
  let run m := snd (processMessage (H := Spec.helpers)
                      (W := Samples.slackDown)
                      Samples.multiPlatformEnv m []) in
  let st1 := Spec.getBuildStatus Samples.succeededTypeFailureEvent in
  let d1 := run Samples.succeededTypeFailureMessage in
  let st2 := Spec.getBuildStatus Samples.succeededTypeCancelledEvent in
  let d2 := run Samples.succeededTypeCancelledMessage in
  (invalidStructure (Some Samples.succeededTypeFailureEvent) = false /\
   skippedType Samples.succeededTypeFailureEvent = false /\
   st1 = {| isSucceeded := true; isFailed := true; isCancelled := false |} /\
   count isFetchBuildUrls d1 = 1 /\ count isFetchBuildLogs d1 = 0 /\
   ~ (count isFetchBuildLogs d1 = 1 <->
      isFailed st1 = true /\ isCancelled st1 = false)) /\
  (invalidStructure (Some Samples.succeededTypeCancelledEvent) = false /\
   skippedType Samples.succeededTypeCancelledEvent = false /\
   (isSucceeded st2 = true /\ isCancelled st2 = true) /\
   count isFetchBuildUrls d2 = 1 /\ count isFetchBuildLogs d2 = 0 /\
   ~ (isCancelled st2 = true ->
      count isFetchBuildUrls d2 = 0 /\ count isFetchBuildLogs d2 = 0)).
Proof.
  cbv zeta. split.
  - do 5 (split; [vm_compute; reflexivity | ]).
    intros [_ Hx]. specialize (Hx (conj eq_refl eq_refl)).
    vm_compute in Hx. discriminate Hx.
  - do 2 (split; [vm_compute; reflexivity | ]).
    split; [split; vm_compute; reflexivity | ].
    do 2 (split; [vm_compute; reflexivity | ]).
    intros Hx. destruct (Hx eq_refl) as [Hu _].
    vm_compute in Hu. discriminate Hu.
Qed.

(** A batch whose first message makes the fetcher throw: the handler logs
    the error, acknowledges the message and goes on with the next one. *)
Example queue_acks_after_exception :
  exists d,
    queue (H := Spec.helpers) (W := Samples.apiDown)
      [Samples.mockMessage; Samples.cancelledMessage]
      Samples.multiPlatformEnv [] = (Normal tt, d) /\
    In (EConsole LogError "Error processing message:"
                 (Some (Error "Network error"))) d /\
    acks d = ["message-1"; "message-2"].
Proof.
  eexists. split; [vm_compute; reflexivity | ].
  split; [cbn; auto 30 | reflexivity].
Qed.

End WorkerFacts.

(* ================================================================== *)
(** * More facts about the payload builders *)
(* ================================================================== *)

Module PayloadFacts.
Import BuilderFacts.



(** The cut in code units. *)
Lemma jsLength_append (a b : string) :
  jsLength (a ++ b) = (jsLength a + jsLength b)%nat.
Proof.
  induction a as [| c a IH]; [reflexivity | ].
  cbn [append jsLength]. rewrite IH. lia.
Qed.

Lemma codeUnits_le (c : ascii) : (codeUnits c <= 2)%nat.
Proof.
  unfold codeUnits.
  destruct (nat_of_ascii c <? 128)%nat; [lia | ].
  destruct (nat_of_ascii c <? 192)%nat; [lia | ].
  destruct (nat_of_ascii c <? 240)%nat; lia.
Qed.

Lemma codeUnits_continuation (k : nat) :
  (128 <= k < 192)%nat -> codeUnits (ascii_of_nat k) = 0.
Proof.
  intros Hk. unfold codeUnits.
  rewrite nat_ascii_embedding by lia.
  destruct (k <? 128)%nat eqn:E1; [apply Nat.ltb_lt in E1; lia | ].
  destruct (k <? 192)%nat eqn:E2; [reflexivity | ].
  apply Nat.ltb_ge in E2. lia.
Qed.

Lemma highSurrogate_length (c : ascii) (rest : string) :
  (jsLength (highSurrogate c rest) <= 1)%nat.
Proof.
  unfold highSurrogate.
  destruct rest as [| b1 [| b2 rest]]; cbn [jsLength]; try lia.
  set (w := ((nat_of_ascii c mod 8) * 256 + (nat_of_ascii b1 mod 64) * 4
             + (nat_of_ascii b2 mod 64) / 16 - 64)%nat).
  assert (Hw : (w < 2048)%nat).
  { pose proof (Nat.mod_upper_bound (nat_of_ascii c) 8 ltac:(lia)).
    pose proof (Nat.mod_upper_bound (nat_of_ascii b1) 64 ltac:(lia)).
    pose proof (Nat.mod_upper_bound (nat_of_ascii b2) 64 ltac:(lia)).
    pose proof (Nat.Div0.div_lt_upper_bound (nat_of_ascii b2 mod 64) 16 4
                  ltac:(lia)).
    unfold w. lia. }
  pose proof (Nat.Div0.div_lt_upper_bound w 64 32 ltac:(lia)).
  pose proof (Nat.mod_upper_bound w 64 ltac:(lia)).
  rewrite (codeUnits_continuation (160 + w / 64)),
    (codeUnits_continuation (128 + w mod 64)) by lia.
  change (codeUnits (ascii_of_nat 237)) with 1. lia.
Qed.

Lemma substringUnits_length (n : nat) (s : string) :
  (jsLength (substringUnits n s) <= n)%nat.
Proof.
  revert n. induction s as [| c s IH]; intros n; [cbn; lia | ].
  cbn [substringUnits].
  pose proof (codeUnits_le c) as Hc.
  destruct (codeUnits c) as [| [| k]] eqn:E.
  - cbn [jsLength]. rewrite E. apply IH.
  - destruct n as [| n]; [cbn; lia | ].
    cbn [jsLength]. rewrite E. specialize (IH n). lia.
  - destruct n as [| [| n]]; [cbn; lia | apply highSurrogate_length | ].
    cbn [jsLength]. rewrite E. specialize (IH n). lia.
Qed.

Lemma substringUnits_short (n : nat) (s : string) :
  (jsLength s <= n)%nat -> substringUnits n s = s.
Proof.
  revert n. induction s as [| c s IH]; intros n Hlen; [reflexivity | ].
  cbn [jsLength] in Hlen. cbn [substringUnits].
  destruct (codeUnits c) as [| [| k]] eqn:E.
  - rewrite IH by lia. reflexivity.
  - destruct n as [| n]; [lia | ]. rewrite IH by lia. reflexivity.
  - destruct n as [| [| n]]; [lia | lia | ]. rewrite IH by lia. reflexivity.
Qed.

Lemma substringUnits_bmp (n : nat) (s : string) :
  inBmp s = true ->
  startsWith (substringUnits n s) s = true /\
  jsLength (substringUnits n s) = Nat.min n (jsLength s).
Proof.
  revert n. induction s as [| c s IH]; intros n Hb; [now destruct n | ].
  cbn [inBmp] in Hb. apply andb_true_iff in Hb. destruct Hb as [Hc Hb].
  apply Nat.leb_le in Hc.
  cbn [substringUnits jsLength].
  destruct (codeUnits c) as [| [| k]] eqn:E; [ | | lia].
  - destruct (IH n Hb) as [Hp Hl].
    cbn [startsWith jsLength]. rewrite E, Ascii.eqb_refl, Hp, Hl.
    split; reflexivity.
  - destruct n as [| n]; [split; reflexivity | ].
    destruct (IH n Hb) as [Hp Hl].
    cbn [startsWith jsLength]. rewrite E, Ascii.eqb_refl, Hp, Hl.
    split; reflexivity.
Qed.

(** On ASCII text the cut in code units is the cut in bytes. *)
Lemma substringUnits_ascii (n : nat) (s : string) :
  isAscii s = true -> substringUnits n s = substring0 n s.
Proof.
  unfold substring0. revert n.
  induction s as [| c s IH]; intros n Ha; [now destruct n | ].
  cbn [isAscii] in Ha. apply andb_true_iff in Ha. destruct Ha as [Hc Ha].
  cbn [substringUnits]. unfold codeUnits. rewrite Hc.
  destruct n as [| n]; [reflexivity | ].
  cbn [String.substring]. now rewrite IH.
Qed.

Section WithHelpers.
Context {H : Helpers}.

Lemma metadataItems_length (e : CloudflareEvent) :
  (List.length (metadataItems e) <= 3)%nat.
Proof.
  unfold metadataItems.
  destruct (present (metaField branch (triggerMeta e)));
    destruct (present (metaField commitHash (triggerMeta e)));
    destruct (present (extractAuthorName (metaField author (triggerMeta e))));
    cbn; lia.
Qed.

(** X1 -- The Slack payload always opens with a section, has one to three
    blocks, and a context block is never empty and has at most three
    elements. *)
Theorem slack_payload_shape (data : NotificationData) :
  let bs := Slack.blocks (Slack.buildPayload data) in
  (exists s tl, bs = Slack.Section_ s :: tl) /\
  (1 <= List.length bs <= 3)%nat /\
  (forall els, In (Slack.Context_ els) bs ->
               els <> [] /\ (List.length els <= 3)%nat).
Proof.
  cbv zeta. rewrite slack_buildPayload_kind.
  pose proof (metadataItems_length (event data)) as Hlen.
  pose proof (slack_context_items (event data)) as Hitems.
  assert (Hctx : (List.length (Slack.buildContextElements (event data)) <= 3)%nat).
  { rewrite Hitems, length_map. exact Hlen. }
  clear Hlen Hitems.
  destruct (messageKind _);
    unfold Slack.buildSuccessMessage, Slack.buildFailureMessage,
      Slack.buildCancelledMessage, Slack.buildFallbackMessage,
      Slack.pushContext, Slack.buildContextBlock;
    cbv zeta; cbn [Slack.blocks];
    destruct (Slack.buildContextElements (event data)) as [| x l] eqn:E;
    cbn [List.length Nat.ltb Nat.leb app];
    (split; [eexists _, _; reflexivity | ]);
    (split; [cbn; lia | ]);
    intros els Hin; cbn in Hin;
    repeat match goal with
      | Hx : _ \/ _ |- _ => destruct Hx as [Hx | Hx]
      | Hx : False |- _ => contradiction
      | Hx : Slack.Section_ _ = Slack.Context_ _ |- _ => discriminate Hx
      | Hx : Slack.Context_ _ = Slack.Context_ _ |- _ =>
          injection Hx as <-
      end;
    (split; [discriminate | exact Hctx]).
Qed.

Lemma buildSectionBlock_accessory (text : string)
    (buttonText buttonUrl buttonStyle : option string) (btn : Slack.Button) :
  Slack.sec_accessory
    (Slack.buildSectionBlock text buttonText buttonUrl buttonStyle) = Some btn ->
  buttonText = Some (Slack.btn_text btn) /\ Slack.btn_text btn <> "" /\
  buttonUrl = Some (Slack.btn_url btn) /\ Slack.btn_url btn <> "" /\
  Slack.btn_style btn = present buttonStyle.
Proof.
  unfold Slack.buildSectionBlock, present. cbn [Slack.sec_accessory].
  destruct buttonText as [bt|], buttonUrl as [bu|]; try discriminate.
  cbn [truthy].
  destruct (bt =? "") eqn:Ebt; [discriminate | ].
  destruct (bu =? "") eqn:Ebu; [discriminate | ].
  cbn [negb andb]. intros [= <-]. cbn [Slack.btn_text Slack.btn_url Slack.btn_style].
  apply String.eqb_neq in Ebt, Ebu. repeat split; assumption.
Qed.

(** X2 -- A Slack payload has at most one button, and a button always has
    a label and a target that are not empty; only the button of the failure
    message is styled, as "danger". *)
Theorem slack_button_invariant (data : NotificationData) :
  (List.length (SlackView.buttonsOf (Slack.buildPayload data)) <= 1)%nat /\
  forall btn,
    In btn (SlackView.buttonsOf (Slack.buildPayload data)) ->
    Slack.btn_text btn <> "" /\ Slack.btn_url btn <> "" /\
    Slack.btn_style btn
    = match messageKind (getBuildStatus (event data)) with
      | Failed => Some "danger"
      | _ => None
      end.
Proof.
  rewrite slack_buildPayload_kind.
  destruct (messageKind _).
  - unfold Slack.buildSuccessMessage. cbv zeta.
    rewrite <- (app_nil_r (Slack.pushContext _ _)), buttonsOf_pushContext.
    destruct (Slack.sec_accessory _) as [b|] eqn:E; cbn;
      (split; [lia | ]); [ | intros btn []].
    intros btn [<- | []].
    apply buildSectionBlock_accessory in E. tauto.
  - unfold Slack.buildFailureMessage. cbv zeta.
    rewrite buttonsOf_pushContext.
    destruct (Slack.sec_accessory _) as [b|] eqn:E; cbn;
      (split; [lia | ]); [ | intros btn []].
    intros btn [<- | []].
    apply buildSectionBlock_accessory in E. tauto.
  - unfold Slack.buildCancelledMessage. cbv zeta.
    rewrite <- (app_nil_r (Slack.pushContext _ _)), buttonsOf_pushContext.
    destruct (Slack.sec_accessory _) as [b|] eqn:E; cbn;
      (split; [lia | ]); [ | intros btn []].
    intros btn [<- | []].
    apply buildSectionBlock_accessory in E. tauto.
  - cbn. split; [lia | intros btn []].
Qed.

(** X3 -- The button of the success message is labelled after its target:
    "View Worker" leads to the live URL (production branch only), "View
    Preview" to the preview URL (other branches only), and "View Build" to
    the dashboard URL. *)
Theorem slack_success_button_matches_target (e : CloudflareEvent)
    (isProduction : bool) (previewUrl liveUrl : option string)
    (btn : Slack.Button) :
  In btn (SlackView.buttonsOf
            (Slack.buildSuccessMessage e isProduction previewUrl liveUrl)) ->
  (Slack.btn_text btn = "View Worker" /\ isProduction = true /\
   liveUrl = Some (Slack.btn_url btn)) \/
  (Slack.btn_text btn = "View Preview" /\ isProduction = false /\
   previewUrl = Some (Slack.btn_url btn)) \/
  (Slack.btn_text btn = "View Build" /\
   getDashboardUrl e = Some (Slack.btn_url btn)).
Proof.
  unfold Slack.buildSuccessMessage. cbv zeta.
  rewrite <- (app_nil_r (Slack.pushContext _ _)), buttonsOf_pushContext.
  destruct (Slack.sec_accessory _) as [b|] eqn:E; cbn; [ | intros []].
  intros [<- | []].
  apply buildSectionBlock_accessory in E.
  destruct E as [Ht [_ [Hu _]]]. injection Ht as Ht.
  unfold js_or in Hu.
  destruct isProduction.
  - destruct (truthy liveUrl); [left | right; right]; now rewrite <- Ht.
  - destruct (truthy previewUrl); [right; left | right; right];
      now rewrite <- Ht.
Qed.

Lemma stoppedOrEventTimestamp_throws (e : CloudflareEvent) :
  (exists err, Discord.stoppedOrEventTimestamp e = Throw err) <->
  match payload e with
  | None => True
  | Some p => truthy (stoppedAt p) = false /\ metadata e = None
  end.
Proof.
  unfold Discord.stoppedOrEventTimestamp, Discord.eventTimestampOf.
  destruct (payload e) as [p|].
  - destruct (stoppedAt p) as [s|]; [destruct (truthy (Some s)) eqn:Hs | ];
      destruct (metadata e) as [m|]; split;
      try (intros [err Herr]; discriminate);
      try (intros [Hx Hy]; discriminate);
      try (intros _; eexists; reflexivity);
      try (intros _; split; reflexivity).
  - split; [trivial | intros _; eexists; reflexivity].
Qed.

(** X4 -- When the Discord builder throws.  The fallback message reads
    [event.metadata] and throws exactly when the event has no metadata; the
    three other messages read [event.payload] first and [event.metadata]
    only for want of a [stoppedAt], and throw exactly when the payload is
    missing, or [stoppedAt] is absent or empty and the metadata are missing.
    An event with a [stoppedAt] and no metadata is built without error. *)
Theorem discord_buildPayload_throws_iff (data : NotificationData) :
  (exists err, Discord.buildPayload data = Throw err) <->
  match messageKind (getBuildStatus (event data)) with
  | Fallback => metadata (event data) = None
  | _ =>
      match payload (event data) with
      | None => True
      | Some p =>
          truthy (stoppedAt p) = false /\ metadata (event data) = None
      end
  end.
Proof.
  rewrite discord_buildPayload_kind.
  destruct (messageKind _);
    try (rewrite <- stoppedOrEventTimestamp_throws;
         unfold Discord.buildSuccessMessage, Discord.buildFailureMessage,
           Discord.buildCancelledMessage; cbv zeta;
         destruct (Discord.stoppedOrEventTimestamp (event data));
         split; intros [err Herr]; solve [discriminate | eexists; reflexivity]).
  unfold Discord.buildFallbackMessage, Discord.eventTimestampOf.
  destruct (metadata (event data)); split;
    solve [ intros [err Herr]; discriminate | discriminate
          | reflexivity | intros _; eexists; reflexivity ].
Qed.

Lemma renderItem_name (i : MetaItem) :
  Discord.name (DiscordView.renderItem i) <> "Error" /\
  Discord.name (DiscordView.renderItem i) <> "Worker URL" /\
  Discord.name (DiscordView.renderItem i) <> "Preview URL".
Proof. destruct i as [b | t [u|] | a]; repeat split; discriminate. Qed.

Lemma In_items_field (e : CloudflareEvent) (f : Discord.DiscordEmbedField) :
  In f (Discord.buildMetadataFields e) ->
  Discord.name f <> "Error" /\ Discord.name f <> "Worker URL" /\
  Discord.name f <> "Preview URL".
Proof.
  rewrite discord_fields_items. intros Hin.
  apply in_map_iff in Hin. destruct Hin as [i [<- _]].
  apply renderItem_name.
Qed.

Lemma discord_fields_length (e : CloudflareEvent) :
  (List.length (Discord.buildMetadataFields e) <= 3)%nat.
Proof.
  rewrite discord_fields_items, length_map. apply metadataItems_length.
Qed.

(** X5 -- A Discord payload is one embed with a title, a description, a
    colour and a timestamp, and at most five fields.  The value of the
    "Error" field, the code fence around the cut error text, has at most
    1008 UTF-16 code units. *)
Theorem discord_payload_shape (data : NotificationData)
    (dp : Discord.DiscordPayload) :
  Discord.buildPayload data = Normal dp ->
  exists em,
    Discord.embeds dp = [em] /\
    (Discord.title em <> None /\ Discord.description em <> None /\
     Discord.color em <> None /\ Discord.timestamp em <> None) /\
    (List.length (DiscordView.fieldsOf em) <= 5)%nat /\
    forall f,
      In f (DiscordView.fieldsOf em) -> Discord.name f = "Error" ->
      (jsLength (Discord.value f) <= 1008)%nat.
Proof.
  rewrite discord_buildPayload_kind.
  pose proof (discord_fields_length (event data)) as Hlen.
  pose proof (In_items_field (event data)) as Hnames.
  destruct (messageKind _).
  - unfold Discord.buildSuccessMessage. cbv zeta.
    destruct (Discord.stoppedOrEventTimestamp (event data)) as [ts|];
      [ | discriminate].
    intros [= <-]. eexists. split; [reflexivity | ].
    cbn [Discord.title Discord.description Discord.color Discord.timestamp
         DiscordView.fieldsOf Discord.fields].
    split; [repeat split; discriminate | ].
    destruct (_ && truthy (liveUrl data));
      [ | destruct (_ && truthy (previewUrl data))];
      rewrite ?length_app; cbn [List.length]; (split; [lia | ]);
      intros f Hin Hname;
      try (apply in_app_iff in Hin; destruct Hin as [Hin | [<- | []]];
           [ | discriminate Hname]);
      apply Hnames in Hin; tauto.
  - unfold Discord.buildFailureMessage. cbv zeta.
    destruct (Discord.stoppedOrEventTimestamp (event data)) as [ts|];
      [ | discriminate].
    assert (Hval : forall f,
               In f (Discord.buildMetadataFields (event data) ++
                     [ {| Discord.name := "Error";
                          Discord.value :=
                            "```" ++ nl
                            ++ substringUnits 1000
                                 (extractBuildError (logs data))
                            ++ nl ++ "```";
                          Discord.inline := Some false |} ])%list ->
               Discord.name f = "Error" ->
               (jsLength (Discord.value f) <= 1008)%nat).
    { intros f Hin Hname. apply in_app_iff in Hin.
      destruct Hin as [Hin | [<- | []]]; [apply Hnames in Hin; tauto | ].
      cbn [Discord.value]. rewrite !jsLength_append.
      pose proof (substringUnits_length 1000
                    (extractBuildError (logs data))) as Hcut.
      change (jsLength "```") with 3. change (jsLength nl) with 1. lia. }
    destruct (getDashboardUrl (event data)) as [d|];
      [destruct (truthy (Some d)) | ];
      intros [= <-]; (eexists; split; [reflexivity | ]);
      cbn [Discord.title Discord.description Discord.color Discord.timestamp
           DiscordView.fieldsOf Discord.fields];
      (split; [repeat split; discriminate | ]);
      rewrite ?length_app; cbn [List.length]; (split; [lia | ]);
      intros f Hin Hname;
      try (apply in_app_iff in Hin; destruct Hin as [Hin | [<- | []]];
           [ | discriminate Hname]);
      now apply Hval.
  - unfold Discord.buildCancelledMessage. cbv zeta.
    destruct (Discord.stoppedOrEventTimestamp (event data)) as [ts|];
      [ | discriminate].
    destruct (getDashboardUrl (event data)) as [d|];
      [destruct (truthy (Some d)) | ];
      intros [= <-]; (eexists; split; [reflexivity | ]);
      cbn [Discord.title Discord.description Discord.color Discord.timestamp
           DiscordView.fieldsOf Discord.fields];
      (split; [repeat split; discriminate | ]);
      rewrite ?length_app; cbn [List.length]; (split; [lia | ]);
      intros f Hin Hname;
      try (apply in_app_iff in Hin; destruct Hin as [Hin | [<- | []]];
           [ | discriminate Hname]);
      apply Hnames in Hin; tauto.
  - unfold Discord.buildFallbackMessage.
    destruct (Discord.eventTimestampOf (event data)) as [ts|];
      [ | discriminate].
    intros [= <-]. eexists. split; [reflexivity | ].
    cbn. split; [repeat split; discriminate | ].
    split; [lia | intros f []].
Qed.

(** X6 -- The link field of the Discord success message agrees with the
    link of its embed: a field that is not inline is "Worker URL" on the
    production branch or "Preview URL" on another branch, it links to the
    live or the preview URL, and the embed's [url] is that same URL. *)
Theorem discord_success_link_field (e : CloudflareEvent)
    (isProduction : bool) (previewUrl liveUrl : option string)
    (dp : Discord.DiscordPayload) (f : Discord.DiscordEmbedField) :
  Discord.buildSuccessMessage e isProduction previewUrl liveUrl = Normal dp ->
  In f (DiscordView.blockFieldsOf dp) ->
  exists target,
    DiscordView.linkOf dp = Some target /\
    ((Discord.name f = "Worker URL" /\
      Discord.value f = "[View Worker](" ++ target ++ ")" /\
      isProduction = true /\ liveUrl = Some target) \/
     (Discord.name f = "Preview URL" /\
      Discord.value f = "[View Preview](" ++ target ++ ")" /\
      isProduction = false /\ previewUrl = Some target)).
Proof.
  unfold Discord.buildSuccessMessage. cbv zeta.
  destruct (Discord.stoppedOrEventTimestamp e) as [ts|]; [ | discriminate].
  rewrite discord_fields_items.
  destruct isProduction.
  - destruct liveUrl as [l|]; [destruct (truthy (Some l)) eqn:Hl | ];
      cbn [andb negb truthy js_or];
      intros [= <-]; unfold DiscordView.blockFieldsOf, DiscordView.linkOf;
      cbn [Discord.embeds flat_map DiscordView.fieldsOf Discord.fields
           Discord.url];
      rewrite ?filter_app, filter_block_items, ?app_nil_r; cbn [filter app];
      [ | intros [] | intros [] ].
    assert (E : (l =? "") = false).
    { cbn in Hl. destruct (l =? ""); [discriminate | reflexivity]. }
    cbn [DiscordView.isInline Discord.inline negb]. intros [<- | []].
    exists l. unfold js_or.
    repeat (first [rewrite Hl | rewrite E | progress cbn [truthy negb]]).
    split; [reflexivity | left].
    cbn [Discord.name Discord.value]. repeat split.
  - destruct previewUrl as [p|]; [destruct (truthy (Some p)) eqn:Hp | ];
      cbn [andb negb truthy js_or];
      intros [= <-]; unfold DiscordView.blockFieldsOf, DiscordView.linkOf;
      cbn [Discord.embeds flat_map DiscordView.fieldsOf Discord.fields
           Discord.url];
      rewrite ?filter_app, filter_block_items, ?app_nil_r; cbn [filter app];
      [ | intros [] | intros [] ].
    assert (E : (p =? "") = false).
    { cbn in Hp. destruct (p =? ""); [discriminate | reflexivity]. }
    cbn [DiscordView.isInline Discord.inline negb]. intros [<- | []].
    exists p. unfold js_or.
    repeat (first [rewrite Hp | rewrite E | progress cbn [truthy negb]]).
    split; [reflexivity | right].
    cbn [Discord.name Discord.value]. repeat split.
Qed.

(** X7 -- The error of a failure message.  The Slack payload ends with a
    section that holds the whole text of the extractor between code fences;
    the Discord payload holds, in its "Error" field and between code fences,
    what [substring(0, 1000)] keeps of that text: at most 1000 UTF-16 code
    units, the whole text when it has no more than 1000, and for text of the
    Basic Multilingual Plane the prefix of exactly that many code units (a
    character outside of it may be cut in the middle of its surrogate
    pair). *)
Theorem failure_messages_error_text (e : CloudflareEvent)
    (logs : list string) (dp : Discord.DiscordPayload) :
  Discord.buildFailureMessage e logs = Normal dp ->
  let err := extractBuildError logs in
  let shown := substringUnits 1000 err in
  (exists front,
      Slack.blocks (Slack.buildFailureMessage e logs)
      = (front ++ [ Slack.Section_
                      {| Slack.sec_text := "```" ++ err ++ "```";
                         Slack.sec_accessory := None |} ])%list) /\
  (exists f,
      In f (DiscordView.blockFieldsOf dp) /\
      Discord.name f = "Error" /\
      Discord.value f = "```" ++ nl ++ shown ++ nl ++ "```") /\
  (jsLength shown <= 1000)%nat /\
  ((jsLength err <= 1000)%nat -> shown = err) /\
  (inBmp err = true ->
   startsWith shown err = true /\
   jsLength shown = Nat.min 1000 (jsLength err)).
Proof.
  unfold Discord.buildFailureMessage. cbv zeta.
  destruct (Discord.stoppedOrEventTimestamp e) as [ts|]; [ | discriminate].
  intros Hdp. split.
  - unfold Slack.buildFailureMessage. cbv zeta. cbn [Slack.blocks].
    eexists. reflexivity.
  - split.
    + exists {| Discord.name := "Error";
                Discord.value :=
                  "```" ++ nl
                  ++ substringUnits 1000 (extractBuildError logs)
                  ++ nl ++ "```";
                Discord.inline := Some false |}.
      split; [ | split; reflexivity].
      revert Hdp.
      destruct (getDashboardUrl e) as [d|]; [destruct (truthy (Some d)) | ];
        intros [= <-]; unfold DiscordView.blockFieldsOf;
        cbn [Discord.embeds flat_map DiscordView.fieldsOf Discord.fields];
        rewrite app_nil_r, ?filter_app, discord_fields_items,
          filter_block_items;
        cbn; auto.
    + split; [apply substringUnits_length | ].
      split; [apply substringUnits_short | apply substringUnits_bmp].
Qed.


(** X20 -- Which message a status gets.  Both builders test the flags in
    the order succeeded, failed, cancelled.  The payload, read by its glyph
    or colour, is the success message exactly when [isSucceeded] holds; the
    failure message exactly when it does not and [isFailed] holds; the
    cancelled message exactly when neither holds and [isCancelled] does; the
    fallback message exactly when no flag holds.  So a status that is failed
    and cancelled at once gets the failure message, and the Discord payload,
    when there is one, is of the kind of the Slack payload. *)
Theorem message_kind_by_flags (data : NotificationData) :
  let st := getBuildStatus (event data) in
  let kind := SlackView.kindOf (Slack.buildPayload data) in
  (kind = Some Succeeded <-> isSucceeded st = true) /\
  (kind = Some Failed <-> isSucceeded st = false /\ isFailed st = true) /\
  (kind = Some Cancelled <->
   isSucceeded st = false /\ isFailed st = false /\ isCancelled st = true) /\
  (kind = Some Fallback <->
   isSucceeded st = false /\ isFailed st = false /\ isCancelled st = false) /\
  (forall dp,
      Discord.buildPayload data = Normal dp -> DiscordView.kindOf dp = kind).
Proof.
  cbv zeta.
  destruct (slack_parity data) as [Hk _]. cbv zeta in Hk.
  split; [ | split; [ | split; [ | split]]];
    try (intros dp Hdp; destruct (discord_parity data dp Hdp) as [Hd _];
         cbv zeta in Hd; congruence);
    rewrite Hk; unfold messageKind;
    destruct (isSucceeded (getBuildStatus (event data))),
      (isFailed (getBuildStatus (event data))),
      (isCancelled (getBuildStatus (event data)));
    split; try discriminate; try reflexivity;
    try (intros [? ?]; discriminate);
    try (intros [? [? ?]]; discriminate);
    repeat split.
Qed.

End WithHelpers.

(** The button of the production deploy of the test-suite, with a live
    URL. *)
Lemma slack_success_button_matches_target_witness :
  let btn := {| Slack.btn_text := "View Worker";
                Slack.btn_url := "https://test-worker.my-account.workers.dev";
                Slack.btn_style := None |} in
  In btn (SlackView.buttonsOf
            (Slack.buildSuccessMessage (H := Spec.helpers) Samples.mockEvent
               true None (Some "https://test-worker.my-account.workers.dev")))
  /\ Some "https://test-worker.my-account.workers.dev"
     = Some (Slack.btn_url btn).
Proof.
  cbv zeta. split; [vm_compute; auto | ].
  destruct (slack_success_button_matches_target (H := Spec.helpers)
              Samples.mockEvent true None
              (Some "https://test-worker.my-account.workers.dev")
              {| Slack.btn_text := "View Worker";
                 Slack.btn_url := "https://test-worker.my-account.workers.dev";
                 Slack.btn_style := None |})
    as [[_ [_ Hx]] | [[Hx _] | [Hx _]]];
    [vm_compute; auto | exact Hx | discriminate Hx | discriminate Hx].
Defined.

(** The embed of the production deploy of the test-suite. *)
Lemma discord_payload_shape_witness :
  exists dp,
    Discord.buildPayload (H := Spec.helpers) Samples.mockData = Normal dp /\
    exists em,
      Discord.embeds dp = [em] /\
      (List.length (DiscordView.fieldsOf em) <= 5)%nat.
Proof.
  eexists. split; [reflexivity | ].
  destruct (discord_payload_shape (H := Spec.helpers) Samples.mockData _
              eq_refl) as [em [He [_ [Hl _]]]].
  exists em. split; assumption.
Defined.

(** The "Worker URL" field of a production deploy with a live URL. *)
Lemma discord_success_link_field_witness :
  exists dp,
    Discord.buildSuccessMessage (H := Spec.helpers) Samples.mockEvent true
      None (Some "https://test-worker.my-account.workers.dev") = Normal dp /\
    DiscordView.linkOf dp
    = Some "https://test-worker.my-account.workers.dev".
Proof.
  eexists. split; [reflexivity | ].
  destruct (discord_success_link_field (H := Spec.helpers) Samples.mockEvent
              true None (Some "https://test-worker.my-account.workers.dev") _
              {| Discord.name := "Worker URL";
                 Discord.value :=
                   "[View Worker](https://test-worker.my-account.workers.dev)";
                 Discord.inline := Some false |} eq_refl)
    as [t [Hl Hc]]; [vm_compute; auto | ].
  rewrite Hl.
  destruct Hc as [[_ [_ [_ Hx]]] | [_ [_ [Hx _]]]];
    [symmetry; exact Hx | discriminate Hx].
Defined.

(** The failure message for the log lines of the test-suite. *)
Lemma failure_messages_error_text_witness :
  exists dp,
    Discord.buildFailureMessage (H := Spec.helpers) MoreSamples.failedEvent
      MoreSamples.buildLogs = Normal dp /\
    exists f,
      In f (DiscordView.blockFieldsOf dp) /\
      Discord.value f
      = "```" ++ nl ++ "✘ [ERROR] Could not resolve " ++ dq ++ "missing-module"
        ++ dq ++ nl ++ "```".
Proof.
  eexists. split; [reflexivity | ].
  destruct (failure_messages_error_text (H := Spec.helpers)
              MoreSamples.failedEvent MoreSamples.buildLogs _ eq_refl)
    as [_ [[f [Hin [_ Hval]]] [_ [Hshort _]]]].
  exists f. split; [exact Hin | ].
  rewrite Hval, Hshort; [reflexivity | ].
  apply Nat.leb_le. vm_compute. reflexivity.
Defined.


End PayloadFacts.

(* ================================================================== *)
(** * More facts about the dispatch and the queue handler *)
(* ================================================================== *)

Module DispatchFacts.
Import WorkerFacts.

Section WithCollaborators.
Context {H : Helpers} {LarkPayload : Type} {W : Collaborators LarkPayload}.

Local Abbreviation Eff := (Effect LarkPayload).

(** The task of a notifier, effect by effect. *)
Lemma notifyTask_exact (n : Notifier LarkPayload) (u : string)
    (data : NotificationData) (h : list Eff) :
  notifyTask n u data h =
  match buildPayload n data with
  | Throw err =>
      (Normal tt,
       [EBuildPayload (notifier_name n);
        EConsole LogError ("✗ Failed to send to " ++ notifier_name n ++ ":")
                 (Some err)])
  | Normal p =>
      match send n u p (h ++ [EBuildPayload (notifier_name n);
                              ESend (notifier_name n) u p])%list with
      | (Normal _, ds) =>
          (Normal tt,
           ([EBuildPayload (notifier_name n); ESend (notifier_name n) u p]
            ++ ds
            ++ [EConsole LogInfo
                  ("✓ Sent notification to " ++ notifier_name n) None])%list)
      | (Throw err, ds) =>
          (Normal tt,
           ([EBuildPayload (notifier_name n); ESend (notifier_name n) u p]
            ++ ds
            ++ [EConsole LogError
                  ("✗ Failed to send to " ++ notifier_name n ++ ":")
                  (Some err)])%list)
      end
  end.
Proof.
  unfold notifyTask, try_catch, bind, emit, lift, console_log, console_error.
  destruct (buildPayload n data) as [p | err]; [ | reflexivity].
  rewrite app_nil_r, <- app_assoc. cbn [app].
  destruct (send n u p _) as [[[] | err] ds]; cbn [app];
    rewrite ?app_nil_r; reflexivity.
Qed.

(** X9 -- What [send] of the Slack and of the Discord notifier does.  It
    makes one request, to the URL and with the payload it is given; it
    returns normally exactly when the endpoint answers with [ok]; an answer
    that is not [ok] is thrown as an [Error] that names the platform, the
    status and the text of the answer; a rejected request is rethrown as it
    is. *)
Theorem send_outcome (u : string) (p : Body LarkPayload) (h : list Eff) :
  (snd (SlackNotifier_send u p h) = [EFetch u p] /\
   snd (DiscordNotifier_send u p h) = [EFetch u p]) /\
  (fst (SlackNotifier_send u p h) = Normal tt <->
   exists r, network h u p = Normal r /\ ok r = true) /\
  (fst (DiscordNotifier_send u p h) = Normal tt <->
   exists r, network h u p = Normal r /\ ok r = true) /\
  (forall r,
      network h u p = Normal r -> ok r = false ->
      fst (SlackNotifier_send u p h)
      = Throw (Error ("Slack API error: " ++ showNat (resp_status r)
                      ++ " " ++ resp_text r)) /\
      fst (DiscordNotifier_send u p h)
      = Throw (Error ("Discord API error: " ++ showNat (resp_status r)
                      ++ " " ++ resp_text r))) /\
  (forall err,
      network h u p = Throw err ->
      fst (SlackNotifier_send u p h) = Throw err /\
      fst (DiscordNotifier_send u p h) = Throw err).
Proof.
  unfold SlackNotifier_send, DiscordNotifier_send, bind, fetch, lift, ret.
  destruct (network h u p) as [r | err]; [destruct (ok r) eqn:Hok | ];
    cbn [fst snd app negb];
    (split; [split; reflexivity | ]);
    (split;
     [ split;
       [ intros Hx; first [discriminate Hx | exists r; now split]
       | intros [r' [Hr' Hok']];
         first [discriminate Hr' | injection Hr' as <-; congruence] ] | ]);
    (split;
     [ split;
       [ intros Hx; first [discriminate Hx | exists r; now split]
       | intros [r' [Hr' Hok']];
         first [discriminate Hr' | injection Hr' as <-; congruence] ] | ]);
    (split;
     [ intros r' Hr' Hok';
       first [discriminate Hr' | injection Hr' as <-; first [congruence | now split]]
     | intros err' Herr';
       first [discriminate Herr' | injection Herr' as <-; now split] ]).
Qed.

(** X10 -- Each task of [sendNotifications] completes normally and writes
    exactly one line to the console: the success line when the builder
    returned a payload and [send] returned normally, and otherwise the
    failure line with the error that was thrown, by the builder or by
    [send]. *)
Theorem notifyTask_logs_once (c : NotifierConfig LarkPayload) (u : string)
    (data : NotificationData) (h : list Eff) :
  In c NOTIFIERS ->
  let n := notifier c in
  let sent p :=
    fst (send n u p (h ++ [EBuildPayload (notifier_name n);
                           ESend (notifier_name n) u p])%list) in
  exists d,
    notifyTask n u data h = (Normal tt, d) /\
    count isConsole d = 1 /\
    (In (EConsole LogInfo ("✓ Sent notification to " ++ notifier_name n) None)
        d <->
     exists p, buildPayload n data = Normal p /\ sent p = Normal tt) /\
    (forall err,
        In (EConsole LogError
              ("✗ Failed to send to " ++ notifier_name n ++ ":") (Some err)) d
        <->
        buildPayload n data = Throw err \/
        exists p, buildPayload n data = Normal p /\ sent p = Throw err).
Proof.
  intros Hin. cbv zeta.
  assert (Hone : oneRequest (notifier c)).
  { pose proof NOTIFIERS_oneRequest as Hall.
    rewrite Forall_forall in Hall. now apply Hall. }
  rewrite notifyTask_exact.
  destruct (buildPayload (notifier c) data) as [p | err].
  - destruct (Hone u p (h ++ [EBuildPayload (notifier_name (notifier c));
                              ESend (notifier_name (notifier c)) u p])%list)
      as [r Hr].
    rewrite Hr. cbn [fst].
    destruct r as [[] | err]; eexists; (split; [reflexivity | ]);
      (split; [reflexivity | ]); cbn [In app]; split.
    + split; [ | auto 10].
      intros _. exists p. split; [reflexivity | now rewrite Hr].
    + intros err. split.
      * intros [Hx | [Hx | [Hx | [Hx | []]]]]; discriminate.
      * intros [Hx | [p' [Hb Hs]]]; [discriminate | ].
        injection Hb as <-. rewrite Hr in Hs. discriminate.
    + split.
      * intros [Hx | [Hx | [Hx | [Hx | []]]]]; discriminate.
      * intros [p' [Hb Hs]]. injection Hb as <-. rewrite Hr in Hs.
        discriminate.
    + intros err'. split.
      * intros [Hx | [Hx | [Hx | [Hx | []]]]]; try discriminate.
        injection Hx as <-. right. exists p.
        split; [reflexivity | now rewrite Hr].
      * intros [Hx | [p' [Hb Hs]]]; [discriminate | ].
        injection Hb as <-. rewrite Hr in Hs. injection Hs as <-. auto 10.
  - eexists. split; [reflexivity | ]. split; [reflexivity | ].
    cbn [In]. split.
    + split.
      * intros [Hx | [Hx | []]]; discriminate.
      * intros [p' [Hx _]]. discriminate.
    + intros err'. split.
      * intros [Hx | [Hx | []]]; [discriminate | ].
        injection Hx as <-. now left.
      * intros [[= <-] | [p' [Hx _]]]; [auto | discriminate].
Qed.

(** The loop runs the task of every configured notifier. *)
Lemma startTasks_runs_task (configs : list (NotifierConfig LarkPayload))
    (data : NotificationData) (env : Env) (c : NotifierConfig LarkPayload)
    (u : string) :
  In c configs -> webhookUrlKey c env = Some u -> truthy (Some u) = true ->
  forall promises h,
  exists h' pre post,
    snd (startTasks configs data env promises h)
    = (pre ++ snd (notifyTask (notifier c) u data h') ++ post)%list.
Proof.
  intros Hin Hu Ht. induction configs as [| c0 configs IH]; [inversion Hin | ].
  intros promises h. cbn [startTasks].
  destruct Hin as [-> | Hin].
  - rewrite Hu, Ht. cbn [negb]. unfold bind, spawn.
    destruct (notifyTask (notifier c) u data h) as [r d0] eqn:Hrun.
    destruct (startTasks configs data env _ _) as [r2 d2].
    exists h, [], d2. rewrite Hrun. reflexivity.
  - specialize (IH Hin).
    destruct (webhookUrlKey c0 env) as [u0|]; [ | apply IH].
    destruct (truthy (Some u0)); cbn [negb]; [ | apply IH].
    unfold bind, spawn.
    destruct (notifyTask (notifier c0) u0 data h) as [r d0].
    destruct (IH (promises ++ [r])%list (h ++ d0)%list)
      as [h' [pre [post Heq]]].
    destruct (startTasks configs data env _ _) as [r2 d2].
    cbn [snd] in Heq |- *. exists h', (d0 ++ pre)%list, post.
    rewrite Heq, <- app_assoc. reflexivity.
Qed.

Lemma sendNotifications_runs_task (data : NotificationData) (env : Env)
    (c : NotifierConfig LarkPayload) (u : string) (h : list Eff) :
  In c NOTIFIERS -> webhookUrlKey c env = Some u -> truthy (Some u) = true ->
  exists h' pre post,
    snd (sendNotifications data env h)
    = (pre ++ snd (notifyTask (notifier c) u data h') ++ post)%list.
Proof.
  intros Hin Hu Ht.
  destruct (startTasks_runs_task NOTIFIERS data env c u Hin Hu Ht [] h)
    as [h' [pre [post Heq]]].
  unfold sendNotifications, bind.
  destruct (startTasks NOTIFIERS data env [] h) as [[promises | err] dt];
    cbn [snd] in Heq.
  - destruct (List.length promises =? 0)%nat;
      unfold console_warn, emit, lift; cbn [snd];
      eexists h', pre, _; rewrite Heq, <- !app_assoc; reflexivity.
  - exists h', pre, post. exact Heq.
Qed.

Lemma requestUrls_filter (d : list Eff) :
  requestUrls (filter isRequest d) = requestUrls d.
Proof.
  unfold requestUrls. induction d as [| x d IH]; [reflexivity | ].
  destruct x; cbn [filter isRequest flat_map]; rewrite IH; reflexivity.
Qed.

Ltac destruct_urls env :=
  repeat match goal with
    | |- context [match ?k env with _ => _ end] => destruct (k env) as [?|]
    | |- context [if truthy (Some ?v) then _ else _] =>
        destruct (truthy (Some v))
    end.

(** X11 -- A notifier whose webhook URL is absent or empty is left alone:
    [sendNotifications] calls neither its [buildPayload] nor its [send]. *)
Theorem unconfigured_notifier_is_never_called (data : NotificationData)
    (env : Env) (h : list Eff) (c : NotifierConfig LarkPayload) :
  In c NOTIFIERS ->
  truthy (webhookUrlKey c env) = false ->
  let d := snd (sendNotifications data env h) in
  buildCalls (notifier_name (notifier c)) d = 0 /\
  sendCalls (notifier_name (notifier c)) d = [].
Proof.
  intros Hin Hu. cbv zeta.
  destruct (sendNotifications_shape data env h) as [d [Hrun Hfil]].
  rewrite Hrun. cbn [snd].
  assert (Hbuild : buildCalls (notifier_name (notifier c)) d
                   = buildCalls (notifier_name (notifier c))
                                (tasksEffects NOTIFIERS data env)).
  { unfold buildCalls. rewrite Hfil; [reflexivity | intros ? ? ?; reflexivity]. }
  assert (Hsend : sendCalls (notifier_name (notifier c)) d
                  = sendCalls (notifier_name (notifier c))
                              (tasksEffects NOTIFIERS data env)).
  { rewrite <- (sendCalls_filter isNotifierCall _ d) by reflexivity.
    rewrite Hfil by (intros ? ? ?; reflexivity).
    now apply sendCalls_filter. }
  rewrite Hbuild, Hsend. clear Hbuild Hsend Hfil Hrun.
  unfold tasksEffects, NOTIFIERS in *.
  cbn [flat_map notifier webhookUrlKey] in *.
  destruct Hin as [<- | [<- | [<- | []]]];
    cbn [notifier webhookUrlKey] in Hu |- *;
    match type of Hu with
    | truthy (?k env) = false =>
        destruct (k env) as [u|]; [rewrite Hu | ]
    end;
    destruct_urls env;
    unfold taskEffects;
    cbn [buildPayload notifier_name SlackNotifier LarkNotifier DiscordNotifier];
    destruct (larkBuildPayload data); destruct (Discord.buildPayload data);
    split; reflexivity.
Qed.

(** X12 -- A builder that throws is contained.  When [buildPayload] of a
    configured notifier throws, [sendNotifications] still returns normally;
    that notifier's [buildPayload] was called once, its [send] was not
    called, and the error is on the console. *)
Theorem throwing_builder_is_contained (data : NotificationData) (env : Env)
    (h : list Eff) (c : NotifierConfig LarkPayload) (u : string) (err : Exn) :
  In c NOTIFIERS -> webhookUrlKey c env = Some u -> u <> "" ->
  buildPayload (notifier c) data = Throw err ->
  exists d,
    sendNotifications data env h = (Normal tt, d) /\
    buildCalls (notifier_name (notifier c)) d = 1 /\
    sendCalls (notifier_name (notifier c)) d = [] /\
    In (EConsole LogError
          ("✗ Failed to send to " ++ notifier_name (notifier c) ++ ":")
          (Some err)) d.
Proof.
  intros Hin Hu Hne Hthrow.
  destruct (sendNotifications_calls data env h) as [d [Hrun Hcalls]].
  exists d. split; [exact Hrun | ].
  destruct (Hcalls c u Hin Hu Hne) as [Hb _]. split; [exact Hb | ].
  pose proof (truthy_Some u Hne) as Ht.
  split.
  - destruct (sendNotifications_shape data env h) as [d' [Hrun' Hfil]].
    rewrite Hrun in Hrun'. injection Hrun' as <-.
    rewrite <- (sendCalls_filter isNotifierCall _ d) by reflexivity.
    rewrite Hfil by (intros ? ? ?; reflexivity).
    rewrite sendCalls_filter by reflexivity.
    clear Hfil Hcalls Hb Hrun.
    unfold tasksEffects, NOTIFIERS in *.
    cbn [flat_map notifier webhookUrlKey] in *.
    destruct Hin as [<- | [<- | [<- | []]]];
      cbn [notifier webhookUrlKey] in Hu, Hthrow |- *; rewrite Hu, Ht;
      destruct_urls env;
      unfold taskEffects;
      cbn [buildPayload notifier_name SlackNotifier LarkNotifier
           DiscordNotifier] in Hthrow |- *;
      try discriminate Hthrow;
      destruct (larkBuildPayload data); destruct (Discord.buildPayload data);
      try discriminate Hthrow; reflexivity.
  - destruct (sendNotifications_runs_task data env c u h Hin Hu Ht)
      as [h' [pre [post Heq]]].
    rewrite Hrun in Heq. cbn [snd] in Heq. rewrite Heq.
    rewrite notifyTask_exact, Hthrow. cbn [snd].
    apply in_or_app. right. apply in_or_app. left. cbn. auto.
Qed.

(** X13 -- The requests of [sendNotifications] go to webhook URLs of the
    environment and nowhere else, at most one per configured notifier and
    so at most three; when the Lark and the Discord builder return a payload
    for the data (the Slack builder always does), there is exactly one
    request per configured notifier, in the order Slack, Lark, Discord. *)
Theorem requests_go_to_configured_urls (data : NotificationData) (env : Env)
    (h : list Eff) :
  let d := snd (sendNotifications data env h) in
  incl (requestUrls d) (configuredUrls env) /\
  (List.length (requestUrls d) <= List.length (configuredUrls env) <= 3)%nat /\
  ((exists p, larkBuildPayload data = Normal p) ->
   (exists p, Discord.buildPayload data = Normal p) ->
   requestUrls d = configuredUrls env).
Proof.
  cbv zeta.
  destruct (sendNotifications_shape data env h) as [d [Hrun Hfil]].
  rewrite Hrun. cbn [snd].
  rewrite <- (requestUrls_filter d).
  rewrite Hfil by (intros ? ? ?; reflexivity).
  rewrite requestUrls_filter. clear Hfil Hrun.
  unfold tasksEffects, NOTIFIERS, configuredUrls.
  cbn [flat_map notifier webhookUrlKey].
  destruct_urls env;
    unfold taskEffects;
    cbn [buildPayload notifier_name SlackNotifier LarkNotifier DiscordNotifier];
    destruct (larkBuildPayload data) as [lp | le];
    destruct (Discord.buildPayload data) as [dp | de];
    cbn [requestUrls flat_map app List.length];
    (split; [unfold incl; cbn [In]; tauto | ]);
    (split; [lia | ]);
    intros [p1 Hp1] [p2 Hp2]; first [discriminate | reflexivity].
Qed.

(* ------------------------------------------------------------------ *)
(** ** The paths of the queue handler *)

Lemma sendNotifications_normal (data : NotificationData) (env : Env)
    (h : list Eff) :
  sendNotifications data env h
  = (Normal tt, snd (sendNotifications data env h)).
Proof.
  destruct (sendNotifications_shape data env h) as [d [Hrun _]].
  now rewrite Hrun.
Qed.

Lemma processMessage_invalid (env : Env) (m : Message) (h : list Eff) :
  invalidStructure (body m) = true ->
  processMessage env m h
  = (Normal tt,
     [EConsole LogError "Invalid event structure:" None; EAck (id m)]).
Proof.
  intros Hinv. unfold processMessage, try_catch.
  destruct (body m) as [e|]; [rewrite Hinv | ]; reflexivity.
Qed.

Lemma processMessage_skipped (env : Env) (m : Message) (e : CloudflareEvent)
    (h : list Eff) :
  body m = Some e -> invalidStructure (Some e) = false ->
  skippedType e = true ->
  processMessage env m h = (Normal tt, [EAck (id m)]).
Proof.
  intros Hbody Hinv Hskip. unfold processMessage, try_catch.
  rewrite Hbody, Hinv, Hskip. reflexivity.
Qed.

Lemma processMessage_succeeded (env : Env) (m : Message)
    (e : CloudflareEvent) (h : list Eff) :
  body m = Some e -> invalidStructure (Some e) = false ->
  skippedType e = false ->
  isSucceeded (getBuildStatus e) = true ->
  processMessage env m h =
  match fetchBuildUrlsResult h e env with
  | Normal urls =>
      (Normal tt,
       (EFetchBuildUrls e ::
        snd (sendNotifications
               {| event := e; previewUrl := fst urls; liveUrl := snd urls;
                  logs := [] |} env (h ++ [EFetchBuildUrls e])%list)
        ++ [EAck (id m)])%list)
  | Throw err =>
      (Normal tt,
       [EFetchBuildUrls e;
        EConsole LogError "Error processing message:" (Some err);
        EAck (id m)])
  end.
Proof.
  intros Hbody Hinv Hskip Hs. unfold processMessage, try_catch.
  rewrite Hbody, Hinv, Hskip. unfold notifyEvent. rewrite Hs.
  unfold bind at 1 2, fetchBuildUrls.
  destruct (fetchBuildUrlsResult h e env) as [urls | err]; [ | reflexivity].
  cbn [ret]. unfold ret, bind.
  rewrite sendNotifications_normal. unfold ack, emit.
  rewrite !app_nil_r. reflexivity.
Qed.

Lemma processMessage_failed (env : Env) (m : Message)
    (e : CloudflareEvent) (h : list Eff) :
  body m = Some e -> invalidStructure (Some e) = false ->
  skippedType e = false ->
  isSucceeded (getBuildStatus e) = false ->
  isFailed (getBuildStatus e) && negb (isCancelled (getBuildStatus e)) = true ->
  processMessage env m h =
  match fetchBuildLogsResult h e env with
  | Normal logs =>
      (Normal tt,
       (EFetchBuildLogs e ::
        snd (sendNotifications
               {| event := e; previewUrl := None; liveUrl := None;
                  logs := logs |} env (h ++ [EFetchBuildLogs e])%list)
        ++ [EAck (id m)])%list)
  | Throw err =>
      (Normal tt,
       [EFetchBuildLogs e;
        EConsole LogError "Error processing message:" (Some err);
        EAck (id m)])
  end.
Proof.
  intros Hbody Hinv Hskip Hs Hf. unfold processMessage, try_catch.
  rewrite Hbody, Hinv, Hskip. unfold notifyEvent. rewrite Hs, Hf.
  unfold bind at 1 2, fetchBuildLogs.
  destruct (fetchBuildLogsResult h e env) as [logs | err]; [ | reflexivity].
  cbn [ret]. unfold ret, bind.
  rewrite sendNotifications_normal. unfold ack, emit.
  rewrite !app_nil_r. reflexivity.
Qed.

Lemma processMessage_other (env : Env) (m : Message)
    (e : CloudflareEvent) (h : list Eff) :
  body m = Some e -> invalidStructure (Some e) = false ->
  skippedType e = false ->
  isSucceeded (getBuildStatus e) = false ->
  isFailed (getBuildStatus e) && negb (isCancelled (getBuildStatus e)) = false ->
  processMessage env m h =
  (Normal tt,
   (snd (sendNotifications
           {| event := e; previewUrl := None; liveUrl := None; logs := [] |}
           env h)
    ++ [EAck (id m)])%list).
Proof.
  intros Hbody Hinv Hskip Hs Hf. unfold processMessage, try_catch.
  rewrite Hbody, Hinv, Hskip. unfold notifyEvent. rewrite Hs, Hf.
  unfold bind, ret. rewrite app_nil_r.
  rewrite sendNotifications_normal. unfold ack, emit. reflexivity.
Qed.

Lemma sendCalls_app (n : string) (d1 d2 : list Eff) :
  sendCalls n (d1 ++ d2) = (sendCalls n d1 ++ sendCalls n d2)%list.
Proof. unfold sendCalls. apply flat_map_app. Qed.

Lemma validated_wellFormed (e : CloudflareEvent)
    (previewUrl liveUrl : option string) (logs : list string) :
  invalidStructure (Some e) = false ->
  wellFormed {| event := e; previewUrl := previewUrl; liveUrl := liveUrl;
                logs := logs |}.
Proof.
  unfold invalidStructure, wellFormed. cbn [event]. intros Hinv.
  apply orb_false_iff in Hinv. destruct Hinv as [Hinv Hm].
  apply orb_false_iff in Hinv. destruct Hinv as [_ Hp].
  destruct (payload e), (metadata e); try discriminate.
  split; discriminate.
Qed.

(** X14 -- A fetcher that throws costs the notification.  When
    [fetchBuildUrls] (for a succeeded event) or [fetchBuildLogs] (for a
    failed event that is not cancelled) rejects, the round of the loop
    consists of the call of the fetcher, one [console.error] with the error
    and the acknowledgement: [sendNotifications] is not reached. *)
Theorem fetcher_exception_skips_notification (env : Env) (m : Message)
    (e : CloudflareEvent) (h : list Eff) (err : Exn) :
  body m = Some e -> invalidStructure (Some e) = false ->
  skippedType e = false ->
  (isSucceeded (getBuildStatus e) = true ->
   fetchBuildUrlsResult h e env = Throw err ->
   processMessage env m h
   = (Normal tt,
      [EFetchBuildUrls e;
       EConsole LogError "Error processing message:" (Some err);
       EAck (id m)])) /\
  (isSucceeded (getBuildStatus e) = false ->
   isFailed (getBuildStatus e) = true ->
   isCancelled (getBuildStatus e) = false ->
   fetchBuildLogsResult h e env = Throw err ->
   processMessage env m h
   = (Normal tt,
      [EFetchBuildLogs e;
       EConsole LogError "Error processing message:" (Some err);
       EAck (id m)])).
Proof.
  intros Hbody Hinv Hskip. split.
  - intros Hs Hthrow.
    rewrite (processMessage_succeeded env m e h Hbody Hinv Hskip Hs), Hthrow.
    reflexivity.
  - intros Hs Hf Hc Hthrow.
    rewrite (processMessage_failed env m e h Hbody Hinv Hskip Hs), Hthrow;
      [reflexivity | now rewrite Hf, Hc].
Qed.

(** X15 -- The fetched URLs reach the payloads.  For a succeeded event
    whose URLs were fetched, the queue handler makes a configured Slack or
    Discord notifier send, once, the success message built from the event
    and exactly those URLs; the event passed the validation, so the Discord
    builder does not throw. *)
Theorem succeeded_event_payloads (env : Env) (m : Message)
    (e : CloudflareEvent) (h : list Eff) (pu lu : option string) :
  body m = Some e -> invalidStructure (Some e) = false ->
  skippedType e = false ->
  isSucceeded (getBuildStatus e) = true ->
  fetchBuildUrlsResult h e env = Normal (pu, lu) ->
  let d := snd (processMessage env m h) in
  let isProduction := isProductionBranch (metaField branch (triggerMeta e)) in
  (forall u,
      SLACK_WEBHOOK_URL env = Some u -> u <> "" ->
      sendCalls "Slack" d
      = [(u, SlackBody (Slack.buildSuccessMessage e isProduction pu lu))]) /\
  (forall u,
      DISCORD_WEBHOOK_URL env = Some u -> u <> "" ->
      exists dp,
        Discord.buildSuccessMessage e isProduction pu lu = Normal dp /\
        sendCalls "Discord" d = [(u, DiscordBody dp)]).
Proof.
  intros Hbody Hinv Hskip Hs Hfetch. cbv zeta.
  rewrite (processMessage_succeeded env m e h Hbody Hinv Hskip Hs), Hfetch.
  cbn [snd fst].
  set (data := {| event := e; previewUrl := pu; liveUrl := lu; logs := [] |}).
  destruct (sendNotifications_calls data env (h ++ [EFetchBuildUrls e])%list)
    as [d2 [Hrun Hcalls]].
  rewrite Hrun. cbn [snd].
  assert (Hd : forall n, sendCalls n (EFetchBuildUrls e :: d2 ++ [EAck (id m)])
                         = sendCalls n d2).
  { intros n. change (EFetchBuildUrls e :: d2 ++ [EAck (id m)])%list
      with ([EFetchBuildUrls e] ++ d2 ++ [EAck (id m)])%list.
    rewrite !sendCalls_app. cbn. apply app_nil_r. }
  split.
  - intros u Hu Hne. rewrite Hd.
    destruct (Hcalls {| notifier := SlackNotifier;
                        webhookUrlKey := SLACK_WEBHOOK_URL |} u)
      as [_ Hsend]; [cbn; auto | exact Hu | exact Hne | ].
    destruct (Hsend (SlackBody (Slack.buildPayload data)) eq_refl)
      as [Hsc _].
    cbn [notifier notifier_name SlackNotifier] in Hsc. rewrite Hsc.
    unfold Slack.buildPayload. cbn [event data]. rewrite Hs. reflexivity.
  - intros u Hu Hne.
    destruct (BuilderFacts.discord_total data
                (validated_wellFormed e pu lu [] Hinv)) as [dp Hdp].
    exists dp. split.
    + rewrite <- Hdp. unfold Discord.buildPayload. cbn [event data].
      rewrite Hs. reflexivity.
    + rewrite Hd.
      destruct (Hcalls {| notifier := DiscordNotifier;
                          webhookUrlKey := DISCORD_WEBHOOK_URL |} u)
        as [_ Hsend]; [cbn; auto | exact Hu | exact Hne | ].
      apply Hsend. cbn [buildPayload notifier DiscordNotifier].
      now rewrite Hdp.
Qed.

(** X16 -- The fetched logs reach the payloads.  For a failed event that
    is not cancelled and whose logs were fetched, the queue handler makes a
    configured Slack or Discord notifier send, once, the failure message
    built from the event and exactly those log lines. *)
Theorem failed_event_payloads (env : Env) (m : Message)
    (e : CloudflareEvent) (h : list Eff) (lines : list string) :
  body m = Some e -> invalidStructure (Some e) = false ->
  skippedType e = false ->
  isSucceeded (getBuildStatus e) = false ->
  isFailed (getBuildStatus e) = true ->
  isCancelled (getBuildStatus e) = false ->
  fetchBuildLogsResult h e env = Normal lines ->
  let d := snd (processMessage env m h) in
  (forall u,
      SLACK_WEBHOOK_URL env = Some u -> u <> "" ->
      sendCalls "Slack" d
      = [(u, SlackBody (Slack.buildFailureMessage e lines))]) /\
  (forall u,
      DISCORD_WEBHOOK_URL env = Some u -> u <> "" ->
      exists dp,
        Discord.buildFailureMessage e lines = Normal dp /\
        sendCalls "Discord" d = [(u, DiscordBody dp)]).
Proof.
  intros Hbody Hinv Hskip Hs Hf Hc Hfetch. cbv zeta.
  rewrite (processMessage_failed env m e h Hbody Hinv Hskip Hs), Hfetch
    by (now rewrite Hf, Hc).
  cbn [snd].
  set (data := {| event := e; previewUrl := None; liveUrl := None;
                  logs := lines |}).
  destruct (sendNotifications_calls data env (h ++ [EFetchBuildLogs e])%list)
    as [d2 [Hrun Hcalls]].
  rewrite Hrun. cbn [snd].
  assert (Hd : forall n, sendCalls n (EFetchBuildLogs e :: d2 ++ [EAck (id m)])
                         = sendCalls n d2).
  { intros n. change (EFetchBuildLogs e :: d2 ++ [EAck (id m)])%list
      with ([EFetchBuildLogs e] ++ d2 ++ [EAck (id m)])%list.
    rewrite !sendCalls_app. cbn. apply app_nil_r. }
  split.
  - intros u Hu Hne. rewrite Hd.
    destruct (Hcalls {| notifier := SlackNotifier;
                        webhookUrlKey := SLACK_WEBHOOK_URL |} u)
      as [_ Hsend]; [cbn; auto | exact Hu | exact Hne | ].
    destruct (Hsend (SlackBody (Slack.buildPayload data)) eq_refl)
      as [Hsc _].
    cbn [notifier notifier_name SlackNotifier] in Hsc. rewrite Hsc.
    unfold Slack.buildPayload. cbn [event data logs]. rewrite Hs, Hf.
    reflexivity.
  - intros u Hu Hne.
    destruct (BuilderFacts.discord_total data
                (validated_wellFormed e None None lines Hinv)) as [dp Hdp].
    exists dp. split.
    + rewrite <- Hdp. unfold Discord.buildPayload. cbn [event data logs].
      rewrite Hs, Hf. reflexivity.
    + rewrite Hd.
      destruct (Hcalls {| notifier := DiscordNotifier;
                          webhookUrlKey := DISCORD_WEBHOOK_URL |} u)
        as [_ Hsend]; [cbn; auto | exact Hu | exact Hne | ].
      apply Hsend. cbn [buildPayload notifier DiscordNotifier].
      now rewrite Hdp.
Qed.

Lemma forEach_processMessage_run (env : Env) (batch : list Message)
    (h : list Eff) :
  forEach (processMessage env) batch h
  = (Normal tt, snd (forEach (processMessage env) batch h)).
Proof.
  revert h. induction batch as [| m batch IH]; intros h; [reflexivity | ].
  cbn [forEach]. unfold bind.
  destruct (processMessage_shape env m h) as [d1 [Hrun _]].
  rewrite Hrun, (IH (h ++ d1)%list). reflexivity.
Qed.

Lemma forEach_processMessage_cons (env : Env) (m : Message)
    (batch : list Message) (h : list Eff) :
  snd (forEach (processMessage env) (m :: batch) h)
  = (snd (processMessage env m h)
     ++ snd (forEach (processMessage env) batch
               (h ++ snd (processMessage env m h))))%list.
Proof.
  cbn [forEach]. unfold bind.
  destruct (processMessage_shape env m h) as [d1 [Hrun _]].
  rewrite Hrun. cbn [snd].
  rewrite (forEach_processMessage_run env batch (h ++ d1)%list).
  reflexivity.
Qed.

(** X17 -- A batch that holds nothing to notify.  When every message of
    the batch is structurally invalid or carries a started or queued event,
    the handler only writes to the console and acknowledges: no fetcher, no
    builder, no [send] and no request. *)
Theorem quiet_batch_makes_no_call (batch : list Message) (env : Env)
    (h : list Eff) :
  Forall (fun m => invalidStructure (body m) = true \/
                   exists e, body m = Some e /\ skippedType e = true) batch ->
  forall x, In x (snd (queue batch env h)) ->
            isConsole x = true \/ isAck x = true.
Proof.
  intros Hall. unfold queue. destruct (hasWebhook env); cbn [negb].
  - revert h. induction Hall as [| m batch Hm _ IH]; intros h x Hin.
    + destruct Hin.
    + rewrite forEach_processMessage_cons in Hin.
      apply in_app_iff in Hin. destruct Hin as [Hin | Hin];
        [ | exact (IH _ x Hin)].
      assert (Hrun : processMessage env m h
                     = (Normal tt,
                        [EConsole LogError "Invalid event structure:" None;
                         EAck (id m)])
                     \/ processMessage env m h = (Normal tt, [EAck (id m)])).
      { destruct (invalidStructure (body m)) eqn:Hinv.
        - left. now apply processMessage_invalid.
        - destruct Hm as [Hm | [e [Hbody Hskip]]]; [discriminate | ].
          right. rewrite Hbody in Hinv.
          now apply (processMessage_skipped env m e). }
      destruct Hrun as [Hrun | Hrun]; rewrite Hrun in Hin; cbn [snd In] in Hin.
      * destruct Hin as [<- | [<- | []]]; [now left | now right].
      * destruct Hin as [<- | []]. now right.
  - intros x. unfold bind, console_error, emit. rewrite forEach_ack.
    cbn [snd app]. intros [<- | Hin]; [now left | ].
    apply in_map_iff in Hin. destruct Hin as [m [<- _]]. now right.
Qed.

(** X18 -- The rounds of the loop follow one another.  With a webhook
    configured, what the handler does on two batches in a row is what it
    does on the first, followed by what it does on the second after the
    first: no message changes the processing of another except through
    what the collaborators have seen. *)
Theorem queue_batches_compose (b1 b2 : list Message) (env : Env)
    (h : list Eff) :
  hasWebhook env = true ->
  queue (b1 ++ b2) env h
  = (Normal tt,
     (snd (queue b1 env h)
      ++ snd (queue b2 env (h ++ snd (queue b1 env h))))%list).
Proof.
  intros Hweb. unfold queue. rewrite Hweb. cbn [negb].
  rewrite forEach_processMessage_run. f_equal.
  revert h. induction b1 as [| m b1 IH]; intros h.
  - cbn [app forEach ret snd]. unfold ret. cbn [snd app].
    now rewrite app_nil_r.
  - cbn [app]. rewrite !forEach_processMessage_cons, IH.
    rewrite <- !app_assoc. reflexivity.
Qed.

Lemma hasWebhook_configured (env : Env) :
  hasWebhook env = true <-> configuredUrls env <> [].
Proof.
  unfold hasWebhook, js_or, configuredUrls, truthy. cbn [flat_map].
  destruct (SLACK_WEBHOOK_URL env) as [s|], (LARK_WEBHOOK_URL env) as [l|],
    (DISCORD_WEBHOOK_URL env) as [d|]; cbn;
    repeat match goal with
      | E : (?x =? "") = _ |- context [?x =? ""] => rewrite E; cbn
      | |- context [?x =? ""] => destruct (x =? "") eqn:?; cbn
      end;
    split; intros Hx; try reflexivity; try discriminate;
    try (exfalso; now apply Hx).
Qed.

Lemma configuredCount_urls (env : Env) :
  configuredCount (NOTIFIERS (H := H)) env
  = List.length (configuredUrls env).
Proof.
  unfold configuredCount, NOTIFIERS, configuredUrls, truthy.
  cbn [filter flat_map webhookUrlKey].
  destruct (SLACK_WEBHOOK_URL env) as [s|], (LARK_WEBHOOK_URL env) as [l|],
    (DISCORD_WEBHOOK_URL env) as [d|]; cbn;
    repeat match goal with
      | E : (?x =? "") = _ |- context [?x =? ""] => rewrite E; cbn
      | |- context [?x =? ""] => destruct (x =? "") eqn:?; cbn
      end;
    reflexivity.
Qed.

Lemma notifyTask_no_warning (n : Notifier LarkPayload) (u : string)
    (data : NotificationData) (h : list Eff) :
  oneRequest n ->
  filter isWarning (snd (notifyTask n u data h)) = [].
Proof.
  intros Hone. rewrite notifyTask_exact.
  destruct (buildPayload n data) as [p | err]; [ | reflexivity].
  destruct (Hone u p (h ++ [EBuildPayload (notifier_name n);
                            ESend (notifier_name n) u p])%list) as [r Hr].
  rewrite Hr. destruct r as [[] | err]; reflexivity.
Qed.

Lemma startTasks_no_warning (configs : list (NotifierConfig LarkPayload))
    (data : NotificationData) (env : Env) :
  Forall (fun c => oneRequest (notifier c)) configs ->
  forall promises h,
    filter isWarning (snd (startTasks configs data env promises h)) = [].
Proof.
  intros Hall. induction Hall as [| c configs Hc _ IH]; intros promises h.
  - reflexivity.
  - cbn [startTasks].
    destruct (webhookUrlKey c env) as [u|]; [ | apply IH].
    destruct (truthy (Some u)); cbn [negb]; [ | apply IH].
    unfold bind, spawn.
    pose proof (notifyTask_no_warning (notifier c) u data h Hc) as Htask.
    destruct (notifyTask (notifier c) u data h) as [r d0].
    specialize (IH (promises ++ [r])%list (h ++ d0)%list).
    destruct (startTasks configs data env _ _) as [r2 d2].
    cbn [snd] in *. now rewrite filter_app, Htask, IH.
Qed.

Lemma sendNotifications_no_warning (data : NotificationData) (env : Env)
    (h : list Eff) :
  hasWebhook env = true ->
  filter isWarning (snd (sendNotifications data env h)) = [].
Proof.
  intros Hweb. unfold sendNotifications, bind.
  destruct (startTasks_shape NOTIFIERS data env NOTIFIERS_oneRequest
              [] h (Forall_nil _))
    as [promises [d [Hrun [_ [Hlen _]]]]].
  pose proof (startTasks_no_warning NOTIFIERS data env NOTIFIERS_oneRequest
                [] h) as Hnw.
  rewrite Hrun in Hnw |- *. cbn [snd] in Hnw.
  assert (Hpos : List.length promises <> 0%nat).
  { rewrite Hlen, configuredCount_urls. cbn [List.length Nat.add].
    apply hasWebhook_configured in Hweb.
    destruct (configuredUrls env); [contradiction | discriminate]. }
  apply Nat.eqb_neq in Hpos. rewrite Hpos.
  unfold lift. cbn [snd]. now rewrite filter_app, Hnw.
Qed.

Lemma processMessage_no_warning (env : Env) (m : Message) (h : list Eff) :
  hasWebhook env = true ->
  filter isWarning (snd (processMessage env m h)) = [].
Proof.
  intros Hweb.
  destruct (invalidStructure (body m)) eqn:Hinv.
  - now rewrite processMessage_invalid.
  - destruct (body m) as [e|] eqn:Hbody; [ | discriminate].
    destruct (skippedType e) eqn:Hskip.
    + now rewrite (processMessage_skipped env m e).
    + destruct (isSucceeded (getBuildStatus e)) eqn:Hs.
      * rewrite (processMessage_succeeded env m e h Hbody Hinv Hskip Hs).
        destruct (fetchBuildUrlsResult h e env); [ | reflexivity].
        cbn [snd filter isWarning]. rewrite filter_app.
        now rewrite sendNotifications_no_warning.
      * destruct (isFailed (getBuildStatus e)
                  && negb (isCancelled (getBuildStatus e))) eqn:Hf.
        -- rewrite (processMessage_failed env m e h Hbody Hinv Hskip Hs Hf).
           destruct (fetchBuildLogsResult h e env); [ | reflexivity].
           cbn [snd filter isWarning]. rewrite filter_app.
           now rewrite sendNotifications_no_warning.
        -- rewrite (processMessage_other env m e h Hbody Hinv Hskip Hs Hf).
           cbn [snd]. rewrite filter_app.
           now rewrite sendNotifications_no_warning.
Qed.

(** X19 -- The two checks for a webhook agree.  The queue handler's test
    of the three URLs holds exactly when some notifier is configured, so
    the warning of [sendNotifications] for an empty registry is never
    written when the queue handler runs: without a webhook the handler
    stops before, with one the registry is not empty. *)
Theorem queue_never_warns (batch : list Message) (env : Env) (h : list Eff) :
  (hasWebhook env = true <-> configuredUrls env <> []) /\
  count isWarning (snd (queue batch env h)) = 0.
Proof.
  split; [apply hasWebhook_configured | ].
  unfold count, queue. destruct (hasWebhook env) eqn:Hweb; cbn [negb].
  - revert h. induction batch as [| m batch IH]; intros h; [reflexivity | ].
    rewrite forEach_processMessage_cons, filter_app, length_app.
    rewrite (processMessage_no_warning env m h Hweb), IH. reflexivity.
  - unfold bind, console_error, emit. rewrite forEach_ack.
    cbn [snd app filter isWarning].
    induction batch as [| m batch IH]; [reflexivity | exact IH].
Qed.

End WithCollaborators.

(** The Slack task of the test-suite, the endpoint answering 500. *)
Lemma notifyTask_logs_once_witness :
  exists d,
    notifyTask (SlackNotifier (H := Spec.helpers) (W := Samples.slackDown))
      "https://hooks.slack.com/services/test" Samples.mockData []
    = (Normal tt, d) /\
    count isConsole d = 1.
Proof.
  destruct (notifyTask_logs_once (H := Spec.helpers) (W := Samples.slackDown)
              {| notifier := SlackNotifier (H := Spec.helpers)
                               (W := Samples.slackDown);
                 webhookUrlKey := SLACK_WEBHOOK_URL |}
              "https://hooks.slack.com/services/test" Samples.mockData [])
    as [d [Hrun [Hcount _]]]; [cbn; auto | ].
  exists d. split; assumption.
Defined.

(** Slack only: the Discord notifier, whose URL is empty, is not called. *)
Lemma unconfigured_notifier_is_never_called_witness :
  let d := snd (sendNotifications (H := Spec.helpers)
                  (W := MoreSamples.allUp) Samples.mockData
                  MoreSamples.slackOnlyEnv []) in
  buildCalls "Discord" d = 0 /\ sendCalls "Discord" d = [].
Proof.
  apply (unconfigured_notifier_is_never_called (H := Spec.helpers)
           (W := MoreSamples.allUp) Samples.mockData MoreSamples.slackOnlyEnv
           []
           {| notifier := DiscordNotifier (H := Spec.helpers)
                           (W := MoreSamples.allUp);
              webhookUrlKey := DISCORD_WEBHOOK_URL |});
    [cbn; auto | reflexivity].
Defined.

(** Three platforms, the Lark builder throws. *)
Lemma throwing_builder_is_contained_witness :
  exists d,
    sendNotifications (H := Spec.helpers) (W := MoreSamples.larkBuilderDown)
      Samples.mockData Samples.multiPlatformEnv [] = (Normal tt, d) /\
    sendCalls "Lark" d = [] /\
    In (EConsole LogError "✗ Failed to send to Lark:"
          (Some (TypeError "card is undefined"))) d.
Proof.
  destruct (throwing_builder_is_contained (H := Spec.helpers)
              (W := MoreSamples.larkBuilderDown) Samples.mockData
              Samples.multiPlatformEnv []
              {| notifier := LarkNotifier (W := MoreSamples.larkBuilderDown);
                 webhookUrlKey := LARK_WEBHOOK_URL |}
              "https://open.feishu.cn/open-apis/bot/v2/hook/test"
              (TypeError "card is undefined"))
    as [d [Hrun [_ [Hs Hin]]]];
    [cbn; auto | reflexivity | discriminate | reflexivity | ].
  exists d. repeat split; assumption.
Defined.

(** The succeeded event of the test-suite when the API is down. *)
Lemma fetcher_exception_skips_notification_witness :
  processMessage (H := Spec.helpers) (W := Samples.apiDown)
    Samples.multiPlatformEnv Samples.mockMessage []
  = (Normal tt,
     [EFetchBuildUrls Samples.mockEvent;
      EConsole LogError "Error processing message:"
        (Some (Error "Network error"));
      EAck "message-1"]).
Proof.
  apply (fetcher_exception_skips_notification (H := Spec.helpers)
           (W := Samples.apiDown) Samples.multiPlatformEnv
           Samples.mockMessage Samples.mockEvent []
           (Error "Network error")); reflexivity.
Defined.

(** The succeeded event of the test-suite with its URLs fetched. *)
Lemma succeeded_event_payloads_witness :
  sendCalls "Slack"
    (snd (processMessage (H := Spec.helpers) (W := MoreSamples.allUp)
            MoreSamples.slackOnlyEnv Samples.mockMessage []))
  = [("https://hooks.slack.com/services/test",
      SlackBody
        (Slack.buildSuccessMessage (H := Spec.helpers) Samples.mockEvent true
           (Some "https://preview-abc123.workers.dev")
           (Some "https://test-worker.my-account.workers.dev")))].
Proof.
  apply (succeeded_event_payloads (H := Spec.helpers)
           (W := MoreSamples.allUp) MoreSamples.slackOnlyEnv
           Samples.mockMessage Samples.mockEvent []
           (Some "https://preview-abc123.workers.dev")
           (Some "https://test-worker.my-account.workers.dev"));
    try reflexivity.
  discriminate.
Defined.

(** The failed event of the test-suite with its logs fetched. *)
Lemma failed_event_payloads_witness :
  sendCalls "Slack"
    (snd (processMessage (H := Spec.helpers) (W := MoreSamples.allUp)
            MoreSamples.slackOnlyEnv MoreSamples.failedMessage []))
  = [("https://hooks.slack.com/services/test",
      SlackBody
        (Slack.buildFailureMessage (H := Spec.helpers)
           MoreSamples.failedEvent MoreSamples.buildLogs))].
Proof.
  apply (failed_event_payloads (H := Spec.helpers)
           (W := MoreSamples.allUp) MoreSamples.slackOnlyEnv
           MoreSamples.failedMessage MoreSamples.failedEvent []
           MoreSamples.buildLogs);
    try reflexivity.
  discriminate.
Defined.

(** A started event and a message without body. *)
Lemma quiet_batch_makes_no_call_witness :
  Forall (fun x => isConsole x = true \/ isAck x = true)
    (snd (queue (H := Spec.helpers) (W := MoreSamples.allUp)
            [MoreSamples.startedMessage; MoreSamples.emptyMessage]
            MoreSamples.slackOnlyEnv [])).
Proof.
  apply Forall_forall.
  apply (quiet_batch_makes_no_call (H := Spec.helpers)
           (W := MoreSamples.allUp)).
  constructor; [right; eexists; split; reflexivity | ].
  constructor; [left; reflexivity | constructor].
Defined.

(** The batch of the test-suite, a started event and then a succeeded
    one, taken in two parts. *)
Lemma queue_batches_compose_witness :
  queue (H := Spec.helpers) (W := MoreSamples.allUp)
    ([MoreSamples.startedMessage] ++ [Samples.mockMessage])
    MoreSamples.slackOnlyEnv []
  = (Normal tt,
     (snd (queue (H := Spec.helpers) (W := MoreSamples.allUp)
             [MoreSamples.startedMessage] MoreSamples.slackOnlyEnv [])
      ++ snd (queue (H := Spec.helpers) (W := MoreSamples.allUp)
                [Samples.mockMessage] MoreSamples.slackOnlyEnv
                ([] ++ snd (queue (H := Spec.helpers)
                              (W := MoreSamples.allUp)
                              [MoreSamples.startedMessage]
                              MoreSamples.slackOnlyEnv []))))%list).
Proof.
  apply (queue_batches_compose (H := Spec.helpers) (W := MoreSamples.allUp)).
  reflexivity.
Defined.

End DispatchFacts.
